(** * Sentiment analysis service: a shallow embedding and its properties

    The development follows the Python sources

    - [backend/services/sentiment_service.py]: the three-tier sentiment
      cascade, the aspect extractor and the insight synthesizer;
    - [backend/app.py]: the upload filter, the text-column resolution of
      [process_file], the per-row result it builds from a verdict, its row
      loop and its summary statistics;
    - [backend/services/scraper_service.py]: the extraction of the ASIN,
      the paginated review retrieval with its two passes and the mock
      backfill, and the Flipkart scraper.

    Conventions of the embedding.

    - A Python [str] is a [string]; its characters are the code points below
      256, on which [lower], [strip] and [in] act as Python's do.
    - Python numbers ([int] and [float]) that end up in a verdict are exact
      rationals ([Q]); equality of scores is [Qeq].  Integer counters are
      [nat] or [Z] as the code needs.  The scores of the keyword tier are
      checked again in binary64 arithmetic in a section of their own.
    - A [dict] with string keys is a [gmap string _]; JSON-like values are
      the inductive [json].
    - Code that can raise returns a [result]; code that issues HTTP requests
      to the generative provider runs in the monad [M], which threads the
      log of requests issued so far.
    - What lives outside the repository (the HTTP transport, [json.loads],
      the VADER lexicon, the random generator, the clock) is an oracle held
      in an environment record. *)

From Stdlib Require Import Ascii String ZArith QArith Qminmax Lqa Lia.
From Stdlib Require Import Floats.PrimFloat.
From stdpp Require Import base option strings gmap list pretty.

#[local] Set Warnings "-register-all".

(** ** Python strings *)

Module Py.

(** [c.lower()] for a code point below 256: the ASCII capitals and the
    Latin-1 capitals (192..222 without the multiplication sign 215) move
    up by 32. *)
Definition lower_char (c : ascii) : ascii :=
  let n := nat_of_ascii c in
  if ((65 <=? n) && (n <=? 90))%nat then ascii_of_nat (n + 32)
  else if ((192 <=? n) && (n <=? 222) && negb (n =? 215))%nat
       then ascii_of_nat (n + 32)
  else c.

(** [s.lower()] *)
Fixpoint lower (s : string) : string :=
  match s with
  | EmptyString => EmptyString
  | String c s' => String (lower_char c) (lower s')
  end.

(** [w in s] for two strings: [w] occurs as a contiguous substring. *)
Fixpoint contains (w s : string) : bool :=
  String.prefix w s ||
  match s with
  | EmptyString => false
  | String _ s' => contains w s'
  end.

(** [any(w in s for w in ws)] *)
Definition any_in (ws : list string) (s : string) : bool :=
  existsb (fun w => contains w s) ws.

(** [sum(1 for x in l if p x)] *)
Definition sum1 {A} (p : A -> bool) (l : list A) : nat :=
  length (List.filter p l).

(** [s.split(sep)] for a one-character separator. *)
Fixpoint split (sep : ascii) (s : string) : list string :=
  match s with
  | EmptyString => [EmptyString]
  | String c s' =>
      if Ascii.eqb c sep then EmptyString :: split sep s'
      else match split sep s' with
           | h :: t => String c h :: t
           | [] => [String c EmptyString]
           end
  end.

(** [c.isspace()] for a code point below 256. *)
Definition isspace (c : ascii) : bool :=
  let n := nat_of_ascii c in
  (((9 <=? n) && (n <=? 13)) || ((28 <=? n) && (n <=? 32))
   || (n =? 133) || (n =? 160))%nat.

Fixpoint lstrip (s : string) : string :=
  match s with
  | EmptyString => EmptyString
  | String c s' => if isspace c then lstrip s' else s
  end.

(** [s.strip()] *)
Definition strip (s : string) : string :=
  String.rev (lstrip (String.rev (lstrip s))).

(** [s.find(c)]: the first index of [c], or -1. *)
Fixpoint find (c : ascii) (s : string) : Z :=
  match s with
  | EmptyString => (-1)%Z
  | String a s' =>
      if Ascii.eqb a c then 0%Z
      else let i := find c s' in if (i <? 0)%Z then (-1)%Z else (i + 1)%Z
  end.

(** [s.rfind(c)]: the last index of [c], or -1. *)
Fixpoint rfind (c : ascii) (s : string) : Z :=
  match s with
  | EmptyString => (-1)%Z
  | String a s' =>
      let i := rfind c s' in
      if (0 <=? i)%Z then (i + 1)%Z
      else if Ascii.eqb a c then 0%Z else (-1)%Z
  end.

(** [s[i:j]] for [0 <= i <= j]. *)
Definition slice (s : string) (i j : Z) : string :=
  String.substring (Z.to_nat i) (Z.to_nat (j - i)) s.

(** [l[:n]] *)
Definition take_first {A} (n : nat) (l : list A) : list A := firstn n l.

(** [s.rsplit(sep, 1)] for a one-character separator: the string cut at
    its last separator, or the string alone when it has none. *)
Fixpoint rsplit1 (sep : ascii) (s : string) : list string :=
  match s with
  | EmptyString => [EmptyString]
  | String c s' =>
      match rsplit1 sep s' with
      | [h; t] => [String c h; t]
      | _ => if Ascii.eqb c sep then [EmptyString; s'] else [s]
      end
  end.

End Py.

(** ** JSON values and dictionaries *)

Inductive json :=
  | JNull
  | JBool (b : bool)
  | JNum (q : Q)
  | JStr (s : string)
  | JArr (l : list json)
  | JObj (d : gmap string json).

Abbreviation dict := (gmap string json).

(** [d.get(k, dflt)] *)
Definition dict_get_default (d : dict) (k : string) (dflt : json) : json :=
  default dflt (d !! k).

Definition JStrs (l : list string) : json := JArr (JStr <$> l).

(** A Python [int] counter used in float arithmetic. *)
Definition Qnat (n : nat) : Q := inject_Z (Z.of_nat n).

(** ** Exceptions *)

Inductive exn :=
  | KeyError (k : string)
  | AttributeError
  | TypeError
  | ValueError (msg : string)
  | RequestError.

Inductive result (A : Type) :=
  | Ok (a : A)
  | Raise (e : exn).
Arguments Ok {A} a.
Arguments Raise {A} e.

Definition result_bind {A B} (r : result A) (k : A -> result B) : result B :=
  match r with
  | Ok a => k a
  | Raise e => Raise e
  end.

(** [d[k]] *)
Definition dict_index (d : dict) (k : string) : result json :=
  match d !! k with
  | Some v => Ok v
  | None => Raise (KeyError k)
  end.

(** ** Requests to the generative provider *)

(** A review as the synthesizer reads it: the keys it looks up with
    [review.get], each absent ([None]) or present with the type that the
    lexicon tier, the keyword tier and the scrapers give it.  A value of
    another type, such as the generative tier can pass through, is
    outside this record: what is proved of the synthesizer is proved of
    batches of such reviews. *)
Record review := {
  r_text : option string;
  r_sentiment : option string;
  r_score : option Q;
  r_rating : option Q;
  r_strengths : option (list string);
  r_weaknesses : option (list string)
}.

(** What is sent to the generative provider: the prompt is determined by
    the review text, or by the product name and the summarised reviews. *)
Inductive request :=
  | SentimentRequest (model : string) (text : string)
  | InsightsRequest (product_name : string) (reviews : list review).

(** ** The monad of provider calls

    A computation receives the log of the requests issued so far and
    returns its outcome with the extended log. *)

Definition M (A : Type) : Type := list request -> result A * list request.

Definition ret {A} (a : A) : M A := fun log => (Ok a, log).

Definition raise {A} (e : exn) : M A := fun log => (Raise e, log).

Definition bind {A B} (m : M A) (k : A -> M B) : M B :=
  fun log =>
    match m log with
    | (Ok a, log') => k a log'
    | (Raise e, log') => (Raise e, log')
    end.

(** [try: m except Exception as e: handler e] *)
Definition try_except {A} (m : M A) (handler : exn -> M A) : M A :=
  fun log =>
    match m log with
    | (Ok a, log') => (Ok a, log')
    | (Raise e, log') => handler e log'
    end.

Definition lift {A} (r : result A) : M A := fun log => (r, log).

Notation "'let!' x ':=' m 'in' k" := (bind m (fun x => k))
  (at level 10, x name, m at level 100, k at level 200).

(** ** [services/sentiment_service.py] *)

Module SentimentService.

(** The module-level state and the collaborators outside the repository. *)
Record env := {
  (** [os.getenv("GEMINI_API_KEY")] *)
  GEMINI_API_KEY : option string;
  (** [os.getenv("GEMINI_MODEL", "gemini-1.5-flash")] *)
  GEMINI_MODEL : string;
  (** whether the import of VADER succeeded *)
  vader_available : bool;
  (** [vader_analyzer.polarity_scores(text)['compound']]; [None] when the
      call raises *)
  vader_compound : string -> option Q;
  (** the text of the first candidate of the provider's answer to a
      request; [None] when the request, the status check, the decoding
      of the body or the path into it raises *)
  provider_text : request -> option string;
  (** [json.loads] on a text that starts with an opening brace; [None]
      when it raises *)
  json_loads : string -> option dict;
  (** the order in which [list(set(l))] enumerates the set *)
  list_of_set : gset string -> list string
}.

(** [if GEMINI_API_KEY:] *)
Definition has_api_key (e : env) : bool :=
  match GEMINI_API_KEY e with
  | Some k => negb (String.eqb k "")
  | None => false
  end.

(** [requests.post(...)] up to [response_text = ...]. *)
Definition post (e : env) (req : request) : M string :=
  fun log =>
    (match provider_text e req with
     | Some t => Ok t
     | None => Raise RequestError
     end, (log ++ [req])%list).

Definition loads (e : env) (s : string) : result dict :=
  match json_loads e s with
  | Some d => Ok d
  | None => Raise (ValueError "JSONDecodeError")
  end.

(** [v.lower()] on a JSON value: only a string has the method. *)
Definition json_lower (v : json) : result string :=
  match v with
  | JStr s => Ok (Py.lower s)
  | _ => Raise AttributeError
  end.

Definition positive_words : list string :=
  ["good"; "great"; "excellent"; "amazing"; "love"; "best"; "perfect";
   "recommend"; "happy"; "satisfied"].

Definition negative_words : list string :=
  ["bad"; "poor"; "terrible"; "awful"; "hate"; "worst"; "disappointed";
   "waste"; "unhappy"; "broken"].

Definition aspect_keywords : list (string * list string) :=
  [("quality", ["quality"; "build"; "construction"; "durability"; "sturdy"; "solid"]);
   ("price", ["price"; "cost"; "value"; "expensive"; "cheap"; "affordable"; "worth"]);
   ("performance", ["performance"; "speed"; "fast"; "slow"; "responsive"; "lag"]);
   ("design", ["design"; "look"; "style"; "appearance"; "aesthetic"; "beautiful"; "ugly"]);
   ("usability", ["easy to use"; "user friendly"; "intuitive"; "complicated"; "difficult"; "simple"]);
   ("customer service", ["service"; "support"; "help"; "assistance"; "representative"; "warranty"]);
   ("delivery", ["delivery"; "shipping"; "arrived"; "package"; "box"; "packaging"])].

(** [0.7 if sentiment == "positive" else (0.3 if sentiment == "negative" else 0.5)] *)
Definition aspect_score (sentiment : string) : Q :=
  if String.eqb sentiment "positive" then 0.7
  else if String.eqb sentiment "negative" then 0.3
  else 0.5.

Definition extract_aspects_basic (text overall_sentiment : string)
  : gmap string json :=
  let text_lower := Py.lower text in
  foldl
    (fun (aspects : gmap string json) '(aspect, keywords) =>
       if Py.any_in keywords text_lower then
         let sentiment := overall_sentiment in
         let score := aspect_score sentiment in
         <[aspect := JObj {[ "sentiment" := JStr sentiment;
                             "score" := JNum score ]}]> aspects
       else aspects)
    ∅ aspect_keywords.

Definition strength_indicators : list string :=
  ["good"; "great"; "excellent"; "love"; "best"; "perfect"; "recommend";
   "happy"; "satisfied"; "like"].

Definition weakness_indicators : list string :=
  ["bad"; "poor"; "terrible"; "hate"; "worst"; "disappointed"; "waste";
   "unhappy"; "broken"; "issue"; "problem"].

Definition extract_strengths_weaknesses (text : string) (strengths : bool)
  : list string :=
  let sentences := Py.split "."%char text in
  let indicators :=
    if strengths then strength_indicators else weakness_indicators in
  let results :=
    foldl
      (fun results sentence =>
         if Py.any_in indicators (Py.lower sentence) then
           let clean_sentence := Py.strip sentence in
           if negb (String.eqb clean_sentence "")
              && (5 <? String.length clean_sentence)%nat
           then (results ++ [clean_sentence])%list
           else results
         else results)
      [] sentences in
  Py.take_first 3 results.

Definition summary_of (sentiment : string) : string :=
  "The review expresses " +:+ sentiment +:+ " sentiment overall.".

Definition analyze_sentiment_basic (text : string) : dict :=
  let text_lower := Py.lower text in
  let positive_count :=
    Py.sum1 (fun word => Py.contains word text_lower) positive_words in
  let negative_count :=
    Py.sum1 (fun word => Py.contains word text_lower) negative_words in
  let '(sentiment, score) :=
    if (negative_count <? positive_count)%nat then
      ("positive",
       (0.5 + Qmin 0.5 (Qnat (positive_count - negative_count) / 10))%Q)
    else if (positive_count <? negative_count)%nat then
      ("negative",
       (0.5 - Qmin 0.5 (Qnat (negative_count - positive_count) / 10))%Q)
    else ("neutral", 0.5%Q) in
  let aspects := extract_aspects_basic text sentiment in
  {[ "sentiment" := JStr sentiment;
     "score" := JNum score;
     "aspects" := JObj aspects;
     "summary" := JStr (summary_of sentiment);
     "strengths" := JStrs (extract_strengths_weaknesses text true);
     "weaknesses" := JStrs (extract_strengths_weaknesses text false);
     "improvement_suggestions" := JArr [] ]}.

Definition analyze_sentiment_vader (e : env) (text : string) : dict :=
  match vader_compound e text with
  | Some compound =>
      let sentiment :=
        if Qle_bool 0.05 compound then "positive"
        else if Qle_bool compound (-0.05)%Q then "negative"
        else "neutral" in
      let normalized_score := ((compound + 1) / 2)%Q in
      let aspects := extract_aspects_basic text sentiment in
      {[ "sentiment" := JStr sentiment;
         "score" := JNum normalized_score;
         "aspects" := JObj aspects;
         "summary" := JStr (summary_of sentiment);
         "strengths" := JStrs (extract_strengths_weaknesses text true);
         "weaknesses" := JStrs (extract_strengths_weaknesses text false);
         "improvement_suggestions" := JArr [] ]}
  | None => analyze_sentiment_basic text
  end.

Definition analyze_sentiment_gemini (e : env) (text : string) : M dict :=
  let! response_text := post e (SentimentRequest (GEMINI_MODEL e) text) in
  let json_start := Py.find "{"%char response_text in
  let json_end := (Py.rfind "}"%char response_text + 1)%Z in
  if ((0 <=? json_start) && (json_start <? json_end))%Z then
    let json_str := Py.slice response_text json_start json_end in
    let! result := lift (loads e json_str) in
    let! raw_sentiment := lift (dict_index result "sentiment") in
    let! sentiment := lift (json_lower raw_sentiment) in
    let! score := lift (dict_index result "sentiment_score") in
    ret ({[ "sentiment" := JStr sentiment;
            "score" := score;
            "aspects" := dict_get_default result "aspects" (JObj ∅);
            "summary" := dict_get_default result "summary" (JStr "");
            "strengths" := dict_get_default result "strengths" (JArr []);
            "weaknesses" := dict_get_default result "weaknesses" (JArr []);
            "improvement_suggestions" :=
              dict_get_default result "improvement_suggestions" (JArr []) ]}
         : dict)
  else raise (ValueError "Invalid response format from Gemini API").

Definition analyze_sentiment (e : env) (text : string) : M dict :=
  let fallback : M dict :=
    if vader_available e then ret (analyze_sentiment_vader e text)
    else ret (analyze_sentiment_basic text) in
  if has_api_key e then
    try_except (analyze_sentiment_gemini e text) (fun _ => fallback)
  else fallback.

(** *** Insight synthesis *)

(** The report returned for an empty batch. *)
Definition not_enough_data : dict :=
  {[ "key_strengths" := JArr [];
     "key_weaknesses" := JArr [];
     "improvement_suggestions" := JArr [];
     "competitive_advantage" := JStr "Not enough data";
     "customer_satisfaction_summary" := JStr "Not enough data";
     "actionable_insights" := JArr [] ]}.

(** The loop [sentiment_counts[sentiment] = sentiment_counts.get(sentiment, 0) + 1]. *)
Definition count_sentiments (reviews : list review) : gmap string nat :=
  foldl
    (fun (sentiment_counts : gmap string nat) review =>
       let sentiment := default "neutral" (r_sentiment review) in
       <[sentiment := default 0%nat (sentiment_counts !! sentiment) + 1]>
         sentiment_counts)
    {[ "positive" := 0%nat; "neutral" := 0%nat; "negative" := 0%nat ]}
    reviews.

(** [(sentiment_counts.get("positive", 0) / total_reviews) * 100 if total_reviews > 0 else 0] *)
Definition positive_percentage_of (reviews : list review) : Q :=
  let sentiment_counts := count_sentiments reviews in
  let total_reviews := length reviews in
  if (0 <? total_reviews)%nat then
    (Qnat (default 0%nat (sentiment_counts !! "positive"))
     / Qnat total_reviews * 100)%Q
  else 0%Q.

Definition satisfaction_of (positive_percentage : Q) : string :=
  if Qle_bool 70 positive_percentage then
    "Customers are generally very satisfied with the product."
  else if Qle_bool 50 positive_percentage then
    "Customers are moderately satisfied, but there are some areas for improvement."
  else
    "Customer satisfaction is low. Immediate attention to product issues is recommended.".

Definition insight_entry (insight action priority impact_area : string)
  : json :=
  JObj {[ "insight" := JStr insight;
          "action" := JStr action;
          "priority" := JStr priority;
          "impact_area" := JStr impact_area ]}.

Definition generate_insights_basic (e : env) (reviews : list review)
  (product_name : string) : dict :=
  let positive_percentage := positive_percentage_of reviews in
  let all_strengths :=
    foldl (fun acc review => (acc ++ default [] (r_strengths review))%list)
      [] reviews in
  let all_weaknesses :=
    foldl (fun acc review => (acc ++ default [] (r_weaknesses review))%list)
      [] reviews in
  let key_strengths :=
    Py.take_first 5 (list_of_set e (list_to_set all_strengths)) in
  let key_weaknesses :=
    Py.take_first 5 (list_of_set e (list_to_set all_weaknesses)) in
  let improvement_suggestions :=
    (fun weakness => "Address issue: " +:+ weakness)
      <$> Py.take_first 3 key_weaknesses in
  let satisfaction := satisfaction_of positive_percentage in
  let actionable_insights :=
    ([insight_entry "Customer sentiment analysis"
        ("Focus on " +:+
         (if Qle_bool 50 positive_percentage
          then "maintaining positive aspects"
          else "addressing negative feedback"))
        (if negb (Qle_bool 50 positive_percentage) then "high" else "medium")
        "product"]
     ++ match key_strengths with
        | s :: _ =>
            [insight_entry ("Key strength: " +:+ s)
               "Highlight this strength in marketing materials"
               "medium" "marketing"]
        | [] => []
        end
     ++ match key_weaknesses with
        | w :: _ =>
            [insight_entry ("Key weakness: " +:+ w)
               "Develop improvement plan to address this issue"
               "high" "product development"]
        | [] => []
        end)%list in
  {[ "key_strengths" := JStrs key_strengths;
     "key_weaknesses" := JStrs key_weaknesses;
     "improvement_suggestions" := JStrs improvement_suggestions;
     "competitive_advantage" :=
       JStr (match key_strengths with s :: _ => s | [] => "Not identified" end);
     "customer_satisfaction_summary" := JStr satisfaction;
     "actionable_insights" := JArr actionable_insights ]}.

Definition generate_insights_gemini (e : env) (reviews : list review)
  (product_name : string) : M dict :=
  try_except
    (let! response_text :=
       post e (InsightsRequest product_name (Py.take_first 20 reviews)) in
     let json_start := Py.find "{"%char response_text in
     let json_end := (Py.rfind "}"%char response_text + 1)%Z in
     if ((0 <=? json_start) && (json_start <? json_end))%Z then
       let json_str := Py.slice response_text json_start json_end in
       let! result := lift (loads e json_str) in
       ret result
     else ret (generate_insights_basic e reviews product_name))
    (fun _ => ret (generate_insights_basic e reviews product_name)).

Definition generate_actionable_insights (e : env) (reviews : list review)
  (product_name : string) : M dict :=
  match reviews with
  | [] => ret not_enough_data
  | _ =>
      let fallback := ret (generate_insights_basic e reviews product_name) in
      if has_api_key e then
        try_except (generate_insights_gemini e reviews product_name)
          (fun _ => fallback)
      else fallback
  end.

End SentimentService.

(** ** [app.py]: schema inference of [process_file] *)

Module App.

(** A column of the data frame read from the uploaded file: its name,
    whether its dtype is [object], and [str(cell)] for each of its cells. *)
Record column := {
  col_name : string;
  col_is_object : bool;
  col_cells : list string
}.


(** [name in df.columns] *)
Definition has_column (df : list column) (name : string) : bool :=
  existsb (fun c => String.eqb (col_name c) name) df.

(** [df[name]] *)
Definition get_column (df : list column) (name : string) : option column :=
  List.find (fun c => String.eqb (col_name c) name) df.

(** The Amazon-format detection with its aliasing
    [df['text'] = df['review_text']]. *)
Definition detect_format (df : list column) : string * list column :=
  if forallb (has_column df) ["product_name"; "review_text"; "rating"] then
    ("amazon",
     if has_column df "review_text" && negb (has_column df "text") then
       match get_column df "review_text" with
       | Some c =>
           (df ++ [{| col_name := "text";
                      col_is_object := col_is_object c;
                      col_cells := col_cells c |}])%list
       | None => df
       end
     else df)
  else ("custom", df).

(** [df[col].astype(str).str.len().mean() > 10]; the mean of an empty
    column is NaN, which compares false. *)
Definition mean_length_above_10 (c : column) : bool :=
  match col_cells c with
  | [] => false
  | cells =>
      let total := sum_list (String.length <$> cells) in
      negb (Qle_bool (Qnat total
                      / Qnat (length cells)) 10)
  end.

Definition find_text_column (df : list column) : option string :=
  if has_column df "text" then Some "text"
  else if has_column df "review_text" then Some "review_text"
  else if has_column df "comment" then Some "comment"
  else if has_column df "feedback" then Some "feedback"
  else
    col_name <$>
      List.find (fun c => col_is_object c && mean_length_above_10 c) df.

Definition find_rating_column (df : list column) : option string :=
  if has_column df "rating" then Some "rating"
  else if has_column df "stars" then Some "stars"
  else if has_column df "score" then Some "score"
  else None.

Definition no_text_column_error : string :=
  "No suitable text column found in the file. Please ensure there's a column with review text.".

(** What [process_file] has decided when it enters the row loop. *)
Record schema := {
  file_format : string;
  frame : list column;
  text_column : string;
  rating_column : option string
}.

(** The part of [process_file] between reading the file and the row
    loop: either the error message returned to the caller with no
    summary, or the resolved schema. *)
Definition resolve_columns (df : list column) : string + schema :=
  let '(file_format, df) := detect_format df in
  match find_text_column df with
  | Some text_column =>
      if String.eqb text_column "" then inl no_text_column_error
      else inr {| file_format := file_format;
                  frame := df;
                  text_column := text_column;
                  rating_column := find_rating_column df |}
  | None => inl no_text_column_error
  end.


Definition newline : string := String (ascii_of_nat 10) EmptyString.

Definition join (sep : string) (l : list string) : string :=
  match l with
  | [] => ""
  | x :: l' => foldl (fun acc y => acc +:+ sep +:+ y) x l'
  end.

Definition chars_of (s : string) : list string :=
  (fun c => String c EmptyString) <$> list_ascii_of_string s.

(** [sep.join(v)] on a JSON value: a list must hold strings only, a
    string yields its characters, a dict its keys (in the enumeration
    order of the map); nothing else is iterable. *)
Definition json_join (sep : string) (v : json) : result string :=
  match v with
  | JArr l =>
      match mapM (fun x => match x with JStr s => Some s | _ => None end) l with
      | Some ss => Ok (join sep ss)
      | None => Raise TypeError
      end
  | JStr s => Ok (join sep (chars_of s))
  | JObj d => Ok (join sep (map_to_list d).*1)
  | _ => Raise TypeError
  end.

(** The per-row [result] of [process_file], as the dict literal builds it
    from the row text and the verdict. *)
Definition row_result (text : string) (sentiment_result : dict)
  : result dict :=
  result_bind (dict_index sentiment_result "sentiment") (fun sentiment =>
  result_bind (dict_index sentiment_result "score") (fun score =>
  result_bind
    (json_join newline
       (dict_get_default sentiment_result "improvement_suggestions" (JArr [])))
    (fun actionable_steps =>
  Ok ({[ "text" := JStr text;
         "sentiment" := sentiment;
         "score" := score;
         "confidence" :=
           dict_get_default sentiment_result "confidence" (JNum 0.8);
         "aspects" := dict_get_default sentiment_result "aspects" (JObj ∅);
         "strengths" := dict_get_default sentiment_result "strengths" (JArr []);
         "weaknesses" := dict_get_default sentiment_result "weaknesses" (JArr []);
         "actionable_steps" := JStr actionable_steps ]} : dict)))).

(** *** Upload filter *)

Definition ALLOWED_EXTENSIONS : gset string := {[ "csv"; "xlsx"; "xls" ]}.

(** ['.' in filename and filename.rsplit('.', 1)[1].lower() in
    ALLOWED_EXTENSIONS]; the index 1 exists whenever the first test
    passes. *)
Definition allowed_file (filename : string) : bool :=
  Py.contains "." filename
  && match Py.rsplit1 "."%char filename !! 1%nat with
     | Some ext => bool_decide (Py.lower ext ∈ ALLOWED_EXTENSIONS)
     | None => false
     end.

(** *** The row loop of [process_file] *)

(** A float as [float(...)] returns it: a finite one, standing for its
    exact value as elsewhere, or one that is not finite.  The float of an
    empty cell is [NaN]: the conversion does not raise. *)
Inductive pyfloat :=
  | Finite (q : Q)
  | NaN
  | Infinity (negative : bool).

(** A cell as it is copied into the outputs: a JSON-like value, a float
    (the [NaN] of an empty cell), or any other object (the timestamp of a
    date column), by its [repr]. *)
Inductive pyvalue :=
  | Json (v : json)
  | Float (f : pyfloat)
  | Other (repr : string).

(** A cell of the data frame as the loop reads it. *)
Record cell := {
  (** [str(cell)] *)
  cell_str : string;
  (** the cell itself *)
  cell_value : pyvalue;
  (** [float(cell)]; [None] when it raises [ValueError] or [TypeError] *)
  cell_float : option pyfloat
}.

(** A row of [df.iterrows()]: the cells by column name. *)
Abbreviation row := (gmap string cell).

(** [row[name]] *)
Definition row_index (r : row) (name : string) : result cell :=
  match r !! name with
  | Some c => Ok c
  | None => Raise (KeyError name)
  end.

(** The dict [result] of one row: the keys of its dict literal, and the
    three keys that the loop adds when they are available, none of which
    is a key of the literal; [None] is a key that the dict does not
    have. *)
Record row_output := {
  out_fields : dict;
  out_rating : option pyfloat;
  out_product : option pyvalue;
  out_date : option pyvalue
}.

(** The dict [mention] of one row, in the same way. *)
Record row_mention := {
  mention_fields : dict;
  mention_product : option pyvalue;
  mention_rating : option pyfloat;
  mention_date : option pyvalue
}.

(** [if rating_column and rating_column in row: try: result['rating'] =
    float(row[rating_column]) except (ValueError, TypeError): pass] *)
Definition add_rating (rating_column : option string) (r : row)
  (output : row_output) : row_output :=
  match rating_column with
  | Some name =>
      if negb (String.eqb name "") then
        match r !! name with
        | Some c =>
            match cell_float c with
            | Some v =>
                {| out_fields := out_fields output;
                   out_rating := Some v;
                   out_product := out_product output;
                   out_date := out_date output |}
            | None => output
            end
        | None => output
        end
      else output
  | None => output
  end.

(** [row[first] if first in row, else row[second] if second in row] *)
Definition first_cell (first second : string) (r : row) : option cell :=
  match r !! first with
  | Some c => Some c
  | None => r !! second
  end.

(** [if 'product' in row: result['product'] = row['product'] elif
    'product_name' in row: result['product'] = row['product_name']] *)
Definition add_product (r : row) (output : row_output) : row_output :=
  match first_cell "product" "product_name" r with
  | Some c =>
      {| out_fields := out_fields output;
         out_rating := out_rating output;
         out_product := Some (cell_value c);
         out_date := out_date output |}
  | None => output
  end.

(** [if 'date' in row: result['date'] = row['date'] elif 'review_date' in
    row: result['date'] = row['review_date']] *)
Definition add_date (r : row) (output : row_output) : row_output :=
  match first_cell "date" "review_date" r with
  | Some c =>
      {| out_fields := out_fields output;
         out_rating := out_rating output;
         out_product := out_product output;
         out_date := Some (cell_value c) |}
  | None => output
  end.

(** The dict literal of the mention, and the three keys copied from the
    result when it has them. *)
Definition mention_of (text : string) (sentiment_result : dict)
  (output : row_output) : result row_mention :=
  result_bind (dict_index sentiment_result "sentiment") (fun sentiment =>
  result_bind (dict_index sentiment_result "score") (fun score =>
  Ok {| mention_fields :=
          {[ "source" := JStr "uploaded_file";
             "type" := JStr "review";
             "text" := JStr text;
             "sentiment" := sentiment;
             "sentiment_score" := score ]};
        mention_product := out_product output;
        mention_rating := out_rating output;
        mention_date := out_date output |})).

(** The body of the loop: [None] is the [continue] of a text that is too
    short, otherwise the result and the mention that are appended. *)
Definition process_row (e : SentimentService.env) (text_column : string)
  (rating_column : option string) (r : row)
  : M (option (row_output * row_mention)) :=
  let! c := lift (row_index r text_column) in
  let text := cell_str c in
  if (String.length (Py.strip text) <? 5)%nat then ret None
  else
    let! sentiment_result := SentimentService.analyze_sentiment e text in
    let! fields := lift (row_result text sentiment_result) in
    let output := {| out_fields := fields;
                     out_rating := None;
                     out_product := None;
                     out_date := None |} in
    let output := add_rating rating_column r output in
    let output := add_product r output in
    let output := add_date r output in
    let! mention := lift (mention_of text sentiment_result output) in
    ret (Some (output, mention)).

Fixpoint process_rows (e : SentimentService.env) (text_column : string)
  (rating_column : option string) (rows : list row)
  (results : list row_output) (mentions : list row_mention)
  : M (list row_output * list row_mention) :=
  match rows with
  | [] => ret (results, mentions)
  | r :: rest =>
      let! out := process_row e text_column rating_column r in
      match out with
      | None =>
          process_rows e text_column rating_column rest results mentions
      | Some (output, mention) =>
          process_rows e text_column rating_column rest
            (results ++ [output]) (mentions ++ [mention])
      end
  end.

(** *** The summary statistics of [process_file] *)

(** [sum(1 for r in results if r['sentiment'] == label)] *)
Fixpoint count_sentiment (label : string) (results : list row_output)
  : result nat :=
  match results with
  | [] => Ok 0%nat
  | r :: rest =>
      result_bind (dict_index (out_fields r) "sentiment") (fun sentiment =>
      result_bind (count_sentiment label rest) (fun n =>
      Ok (match sentiment with
          | JStr s => if String.eqb s label then S n else n
          | _ => n
          end)))
  end.

(** A JSON value as an operand of [+] with a number. *)
Definition number_of (v : json) : result Q :=
  match v with
  | JNum q => Ok q
  | JBool b => Ok (if b then 1 else 0)%Q
  | _ => Raise TypeError
  end.

(** [sum(r['score'] for r in results)], from the accumulator. *)
Fixpoint sum_scores (results : list row_output) (acc : Q) : result Q :=
  match results with
  | [] => Ok acc
  | r :: rest =>
      result_bind (dict_index (out_fields r) "score") (fun score =>
      result_bind (number_of score) (fun q =>
      sum_scores rest (acc + q)%Q))
  end.

Record statistics := {
  total_reviews : nat;
  positive_count : nat;
  neutral_count : nat;
  negative_count : nat;
  average_score : Q;
  has_mentions : bool
}.

Definition summary_statistics (results : list row_output)
  (mentions : list row_mention) : result statistics :=
  let total_reviews := length results in
  result_bind (count_sentiment "positive" results) (fun positive_count =>
  result_bind (count_sentiment "neutral" results) (fun neutral_count =>
  result_bind (count_sentiment "negative" results) (fun negative_count =>
  result_bind
    (if (0 <? total_reviews)%nat then
       result_bind (sum_scores results 0) (fun total =>
       Ok (total / Qnat total_reviews)%Q)
     else Ok 0%Q)
    (fun average_score =>
  Ok {| total_reviews := total_reviews;
        positive_count := positive_count;
        neutral_count := neutral_count;
        negative_count := negative_count;
        average_score := average_score;
        has_mentions := (0 <? length mentions)%nat |})))).

(** The loop followed by the statistics. *)
Definition analyze_rows (e : SentimentService.env) (text_column : string)
  (rating_column : option string) (rows : list row) : M statistics :=
  let! out := process_rows e text_column rating_column rows [] [] in
  let '(results, mentions) := out in
  lift (summary_statistics results mentions).

End App.

(** ** [services/scraper_service.py] *)

Module ScraperService.

(** [review.get("rating", 0)] before [float(...)]: absent, a number, or a
    value on which [float] raises. *)
Inductive rating_field :=
  | RatingAbsent
  | RatingNumber (q : Q)
  | RatingInvalid.

(** [review.get("date", {})]: absent, an object with or without a
    [text], or a value without a [get] method. *)
Inductive date_field :=
  | DateAbsent
  | DateObject (text : option string)
  | DateInvalid.

(** An item of a page of the source; [None] is an absent key. *)
Record raw_review := {
  raw_id : option string;
  raw_title : option string;
  raw_text : option string;
  raw_rating : rating_field;
  raw_username : option string;
  raw_date : date_field;
  raw_verified_purchase : option bool;
  raw_helpful_votes : option Z
}.

(** A processed review, as appended to [all_reviews]. *)
Record review_record := {
  review_id : string;
  title : string;
  text : string;
  rating : Q;
  reviewer_name : string;
  review_date_text : string;
  review_date : string;
  verified_purchase : bool;
  helpful_votes : Z
}.

Inductive star_filter :=
  | Star (n : Z)
  | AllStars.

Record query := {
  q_asin : string;
  q_sort_by : string;
  q_star_rating : star_filter;
  q_page : nat
}.

(** [datetime.now()] truncated to midnight. *)
Record date := { year : Z; month : Z; day : Z }.

(** The raw values the random generator yields in one iteration of the
    mock loop, in the order of the calls: [random.choices] for the
    rating, [random.choice] for the text, [random.randint(1, 365)],
    [random.choice([True, False])], [random.randint(0, 50)].  Each call
    reduces its raw value into its range. *)
Record draws := {
  pick_rating : nat;
  pick_text : nat;
  pick_days_ago : nat;
  pick_verified : nat;
  pick_votes : nat
}.

Record env := {
  (** [os.getenv("RAPIDAPI_KEY")] *)
  RAPIDAPI_KEY : option string;
  (** the decoded body of the product-details request; [None] when the
      request, the status check or the decoding raises *)
  product_details : string -> option dict;
  (** [data["data"]["reviews"]] of the page requested, the empty list
      when the key is missing; [None] when the request, the status check
      or the decoding raises *)
  fetch_page : query -> option (list raw_review);
  (** the date text cleaned and parsed with the first of the three
      formats that accepts it, in ISO format; [None] when none does *)
  parse_review_date : string -> option string;
  (** [datetime.now().isoformat()] *)
  now_iso : string;
  (** [datetime.now()] at midnight *)
  today : date;
  (** the raw random values of the [i]-th iteration of the mock loop *)
  random : nat -> draws
}.

Definition truthy (k : option string) : bool :=
  match k with
  | Some s => negb (String.eqb s "")
  | None => false
  end.

(** *** Product information *)

(** [v.get(k, dflt)] on a JSON value: only an object has the method. *)
Definition json_get (v : json) (k : string) (dflt : json) : result json :=
  match v with
  | JObj d => Ok (dict_get_default d k dflt)
  | _ => Raise AttributeError
  end.

Definition amazon_url (asin : string) : string :=
  "https://www.amazon.com/dp/" +:+ asin.

Definition default_product_info (asin : string) : dict :=
  {[ "asin" := JStr asin; "name" := JStr "Unknown Product" ]}.

Definition product_info_of (asin : string) (product_data : dict)
  : result dict :=
  let data := dict_get_default product_data "data" (JObj ∅) in
  result_bind (json_get data "title" (JStr "Unknown Product")) (fun name =>
  result_bind (json_get data "brand" (JStr "Unknown Brand")) (fun brand =>
  result_bind (json_get data "pricing" (JObj ∅)) (fun pricing =>
  result_bind (json_get pricing "current_price" (JNum 0)) (fun price =>
  result_bind (json_get data "reviews" (JObj ∅)) (fun reviews =>
  result_bind (json_get reviews "rating" (JNum 0)) (fun rating =>
  result_bind (json_get reviews "count" (JNum 0)) (fun review_count =>
  Ok ({[ "asin" := JStr asin;
         "name" := name;
         "brand" := brand;
         "price" := price;
         "rating" := rating;
         "review_count" := review_count;
         "url" := JStr (amazon_url asin) ]} : dict)))))))).

Definition fetch_product_info (e : env) (asin : string) : dict :=
  match product_details e asin with
  | Some product_data =>
      match product_data !! "status" with
      | Some (JStr "success") =>
          match product_info_of asin product_data with
          | Ok info => info
          | Raise _ => default_product_info asin
          end
      | _ => default_product_info asin
      end
  | None => default_product_info asin
  end.

(** *** Processing one item *)

Definition float_of_rating (r : rating_field) : result Q :=
  match r with
  | RatingAbsent => Ok 0%Q
  | RatingNumber q => Ok q
  | RatingInvalid => Raise (ValueError "could not convert to float")
  end.

Definition date_text_of (d : date_field) : result string :=
  match d with
  | DateAbsent => Ok ""
  | DateObject t => Ok (default "" t)
  | DateInvalid => Raise AttributeError
  end.

Definition process_review (e : env) (review : raw_review)
  : result review_record :=
  result_bind (float_of_rating (raw_rating review)) (fun rating =>
  result_bind (date_text_of (raw_date review)) (fun date_text =>
  Ok {| review_id := default "" (raw_id review);
        title := default "" (raw_title review);
        text := default "" (raw_text review);
        rating := rating;
        reviewer_name := default "Anonymous" (raw_username review);
        review_date_text := date_text;
        review_date :=
          if String.eqb date_text "" then now_iso e
          else default (now_iso e) (parse_review_date e date_text);
        verified_purchase := default false (raw_verified_purchase review);
        helpful_votes := default 0%Z (raw_helpful_votes review) |})).

(** *** The two passes over the source *)

Definition star_ratings : list Z := [5; 4; 3; 2; 1]%Z.

Definition pages_to_try : list nat := [1; 2].

Definition sort_by_options : list string := ["MOST_RECENT"; "TOP_REVIEWS"].

Definition len {A} (l : list A) : Z := Z.of_nat (length l).

(** The loop over the items of one page of a rating bucket.  The flag
    tells that processing an item raised, which the handler around the
    page turns into a [break] of the page loop. *)
Fixpoint add_bucket_items (e : env) (reviews_per_rating : Z)
  (reviews : list raw_review) (all_reviews : list review_record)
  (reviews_for_this_rating : Z) : list review_record * Z * bool :=
  match reviews with
  | [] => (all_reviews, reviews_for_this_rating, false)
  | review :: rest =>
      if (reviews_per_rating <=? reviews_for_this_rating)%Z then
        (all_reviews, reviews_for_this_rating, false)
      else
        match process_review e review with
        | Ok processed_review =>
            add_bucket_items e reviews_per_rating rest
              (all_reviews ++ [processed_review])
              (reviews_for_this_rating + 1)%Z
        | Raise _ => (all_reviews, reviews_for_this_rating, true)
        end
  end.

(** The loop over the pages of one rating bucket. *)
Fixpoint bucket_pages (e : env) (asin : string) (star_rating : Z)
  (reviews_per_rating : Z) (pages : list nat)
  (all_reviews : list review_record) (reviews_for_this_rating : Z)
  : list review_record :=
  match pages with
  | [] => all_reviews
  | page :: rest =>
      if (reviews_per_rating <=? reviews_for_this_rating)%Z then all_reviews
      else
        match fetch_page e {| q_asin := asin;
                              q_sort_by := "TOP_REVIEWS";
                              q_star_rating := Star star_rating;
                              q_page := page |} with
        | None => all_reviews
        | Some [] => all_reviews
        | Some reviews =>
            let '(all_reviews, reviews_for_this_rating, raised) :=
              add_bucket_items e reviews_per_rating reviews all_reviews
                reviews_for_this_rating in
            if raised then all_reviews
            else bucket_pages e asin star_rating reviews_per_rating rest
                   all_reviews reviews_for_this_rating
        end
  end.

Definition first_pass (e : env) (asin : string) (num_reviews : Z)
  : list review_record :=
  let reviews_per_rating := (num_reviews / len star_ratings)%Z in
  foldl
    (fun all_reviews star_rating =>
       bucket_pages e asin star_rating reviews_per_rating pages_to_try
         all_reviews 0%Z)
    [] star_ratings.

(** [any(r.get("review_id") == review_id for r in all_reviews)] *)
Definition already_present (review_id' : string)
  (all_reviews : list review_record) : bool :=
  existsb (fun r => String.eqb (review_id r) review_id') all_reviews.

(** The loop over the items of one page of the second pass.  The flag
    tells that processing an item raised. *)
Fixpoint add_new_items (e : env) (num_reviews : Z)
  (reviews : list raw_review) (all_reviews : list review_record)
  : list review_record * bool :=
  match reviews with
  | [] => (all_reviews, false)
  | review :: rest =>
      let review_id' := default "" (raw_id review) in
      if already_present review_id' all_reviews then
        add_new_items e num_reviews rest all_reviews
      else
        match process_review e review with
        | Ok processed_review =>
            let all_reviews := (all_reviews ++ [processed_review])%list in
            if (num_reviews <=? len all_reviews)%Z then (all_reviews, false)
            else add_new_items e num_reviews rest all_reviews
        | Raise _ => (all_reviews, true)
        end
  end.

(** The loop over the pages of one sort order. *)
Fixpoint sort_pages (e : env) (asin sort_by : string) (num_reviews : Z)
  (pages : list nat) (all_reviews : list review_record)
  : list review_record :=
  match pages with
  | [] => all_reviews
  | page :: rest =>
      if (num_reviews <=? len all_reviews)%Z then all_reviews
      else
        match fetch_page e {| q_asin := asin;
                              q_sort_by := sort_by;
                              q_star_rating := AllStars;
                              q_page := page |} with
        | None => all_reviews
        | Some [] => all_reviews
        | Some reviews =>
            let '(all_reviews, raised) :=
              add_new_items e num_reviews reviews all_reviews in
            if raised then all_reviews
            else sort_pages e asin sort_by num_reviews rest all_reviews
        end
  end.

(** The loop over the sort orders. *)
Fixpoint sort_orders (e : env) (asin : string) (num_reviews : Z)
  (options : list string) (all_reviews : list review_record)
  : list review_record :=
  match options with
  | [] => all_reviews
  | sort_by :: rest =>
      if (num_reviews <=? len all_reviews)%Z then all_reviews
      else
        sort_orders e asin num_reviews rest
          (sort_pages e asin sort_by num_reviews pages_to_try all_reviews)
  end.

Definition second_pass (e : env) (asin : string) (num_reviews : Z)
  (all_reviews : list review_record) : list review_record :=
  if (len all_reviews <? num_reviews)%Z then
    sort_orders e asin num_reviews sort_by_options all_reviews
  else all_reviews.

(** *** Mock data *)

Definition positive_texts : list string :=
  ["This product is amazing! I love how easy it is to use and the quality is excellent.";
   "I've been using this for a month now and it's holding up well. Very satisfied with my purchase.";
   "Great value for the price. Would definitely recommend to friends and family.";
   "The customer service was excellent when I had an issue. They resolved it quickly.";
   "This exceeded my expectations. The design is beautiful and it works perfectly."].

Definition neutral_texts : list string :=
  ["It's an average product. Nothing special but it works as advertised.";
   "The product is good but the shipping took forever. Almost a month to arrive.";
   "It's okay for the price. Not the best quality but it gets the job done.";
   "Some features are great, others not so much. Overall it's decent.";
   "It works fine but the instructions were confusing. Had to look up a tutorial online."].

Definition negative_texts : list string :=
  ["I'm disappointed with this purchase. It broke after just two weeks of use.";
   "This is the worst product I've ever bought. Complete waste of money.";
   "The quality is terrible. Definitely not worth the price.";
   "It doesn't work as advertised. Very misleading product description.";
   "Had to return it. Didn't meet my expectations at all."].

(** [random.choice(l)] on the raw value [k]. *)
Definition choice {A} (dflt : A) (l : list A) (k : nat) : A :=
  nth (k mod length l) l dflt.

(** [random.randint(a, b)] on the raw value [k]. *)
Definition randint (a b : Z) (k : nat) : Z :=
  (a + Z.of_nat k mod (b - a + 1))%Z.

Definition is_leap (y : Z) : bool :=
  ((y mod 4 =? 0) && (negb (y mod 100 =? 0) || (y mod 400 =? 0)))%Z.

Definition days_in_month (y m : Z) : Z :=
  if (m =? 2)%Z then (if is_leap y then 29 else 28)%Z
  else if ((m =? 4) || (m =? 6) || (m =? 9) || (m =? 11))%Z then 30%Z
  else 31%Z.

(** [d.replace(day=new_day)] *)
Definition replace_day (d : date) (new_day : Z) : result date :=
  if ((1 <=? new_day) && (new_day <=? days_in_month (year d) (month d)))%Z
  then Ok {| year := year d; month := month d; day := new_day |}
  else Raise (ValueError "day is out of range for month").

Definition month_names : list string :=
  ["January"; "February"; "March"; "April"; "May"; "June"; "July";
   "August"; "September"; "October"; "November"; "December"].

(** A non-negative number in decimal, padded with zeros to [width]. *)
Definition zero_padded (width : nat) (n : Z) : string :=
  let digits := pretty n in
  String.concat "" (replicate (width - String.length digits) "0") +:+ digits.

(** [d.strftime("%B %d, %Y")] *)
Definition strftime_long (d : date) : string :=
  nth (Z.to_nat (month d - 1)) month_names "" +:+ " "
  +:+ zero_padded 2 (day d) +:+ ", " +:+ zero_padded 4 (year d).

(** [d.isoformat()] for a datetime at midnight. *)
Definition isoformat (d : date) : string :=
  zero_padded 4 (year d) +:+ "-" +:+ zero_padded 2 (month d) +:+ "-"
  +:+ zero_padded 2 (day d) +:+ "T00:00:00".

(** The body of the mock loop for index [i]. *)
Definition mock_review (e : env) (asin : string) (i : nat)
  : result review_record :=
  let r := random e i in
  let rating := choice 1%Z [1; 2; 3; 4; 5]%Z (pick_rating r) in
  let text :=
    if (4 <=? rating)%Z then choice "" positive_texts (pick_text r)
    else if (rating =? 3)%Z then choice "" neutral_texts (pick_text r)
    else choice "" negative_texts (pick_text r) in
  let days_ago := randint 1 365 (pick_days_ago r) in
  let review_date := today e in
  result_bind (replace_day review_date (day review_date - days_ago))
    (fun review_date =>
  Ok {| review_id := "mock_" +:+ asin +:+ "_" +:+ pretty i;
        title := "Review for " +:+ asin;
        text := text;
        rating := inject_Z rating;
        reviewer_name := "MockUser" +:+ pretty i;
        review_date_text := strftime_long review_date;
        review_date := isoformat review_date;
        verified_purchase := choice true [true; false] (pick_verified r);
        helpful_votes := randint 0 50 (pick_votes r) |}).

Fixpoint mock_loop (e : env) (asin : string) (indices : list nat)
  (reviews : list review_record) : result (list review_record) :=
  match indices with
  | [] => Ok reviews
  | i :: rest =>
      match mock_review e asin i with
      | Ok review => mock_loop e asin rest (reviews ++ [review])
      | Raise x => Raise x
      end
  end.

(** [range(n)] *)
Definition range (n : Z) : list nat := seq 0 (Z.to_nat n).

Definition mock_amazon_reviews (e : env) (asin : string) (num_reviews : Z)
  : result (list review_record) :=
  mock_loop e asin (range num_reviews) [].

Definition mock_amazon_product_info (asin : string) : dict :=
  {[ "asin" := JStr asin;
     "name" := JStr ("Mock Product " +:+ asin);
     "brand" := JStr "Mock Brand";
     "price" := JNum 99.99;
     "rating" := JNum 4.2;
     "review_count" := JNum 250;
     "url" := JStr (amazon_url asin) ]}.

(** *** The entry point *)

Definition scrape_amazon_reviews_api (e : env) (asin : string)
  (num_reviews : Z) (rapidapi_key : option string)
  : result (dict * list review_record) :=
  let api_key := if truthy rapidapi_key then rapidapi_key else RAPIDAPI_KEY e in
  if negb (truthy api_key) then
    result_bind (mock_amazon_reviews e asin num_reviews) (fun reviews =>
    Ok (mock_amazon_product_info asin, reviews))
  else
    let product_info := fetch_product_info e asin in
    let all_reviews := first_pass e asin num_reviews in
    let all_reviews := second_pass e asin num_reviews all_reviews in
    if (len all_reviews <? num_reviews)%Z then
      result_bind
        (mock_amazon_reviews e asin (num_reviews - len all_reviews))
        (fun mock_reviews =>
      Ok (product_info, (all_reviews ++ mock_reviews)%list))
    else Ok (product_info, all_reviews).

(** *** The ASIN of a product address *)

(** The class [[A-Z0-9]]. *)
Definition is_asin_char (c : ascii) : bool :=
  let n := nat_of_ascii c in
  (((65 <=? n) && (n <=? 90)) || ((48 <=? n) && (n <=? 57)))%nat.

(** [[A-Z0-9]{n}] matched at the start of [s]: the characters matched. *)
Fixpoint match_class (n : nat) (s : string) : option string :=
  match n with
  | O => Some EmptyString
  | S n' =>
      match s with
      | String c s' =>
          if is_asin_char c then String c <$> match_class n' s' else None
      | EmptyString => None
      end
  end.

(** The pattern [marker([A-Z0-9]{10})] matched at the start of [s]: its
    group 1. *)
Fixpoint match_at (marker s : string) : option string :=
  match marker with
  | EmptyString => match_class 10 s
  | String a marker' =>
      match s with
      | String b s' => if Ascii.eqb a b then match_at marker' s' else None
      | EmptyString => None
      end
  end.

(** [re.search(marker + '([A-Z0-9]{10})', s)]: group 1 of the leftmost
    match. *)
Fixpoint re_search (marker s : string) : option string :=
  match match_at marker s with
  | Some g => Some g
  | None =>
      match s with
      | String _ s' => re_search marker s'
      | EmptyString => None
      end
  end.

Definition patterns : list string :=
  ["/dp/"; "/product/"; "/gp/product/"; "asin="; "asin/"].

Definition extract_asin_from_url (url : string) : option string :=
  foldr
    (fun pattern rest =>
       match re_search pattern url with
       | Some g => Some g
       | None => rest
       end)
    None patterns.

(** *** Flipkart: the reviews address *)

(** [s.replace(old, new)] for a non-empty [old]: the occurrences of [old]
    are replaced from the left, without overlap; [skip] counts the
    characters of a replaced occurrence still to pass. *)
Fixpoint replace_from (old new : string) (skip : nat) (s : string)
  : string :=
  match s with
  | EmptyString => EmptyString
  | String c s' =>
      match skip with
      | S k => replace_from old new k s'
      | O =>
          if String.prefix old s
          then new +:+ replace_from old new (String.length old - 1) s'
          else String c (replace_from old new 0 s')
      end
  end.

Definition str_replace (old new s : string) : string :=
  replace_from old new 0 s.

(** [s.split(sep)[0]] for a non-empty [sep]: what precedes the first
    occurrence of [sep], or the whole string. *)
Fixpoint split_first (sep s : string) : string :=
  if String.prefix sep s then EmptyString
  else match s with
       | EmptyString => EmptyString
       | String c s' => String c (split_first sep s')
       end.

(** The address requested for a product address. *)
Definition reviews_url (product_url : string) : string :=
  if Py.contains "/p/" product_url
     && negb (Py.contains "/product-reviews/" product_url)
  then
    let product_url := str_replace "/p/" "/product-reviews/" product_url in
    let product_url :=
      if Py.contains "&lid=" product_url
      then split_first "&lid=" product_url
      else product_url in
    product_url +:+ "&aid=overall"
  else product_url.

(** *** Flipkart: the reviews of a page *)

(** What the selectors find in one review element; [None] is an element
    that is not found. *)
Record flipkart_element := {
  (** [float(rating_elem.text)]; [Some None] when it raises [ValueError] *)
  el_rating : option (option json);
  (** [title_elem.text] *)
  el_title : option string;
  (** [text_elem.text], and the text of its collapsible part if any *)
  el_text : option (string * option string);
  (** [name_elem.text] *)
  el_name : option string;
  (** [date_elem.text], and the date parsed from it in ISO format, or
      [datetime.now().isoformat()] when the parsing raises *)
  el_date : option (string * string);
  (** whether the mark of a verified purchase is found *)
  el_verified : bool;
  (** [helpful_elem.text] *)
  el_helpful : option string
}.

Definition is_digit (c : ascii) : bool :=
  let n := nat_of_ascii c in ((48 <=? n) && (n <=? 57))%nat.

(** The value of the digits at the start of [s], from the accumulator. *)
Fixpoint digits_value (acc : Z) (s : string) : Z :=
  match s with
  | EmptyString => acc
  | String c s' =>
      if is_digit c
      then digits_value (10 * acc + Z.of_nat (nat_of_ascii c - 48)) s'
      else acc
  end.

(** [int(re.search(r'(\d+)', s).group(1))]; [None] when nothing matches. *)
Fixpoint first_number (s : string) : option Z :=
  match s with
  | EmptyString => None
  | String c s' =>
      if is_digit c then Some (digits_value 0 s) else first_number s'
  end.

(** [if v is found: review[key] = f(v)] *)
Definition set_if {A} (key : string) (v : option A) (f : A -> json)
  (review : dict) : dict :=
  match v with
  | Some a => <[key := f a]> review
  | None => review
  end.

(** The body of the loop over the review elements; [n] is
    [len(reviews)]. *)
Definition flipkart_review (n : nat) (el : flipkart_element) : dict :=
  let review : dict := ∅ in
  let review :=
    set_if "rating" (el_rating el) (fun r => default (JNum 0) r) review in
  let review :=
    set_if "title" (el_title el) (fun t => JStr (Py.strip t)) review in
  let review :=
    set_if "text" (el_text el)
      (fun '(whole, collapsible) =>
         match collapsible with
         | Some part => JStr (Py.strip part)
         | None => JStr (Py.strip whole)
         end) review in
  let review :=
    set_if "reviewer_name" (el_name el) (fun t => JStr (Py.strip t))
      review in
  let review :=
    set_if "review_date_text" (el_date el)
      (fun '(date_text, _) => JStr (Py.strip date_text)) review in
  let review :=
    set_if "review_date" (el_date el) (fun '(_, iso) => JStr iso) review in
  let review := <["verified_purchase" := JBool (el_verified el)]> review in
  let review :=
    <["helpful_votes" :=
        match el_helpful el with
        | Some votes_text =>
            match first_number (Py.strip votes_text) with
            | Some votes => JNum (inject_Z votes)
            | None => JNum 0
            end
        | None => JNum 0
        end]> review in
  <["review_id" := JStr ("flipkart_" +:+ pretty n)]> review.

Definition extract_flipkart_reviews_from_page
  (review_elements : list flipkart_element) : list dict :=
  foldl
    (fun reviews review_elem =>
       (reviews ++ [flipkart_review (length reviews) review_elem])%list)
    [] review_elements.

(** *** Flipkart: mock data *)

Definition flipkart_positive_texts : list string :=
  ["Great product! Very happy with my purchase. The quality is excellent and it arrived on time.";
   "This is exactly what I was looking for. Works perfectly and the price is reasonable.";
   "Excellent value for money. The product quality is much better than I expected.";
   "Very satisfied with this purchase. It's durable and well-designed.";
   "Flipkart delivery was super fast and the product is amazing. Highly recommended!"].

Definition flipkart_neutral_texts : list string :=
  ["It's an okay product. Not bad but nothing special either.";
   "The product is decent for the price. Don't expect premium quality though.";
   "Average product. It works but there are better options available.";
   "It's fine for basic use. Don't expect too much from it.";
   "Delivery was quick but the product is just average. Not disappointed but not impressed either."].

Definition flipkart_negative_texts : list string :=
  ["Not worth the money. The quality is poor and it stopped working after a week.";
   "Very disappointed with this purchase. The product looks nothing like the pictures.";
   "Waste of money. Don't buy this product, it's cheaply made and breaks easily.";
   "Had to return it. The quality is terrible and it doesn't work properly.";
   "Worst purchase ever. The product arrived damaged and customer service was unhelpful."].

Definition month_abbreviations : list string :=
  ["Jan"; "Feb"; "Mar"; "Apr"; "May"; "Jun"; "Jul"; "Aug"; "Sep"; "Oct";
   "Nov"; "Dec"].

(** [d.strftime("%d %b %Y")] *)
Definition strftime_short (d : date) : string :=
  zero_padded 2 (day d) +:+ " "
  +:+ nth (Z.to_nat (month d - 1)) month_abbreviations "" +:+ " "
  +:+ zero_padded 4 (year d).

(** A page as the scraper reads it. *)
Record flipkart_page := {
  status_code : Z;
  (** the text of the product name element *)
  page_product_name : option string;
  (** [float] of the text of the rating element; [Some None] when it
      raises [ValueError] *)
  page_rating : option (option json);
  (** the review count read from the page: the first group of digits and
      commas without its commas, 0 when [int] raises; [None] when the
      element or the group is missing *)
  page_review_count : option json;
  (** the review elements *)
  page_elements : list flipkart_element;
  (** the link to the next page, with its [href] if it has one *)
  page_next_link : option (option string)
}.

Record flipkart_env := {
  (** the answer to the [n]-th request of the run, sent to the given
      address; [None] when the request raises *)
  flipkart_get : nat -> string -> option flipkart_page;
  (** [datetime.now()] at midnight *)
  flipkart_today : date;
  (** the raw random values of the [i]-th iteration of the [k]-th call of
      the mock generator in the run *)
  flipkart_random : nat -> nat -> draws
}.

(** The body of the mock loop for index [i], in the [k]-th call. *)
Definition mock_flipkart_review (e : flipkart_env) (k i : nat)
  : result dict :=
  let r := flipkart_random e k i in
  let rating := choice 1%Z [1; 2; 3; 4; 5]%Z (pick_rating r) in
  let text :=
    if (4 <=? rating)%Z then choice "" flipkart_positive_texts (pick_text r)
    else if (rating =? 3)%Z
         then choice "" flipkart_neutral_texts (pick_text r)
    else choice "" flipkart_negative_texts (pick_text r) in
  let days_ago := randint 1 365 (pick_days_ago r) in
  let review_date := flipkart_today e in
  result_bind (replace_day review_date (day review_date - days_ago))
    (fun review_date =>
  Ok ({[ "review_id" := JStr ("mock_flipkart_" +:+ pretty i);
         "title" := JStr ("Review " +:+ pretty (i + 1)%nat);
         "text" := JStr text;
         "rating" := JNum (inject_Z rating);
         "reviewer_name" := JStr ("FlipkartUser" +:+ pretty i);
         "review_date_text" := JStr (strftime_short review_date);
         "review_date" := JStr (isoformat review_date);
         "verified_purchase" :=
           JBool (choice true [true; false] (pick_verified r));
         "helpful_votes" :=
           JNum (inject_Z (randint 0 30 (pick_votes r))) ]} : dict)).

Fixpoint mock_flipkart_loop (e : flipkart_env) (k : nat)
  (indices : list nat) (reviews : list dict) : result (list dict) :=
  match indices with
  | [] => Ok reviews
  | i :: rest =>
      match mock_flipkart_review e k i with
      | Ok review => mock_flipkart_loop e k rest (reviews ++ [review])
      | Raise x => Raise x
      end
  end.

Definition mock_flipkart_reviews (e : flipkart_env) (k : nat)
  (num_reviews : Z) : result (list dict) :=
  mock_flipkart_loop e k (range num_reviews) [].

(** *** Flipkart: the entry point *)

(** [l[:n]] for any integer [n]. *)
Definition slice_to {A} (n : Z) (l : list A) : list A :=
  if (0 <=? n)%Z then take (Z.to_nat n) l
  else take (length l - Z.to_nat (- n)) l.

(** What the first page adds to the product information. *)
Definition flipkart_product_info (page : flipkart_page)
  (product_info : dict) : dict :=
  let product_info :=
    set_if "name" (page_product_name page) (fun t => JStr (Py.strip t))
      product_info in
  let product_info :=
    set_if "rating" (page_rating page) (fun r => default (JNum 0) r)
      product_info in
  set_if "review_count" (page_review_count page) (fun c => c) product_info.

(** [current_url] after a page. *)
Definition next_url (page : flipkart_page) : option string :=
  match page_next_link page with
  | Some (Some href) =>
      if Py.contains "&page=" href
      then Some ("https://www.flipkart.com" +:+ href)
      else None
  | _ => None
  end.

(** The loop over the pages; [requests] counts the requests sent so far.
    Every pass adds a review, so that [num_reviews - len(all_reviews)]
    passes are enough: [None] is a loop that would need more than
    [fuel]. *)
Fixpoint review_pages (e : flipkart_env) (num_reviews : Z) (fuel : nat)
  (requests : nat) (current_url : option string) (all_reviews : list dict)
  : option (result (list dict)) :=
  if (len all_reviews <? num_reviews)%Z && truthy current_url then
    match fuel with
    | O => None
    | S fuel' =>
        match flipkart_get e requests (default "" current_url) with
        | None => Some (Raise RequestError)
        | Some page =>
            if negb (status_code page =? 200)%Z then Some (Ok all_reviews)
            else
              match extract_flipkart_reviews_from_page
                      (page_elements page) with
              | [] => Some (Ok all_reviews)
              | page_reviews =>
                  review_pages e num_reviews fuel' (S requests)
                    (next_url page) (all_reviews ++ page_reviews)
              end
        end
    end
  else Some (Ok all_reviews).

(** The handler [except Exception: return product_info,
    mock_flipkart_reviews(num_reviews)]; [k] counts the calls of the mock
    generator made so far. *)
Definition flipkart_fallback (e : flipkart_env) (k : nat)
  (product_info : dict) (num_reviews : Z) : result (dict * list dict) :=
  result_bind (mock_flipkart_reviews e k num_reviews) (fun reviews =>
  Ok (product_info, reviews)).

Definition scrape_flipkart_reviews (e : flipkart_env) (product_url : string)
  (num_reviews : Z) : option (result (dict * list dict)) :=
  let product_info : dict :=
    {[ "name" := JStr "Unknown Product"; "url" := JStr product_url ]} in
  let product_url := reviews_url product_url in
  match flipkart_get e 0 product_url with
  | None => Some (flipkart_fallback e 0 product_info num_reviews)
  | Some page =>
      if negb (status_code page =? 200)%Z then
        match mock_flipkart_reviews e 0 num_reviews with
        | Ok reviews => Some (Ok (product_info, reviews))
        | Raise _ => Some (flipkart_fallback e 1 product_info num_reviews)
        end
      else
        let product_info := flipkart_product_info page product_info in
        match review_pages e num_reviews (Z.to_nat num_reviews) 1
                (Some product_url) [] with
        | None => None
        | Some (Raise _) =>
            Some (flipkart_fallback e 0 product_info num_reviews)
        | Some (Ok all_reviews) =>
            let all_reviews := slice_to num_reviews all_reviews in
            if (len all_reviews <? num_reviews)%Z then
              match mock_flipkart_reviews e 0
                      (num_reviews - len all_reviews) with
              | Ok mock_reviews =>
                  Some (Ok (product_info,
                            (all_reviews ++ mock_reviews)%list))
              | Raise _ =>
                  Some (flipkart_fallback e 1 product_info num_reviews)
              end
            else Some (Ok (product_info, all_reviews))
        end
  end.

End ScraperService.

(** * Properties *)

(** ** Substrings *)

Section Substrings.

(** [w] occurs in [s] as a contiguous substring. *)
Definition occurs (w s : string) : Prop :=
  ∃ pre post, s = pre +:+ w +:+ post.

(** [w] occurs in [s] up to the case of the letters. *)
Definition occurs_ignoring_case (w s : string) : Prop :=
  ∃ pre u post, s = pre +:+ u +:+ post ∧ Py.lower u = Py.lower w.

Lemma app_cons (c : ascii) (a b : string) :
  String c a +:+ b = String c (a +:+ b).
Proof. reflexivity. Qed.

Lemma app_empty (b : string) : "" +:+ b = b.
Proof. reflexivity. Qed.

Lemma prefix_iff (w s : string) :
  String.prefix w s = true ↔ ∃ post, s = w +:+ post.
Proof.
  revert s; induction w as [|a w IH]; intros s; simpl.
  - destruct s; split; eauto.
  - destruct s as [|b s]; simpl.
    + split; [discriminate | intros [post H]; discriminate].
    + setoid_rewrite app_cons.
      destruct (ascii_dec a b) as [->|Hne].
      * rewrite IH. split; intros [post H]; exists post; congruence.
      * split; [discriminate | intros [post H]; congruence].
Qed.

Lemma contains_cons (w : string) (c : ascii) (s : string) :
  Py.contains w (String c s)
  = String.prefix w (String c s) || Py.contains w s.
Proof. reflexivity. Qed.

Lemma contains_iff (w s : string) :
  Py.contains w s = true ↔ occurs w s.
Proof.
  unfold occurs. induction s as [|c s IH].
  - change (Py.contains w "") with (String.prefix w "" || false).
    rewrite orb_false_r, prefix_iff. split.
    + intros [post H]. by exists "", post.
    + intros ([|a pre] & post & H); [by exists post | discriminate].
  - rewrite contains_cons, orb_true_iff, prefix_iff, IH. split.
    + intros [[post H]|(pre & post & H)].
      * by exists "", post.
      * exists (String c pre), post. by rewrite app_cons, H.
    + intros ([|a pre] & post & H).
      * left. by exists post.
      * right. exists pre, post. rewrite app_cons in H. congruence.
Qed.

#[global] Instance occurs_dec (w s : string) : Decision (occurs w s) :=
  match Py.contains w s as b return Py.contains w s = b → _ with
  | true => λ H, left (proj1 (contains_iff w s) H)
  | false => λ H, right (λ H', eq_ind true (λ b, b = false → False)
                                 (λ E, diff_true_false E) _
                                 (eq_sym (proj2 (contains_iff w s) H')) H)
  end eq_refl.

Lemma lower_app (a b : string) :
  Py.lower (a +:+ b) = Py.lower a +:+ Py.lower b.
Proof.
  induction a as [|c a IH]; [done|].
  rewrite app_cons. simpl. by rewrite IH, app_cons.
Qed.

Lemma lower_app_inv (s a b : string) :
  Py.lower s = a +:+ b →
  ∃ s1 s2, s = s1 +:+ s2 ∧ Py.lower s1 = a ∧ Py.lower s2 = b.
Proof.
  revert s; induction a as [|c a IH]; intros s H.
  - by exists "", s.
  - rewrite app_cons in H.
    destruct s as [|d s]; simpl in H; [discriminate|].
    injection H as Hc Hs. destruct (IH _ Hs) as (s1 & s2 & -> & H1 & H2).
    exists (String d s1), s2. simpl. by rewrite Hc, H1.
Qed.

Lemma lower_char_idemp (c : ascii) :
  Py.lower_char (Py.lower_char c) = Py.lower_char c.
Proof. by destruct c as [[] [] [] [] [] [] [] []]. Qed.

Lemma lower_idemp (s : string) : Py.lower (Py.lower s) = Py.lower s.
Proof.
  induction s as [|c s IH]; simpl; [done|].
  by rewrite lower_char_idemp, IH.
Qed.

(** Python's test [w in s.lower()], for a lower-case [w], is the
    case-insensitive occurrence of [w] in [s]. *)
Lemma contains_lower_iff (w s : string) :
  Py.lower w = w →
  Py.contains w (Py.lower s) = true ↔ occurs_ignoring_case w s.
Proof.
  intros Hw. rewrite contains_iff. unfold occurs, occurs_ignoring_case.
  split.
  - intros (pre & post & H).
    apply lower_app_inv in H as (s1 & s2 & -> & H1 & H2).
    apply lower_app_inv in H2 as (u & s3 & -> & H2 & H3).
    exists s1, u, s3. by rewrite Hw.
  - intros (pre & u & post & -> & H).
    exists (Py.lower pre), (Py.lower post).
    by rewrite !lower_app, H, Hw.
Qed.

End Substrings.

(** ** The keyword-heuristic tier *)

Section KeywordTier.
Import SentimentService.

(** The number of keywords of [words] that occur in the lower-cased
    text; a keyword that occurs several times counts once. *)
Definition keyword_count (words : list string) (text : string) : nat :=
  length (filter (λ w, occurs w (Py.lower text)) words).

Lemma sum1_keyword_count (words : list string) (text : string) :
  Py.sum1 (λ w, Py.contains w (Py.lower text)) words
  = keyword_count words text.
Proof.
  unfold Py.sum1, keyword_count.
  induction words as [|w words IH]; [done|].
  simpl. rewrite filter_cons.
  destruct (Py.contains w (Py.lower text)) eqn:E.
  - rewrite decide_True by (by apply contains_iff). simpl. by rewrite IH.
  - rewrite decide_False; [done|].
    intros H%contains_iff. congruence.
Qed.

Lemma keyword_count_bound (words : list string) (text : string) :
  (keyword_count words text ≤ length words)%nat.
Proof. apply length_filter. Qed.

(** The sentiment and the score the tier decides from the two counts. *)
Definition decide_basic (positive_count negative_count : nat)
  : string * Q :=
  if (negative_count <? positive_count)%nat then
    ("positive",
     (0.5 + Qmin 0.5 (Qnat (positive_count - negative_count) / 10))%Q)
  else if (positive_count <? negative_count)%nat then
    ("negative",
     (0.5 - Qmin 0.5 (Qnat (negative_count - positive_count) / 10))%Q)
  else ("neutral", 0.5%Q).

Lemma analyze_sentiment_basic_fields (text : string) :
  let d := decide_basic (keyword_count positive_words text)
                        (keyword_count negative_words text) in
  let v := analyze_sentiment_basic text in
  v !! "sentiment" = Some (JStr d.1)
  ∧ v !! "score" = Some (JNum d.2)
  ∧ v !! "aspects" = Some (JObj (extract_aspects_basic text d.1))
  ∧ v !! "confidence" = None.
Proof.
  unfold analyze_sentiment_basic, decide_basic.
  rewrite !sum1_keyword_count.
  destruct (_ <? _)%nat; [|destruct (_ <? _)%nat]; simpl;
    repeat split; reflexivity.
Qed.

#[local] Open Scope Q_scope.

Lemma Qnat_sub (p n : nat) :
  (n ≤ p)%nat → Qnat (p - n) == Qnat p - Qnat n.
Proof.
  intros H. unfold Qnat. rewrite Nat2Z.inj_sub by done.
  unfold Z.sub, Qminus. by rewrite inject_Z_plus, inject_Z_opp.
Qed.

Lemma Qnat_le (a b : nat) : (a ≤ b)%nat → Qnat a <= Qnat b.
Proof. intros H. unfold Qnat. rewrite <- Zle_Qle. lia. Qed.

Lemma Qnat_lt (a b : nat) : (a < b)%nat → Qnat a < Qnat b.
Proof. intros H. unfold Qnat. rewrite <- Zlt_Qlt. lia. Qed.

Lemma Qnat_S (a : nat) : Qnat (S a) == Qnat a + 1.
Proof.
  unfold Qnat. rewrite Nat2Z.inj_succ. unfold Z.succ.
  by rewrite inject_Z_plus.
Qed.

Lemma Qdiv10 (x : Q) : x / 10 == x * (1 # 10).
Proof. reflexivity. Qed.

(** The amount by which the score leaves 0.5 for a difference [d] of the
    counts. *)
Definition swing (d : Q) : Q := Qmin 0.5 (d / 10).

Lemma swing_pos (d : Q) : 1 <= d → 0.1 <= swing d <= 0.5.
Proof.
  intros H. unfold swing.
  destruct (Q.min_spec 0.5 (d / 10)) as [[H1 E]|[H1 E]];
    rewrite E; rewrite Qdiv10 in *; lra.
Qed.


Lemma decide_basic_cases (p n : nat) :
  let d := decide_basic p n in
  ((n < p)%nat ∧ d.1 = "positive" ∧ d.2 == 0.5 + swing (Qnat p - Qnat n))
  ∨ ((p < n)%nat ∧ d.1 = "negative" ∧ d.2 == 0.5 - swing (Qnat n - Qnat p))
  ∨ (p = n ∧ d.1 = "neutral" ∧ d.2 == 0.5).
Proof.
  unfold decide_basic, swing.
  destruct (n <? p)%nat eqn:E1; [|destruct (p <? n)%nat eqn:E2]; simpl.
  - apply Nat.ltb_lt in E1. left. split; [lia|split; [done|]].
    by rewrite Qnat_sub by lia.
  - apply Nat.ltb_lt in E2. right; left. split; [lia|split; [done|]].
    by rewrite Qnat_sub by lia.
  - apply Nat.ltb_ge in E1, E2. right; right. split; [lia|done].
Qed.

End KeywordTier.

Section KeywordTierClaims.
Import SentimentService.
#[local] Open Scope Q_scope.


(** The three texts of [tests/test_sentiment_analysis.py], answered by
    the keyword tier. *)
Example test_positive_sentiment :
  let v := analyze_sentiment_basic
             "I absolutely love this product! It's amazing and works perfectly." in
  v !! "sentiment" = Some (JStr "positive") ∧ v !! "score" = Some (JNum 0.80).
Proof. by vm_compute. Qed.

Example test_negative_sentiment :
  let v := analyze_sentiment_basic
             "This is terrible. I hate it and it doesn't work at all." in
  v !! "sentiment" = Some (JStr "negative") ∧ v !! "score" = Some (JNum 0.30).
Proof. by vm_compute. Qed.

Example test_neutral_sentiment :
  let v := analyze_sentiment_basic
             "This product is okay. It works as expected." in
  v !! "sentiment" = Some (JStr "neutral") ∧ v !! "score" = Some (JNum 0.5).
Proof. by vm_compute. Qed.

(** A keyword that occurs three times counts once. *)
Example repeated_keyword_counts_once :
  keyword_count positive_words "good, good, GOOD" = 1%nat.
Proof. by vm_compute. Qed.

(** C10.  For every text the keyword tier's verdict has a score above
    0.5 exactly when its sentiment is positive, below 0.5 exactly when it
    is negative, and equal to 0.5 exactly when it is neutral. *)
Theorem keyword_tier_sign_agreement (text : string) :
  let v := analyze_sentiment_basic text in
  ∃ sentiment score,
    v !! "sentiment" = Some (JStr sentiment)
    ∧ v !! "score" = Some (JNum score)
    ∧ (0.5 < score ↔ sentiment = "positive")
    ∧ (score < 0.5 ↔ sentiment = "negative")
    ∧ (score == 0.5 ↔ sentiment = "neutral").
Proof.
  intros v.
  destruct (analyze_sentiment_basic_fields text) as (Hs & Hq & _).
  set (pos := keyword_count positive_words text) in *.
  set (neg := keyword_count negative_words text) in *.
  exists (decide_basic pos neg).1, (decide_basic pos neg).2.
  split; [done|]. split; [done|].
  destruct (decide_basic_cases pos neg) as
    [(H & -> & E)|[(H & -> & E)|(H & -> & E)]]; rewrite E.
  - assert (1 <= Qnat pos - Qnat neg) as Hd.
    { apply Qnat_lt in H as H'. pose proof (Qnat_le _ _ H) as H1.
      rewrite Qnat_S in H1. lra. }
    pose proof (swing_pos _ Hd).
    repeat split; intros; (done || lra).
  - assert (1 <= Qnat neg - Qnat pos) as Hd.
    { pose proof (Qnat_le _ _ H) as H1. rewrite Qnat_S in H1. lra. }
    pose proof (swing_pos _ Hd).
    repeat split; intros; (done || lra).
  - repeat split; intros; (done || lra).
Qed.



End KeywordTierClaims.

(** ** The keyword tier in binary64

    The scores above are exact rationals.  Python computes them in
    binary64; each keyword list has ten words, so the counts range over
    0..10 and the binary64 scores can be enumerated.  They lie on the same
    side of 0.5 as the rational scores, within the unit interval, and are
    monotone in the positive count. *)

Section Binary64.
Import SentimentService.

(** [float(n)] for a small natural number. *)
Fixpoint float_of_nat (n : nat) : float :=
  match n with
  | O => 0%float
  | S n' => (float_of_nat n' + 1)%float
  end.

(** [min(a, b)] on floats: [b] when [b < a], else [a]. *)
Definition float_min (a b : float) : float :=
  if PrimFloat.ltb b a then b else a.

(** The branch of [analyze_sentiment_basic] on the two counts, with the
    arithmetic of binary64. *)
Definition decide_basic_binary64 (positive_count negative_count : nat)
  : string * float :=
  if (negative_count <? positive_count)%nat then
    ("positive",
     (0.5 + float_min 0.5
              (float_of_nat (positive_count - negative_count) / 10))%float)
  else if (positive_count <? negative_count)%nat then
    ("negative",
     (0.5 - float_min 0.5
              (float_of_nat (negative_count - positive_count) / 10))%float)
  else ("neutral", 0.5%float).

Definition float_le (a b : float) : bool := PrimFloat.leb a b.

(** The checks on one pair of counts. *)
Definition binary64_check (p n : nat) : bool :=
  let '(sentiment, score) := decide_basic_binary64 p n in
  String.eqb sentiment (decide_basic p n).1
  && float_le 0 score && float_le score 1
  && Bool.eqb (PrimFloat.ltb 0.5 score) (String.eqb sentiment "positive")
  && Bool.eqb (PrimFloat.ltb score 0.5) (String.eqb sentiment "negative")
  && Bool.eqb (PrimFloat.eqb score 0.5) (String.eqb sentiment "neutral")
  && float_le score (decide_basic_binary64 (S p) n).2.

Lemma binary64_checks (p n : nat) :
  (p ≤ 10)%nat → (n ≤ 10)%nat → binary64_check p n = true.
Proof.
  intros Hp Hn.
  assert (forallb (λ p, forallb (binary64_check p) (seq 0 11)) (seq 0 11)
          = true) as H by (by vm_compute).
  rewrite forallb_forall in H.
  assert (In p (seq 0 11)) as Hp' by (apply in_seq; lia).
  specialize (H p Hp'). rewrite forallb_forall in H.
  apply H, in_seq. lia.
Qed.

(** For every text, the binary64 score of the keyword tier lies in the
    unit interval and on the side of 0.5 that the sentiment names. *)
Lemma binary64_keyword_tier (text : string) :
  binary64_check (keyword_count positive_words text)
                 (keyword_count negative_words text) = true.
Proof.
  pose proof (keyword_count_bound positive_words text) as Hp.
  pose proof (keyword_count_bound negative_words text) as Hn.
  by apply binary64_checks.
Qed.

End Binary64.

(** ** The decision of the keyword tier *)

Section KeywordTierDecision.
Import SentimentService.
#[local] Open Scope Q_scope.









End KeywordTierDecision.

(** ** The aspect extractor *)

Section AspectExtractor.
Import SentimentService.

(** What the extractor stores under an emitted aspect. *)
Definition aspect_entry (overall_sentiment : string) : json :=
  JObj {[ "sentiment" := JStr overall_sentiment;
          "score" := JNum (aspect_score overall_sentiment) ]}.

(** One iteration of the loop over [aspect_keywords.items()]. *)
Definition aspect_step (text_lower overall_sentiment : string)
  (aspects : gmap string json) (item : string * list string)
  : gmap string json :=
  if Py.any_in item.2 text_lower
  then <[item.1 := aspect_entry overall_sentiment]> aspects
  else aspects.

Lemma extract_aspects_basic_fold (text overall_sentiment : string) :
  extract_aspects_basic text overall_sentiment
  = foldl (aspect_step (Py.lower text) overall_sentiment) ∅ aspect_keywords.
Proof. reflexivity. Qed.

(** Some entry of [table] for [aspect] has a keyword in [text_lower]. *)
Definition detected (table : list (string * list string))
  (text_lower aspect : string) : bool :=
  existsb (λ item, String.eqb item.1 aspect && Py.any_in item.2 text_lower)
    table.

Lemma detected_iff (table : list (string * list string))
  (text_lower aspect : string) :
  detected table text_lower aspect = true
  ↔ ∃ keywords, (aspect, keywords) ∈ table
                ∧ Py.any_in keywords text_lower = true.
Proof.
  unfold detected. rewrite existsb_exists. split.
  - intros ([a kws] & Hin%list_elem_of_In & [E Hany]%andb_true_iff).
    simpl in *. apply String.eqb_eq in E as ->. by exists kws.
  - intros (kws & Hin%list_elem_of_In & Hany). exists (aspect, kws).
    split; [done|]. simpl. by rewrite String.eqb_refl, Hany.
Qed.

Lemma aspect_fold_lookup (text_lower overall_sentiment aspect : string)
  (table : list (string * list string)) (aspects : gmap string json) :
  foldl (aspect_step text_lower overall_sentiment) aspects table !! aspect
  = if detected table text_lower aspect
    then Some (aspect_entry overall_sentiment)
    else aspects !! aspect.
Proof.
  revert aspects. induction table as [|[a kws] table IH]; intros aspects.
  - reflexivity.
  - simpl. rewrite IH. unfold aspect_step. simpl.
    destruct (detected table text_lower aspect);
      [by rewrite orb_true_r|rewrite orb_false_r].
    destruct (Py.any_in kws text_lower);
      [rewrite andb_true_r|by rewrite andb_false_r].
    destruct (String.eqb_spec a aspect) as [->|Hne].
    + by rewrite lookup_insert_eq.
    + by rewrite lookup_insert_ne.
Qed.

Lemma any_in_iff (keywords : list string) (text : string) :
  Forall (λ kw, Py.lower kw = kw) keywords →
  Py.any_in keywords (Py.lower text) = true
  ↔ ∃ kw, kw ∈ keywords ∧ occurs_ignoring_case kw text.
Proof.
  intros Hlow. unfold Py.any_in. rewrite existsb_exists. split.
  - intros (kw & Hin%list_elem_of_In & H). exists kw. split; [done|].
    apply contains_lower_iff; [|done].
    by eapply (proj1 (Forall_forall _ _) Hlow).
  - intros (kw & Hin & H). exists kw. split; [by apply list_elem_of_In|].
    apply contains_lower_iff; [|done].
    by eapply (proj1 (Forall_forall _ _) Hlow).
Qed.

Lemma aspect_keywords_lower :
  Forall (λ item, Forall (λ kw, Py.lower kw = kw) item.2) aspect_keywords.
Proof. repeat (constructor; [repeat (constructor; [reflexivity|]); constructor|]); constructor. Qed.

(** C9.  For every text, overall sentiment and aspect name: the
    extractor emits the aspect iff the aspect belongs to the fixed
    vocabulary of seven and one of its keywords occurs in the text up to
    case; an emitted aspect carries the overall sentiment verbatim with
    the score of the fixed mapping, 0.7 for positive, 0.3 for negative
    and 0.5 for neutral. *)
Theorem aspect_extraction (text overall_sentiment aspect : string) :
  let aspects := extract_aspects_basic text overall_sentiment in
  (is_Some (aspects !! aspect)
   ↔ ∃ keywords, (aspect, keywords) ∈ aspect_keywords
                 ∧ ∃ kw, kw ∈ keywords ∧ occurs_ignoring_case kw text)
  ∧ (aspects !! aspect = None
     ∨ aspects !! aspect
       = Some (JObj {[ "sentiment" := JStr overall_sentiment;
                       "score" := JNum (aspect_score overall_sentiment) ]}))
  ∧ aspect_keywords.*1
    = ["quality"; "price"; "performance"; "design"; "usability";
       "customer service"; "delivery"]
  ∧ aspect_score "positive" = 0.7%Q
  ∧ aspect_score "negative" = 0.3%Q
  ∧ aspect_score "neutral" = 0.5%Q.
Proof.
  intros aspects. unfold aspects.
  rewrite extract_aspects_basic_fold, aspect_fold_lookup, lookup_empty.
  split; [|split; [|done]].
  - destruct (detected _ _ _) eqn:Hd.
    + split; [intros _|by eauto].
      apply detected_iff in Hd as (kws & Hin & Hany).
      exists kws. split; [done|].
      apply any_in_iff; [|done].
      by eapply (proj1 (Forall_forall _ _) aspect_keywords_lower (_, _)).
    + split; [by intros []|].
      intros (kws & Hin & Hkw).
      assert (detected aspect_keywords (Py.lower text) aspect = true)
        as Hd'; [|congruence].
      apply detected_iff. exists kws. split; [done|].
      apply any_in_iff; [|done].
      by eapply (proj1 (Forall_forall _ _) aspect_keywords_lower (_, _)).
  - destruct (detected _ _ _); [by right | by left].
Qed.

Lemma aspect_extraction_witness :
  is_Some (extract_aspects_basic "Fast SHIPPING, sturdy box" "negative"
             !! "delivery").
Proof.
  apply (aspect_extraction "Fast SHIPPING, sturdy box" "negative" "delivery").
  exists ["delivery"; "shipping"; "arrived"; "package"; "box"; "packaging"].
  split; [vm_compute; set_solver|].
  exists "shipping". split; [set_solver|].
  exists "Fast ", "SHIPPING", ", sturdy box". split; reflexivity.
Defined.

End AspectExtractor.

(** ** The cascade *)

Section Cascade.
Import SentimentService.
#[local] Open Scope Q_scope.

Definition sentiments : list string := ["positive"; "neutral"; "negative"].

(** A verdict is valid when its sentiment is one of the three labels
    and its score is a number between 0 and 1. *)
Definition valid_verdict (v : dict) : Prop :=
  ∃ sentiment score,
    v !! "sentiment" = Some (JStr sentiment)
    ∧ sentiment ∈ sentiments
    ∧ v !! "score" = Some (JNum score)
    ∧ 0 <= score <= 1.

(** The generative tier is tried and returns a verdict. *)
Definition generative_tier_answers (e : env) (text : string)
  (log : list request) : Prop :=
  has_api_key e = true
  ∧ ∃ g, (analyze_sentiment_gemini e text log).1 = Ok g.

(** The lexicon's compound polarity of the text, when it yields one,
    lies between -1 and 1. *)
Definition compound_in_range (e : env) (text : string) : Prop :=
  match vader_compound e text with
  | Some compound => -1 <= compound <= 1
  | None => True
  end.

(** The verdict of the tiers below the generative one. *)
Definition local_verdict (e : env) (text : string) : dict :=
  if vader_available e then analyze_sentiment_vader e text
  else analyze_sentiment_basic text.

Lemma analyze_sentiment_cases (e : env) (text : string)
  (log : list request) :
  (generative_tier_answers e text log
   ∧ analyze_sentiment e text log = analyze_sentiment_gemini e text log)
  ∨ (¬ generative_tier_answers e text log
     ∧ ∃ log', analyze_sentiment e text log
               = (Ok (local_verdict e text), log')).
Proof.
  unfold analyze_sentiment, generative_tier_answers, local_verdict.
  destruct (has_api_key e) eqn:Hkey.
  - unfold try_except.
    destruct (analyze_sentiment_gemini e text log) as [[g|x] log'] eqn:Hg.
    + left. simpl. eauto.
    + right. split; [by intros [_ [g Hg']]|].
      exists log'. by destruct (vader_available e).
  - right. split; [by intros [? _]|].
    exists log. by destruct (vader_available e).
Qed.

Lemma basic_valid (text : string) :
  valid_verdict (analyze_sentiment_basic text).
Proof.
  destruct (analyze_sentiment_basic_fields text) as (Hs & Hq & _).
  set (pos := keyword_count positive_words text) in *.
  set (neg := keyword_count negative_words text) in *.
  exists (decide_basic pos neg).1, (decide_basic pos neg).2.
  split; [done|].
  destruct (decide_basic_cases pos neg) as
    [(H & -> & E)|[(H & -> & E)|(H & -> & E)]];
    (split; [unfold sentiments; repeat constructor|]);
    (split; [done|]); rewrite E.
  - assert (1 <= Qnat pos - Qnat neg) as Hd.
    { pose proof (Qnat_le _ _ H) as H1. rewrite Qnat_S in H1. lra. }
    pose proof (swing_pos _ Hd). lra.
  - assert (1 <= Qnat neg - Qnat pos) as Hd.
    { pose proof (Qnat_le _ _ H) as H1. rewrite Qnat_S in H1. lra. }
    pose proof (swing_pos _ Hd). lra.
  - lra.
Qed.

Lemma vader_valid (e : env) (text : string) :
  compound_in_range e text →
  valid_verdict (analyze_sentiment_vader e text).
Proof.
  unfold compound_in_range, analyze_sentiment_vader.
  destruct (vader_compound e text) as [c|]; [|intros _; apply basic_valid].
  intros Hc.
  assert (0 <= (c + 1) / 2 <= 1) as Hq.
  { change ((c + 1) / 2) with ((c + 1) * (1 # 2)). lra. }
  destruct (Qle_bool 0.05 c); [|destruct (Qle_bool c (-0.05))];
    eexists _, _; (split; [reflexivity|]);
    (split; [unfold sentiments; repeat constructor|]);
    (split; [reflexivity|done]).
Qed.

Lemma local_verdict_valid (e : env) (text : string) :
  compound_in_range e text → valid_verdict (local_verdict e text).
Proof.
  intros H. unfold local_verdict.
  destruct (vader_available e); [by apply vader_valid | apply basic_valid].
Qed.

Lemma local_verdict_shape (e : env) (text : string) :
  let v := local_verdict e text in
  v !! "confidence" = None
  ∧ v !! "improvement_suggestions" = Some (JArr [])
  ∧ is_Some (v !! "sentiment") ∧ is_Some (v !! "score").
Proof.
  unfold local_verdict, analyze_sentiment_vader, analyze_sentiment_basic.
  destruct (vader_available e); [destruct (vader_compound e text)|];
    repeat match goal with |- context [if ?b then _ else _] => destruct b end;
    simpl; repeat split; by eauto.
Qed.

End Cascade.

Section CascadeClaims.
Import SentimentService.
#[local] Open Scope Q_scope.

Definition double_quote : string := String (ascii_of_nat 34) EmptyString.

(** An answer of the provider whose label is none of the three:
    the JSON object with [sentiment] MIXED and [sentiment_score] 5. *)
Definition mixed_answer : string :=
  "Here is the analysis: {" +:+ double_quote +:+ "sentiment" +:+ double_quote
  +:+ ": " +:+ double_quote +:+ "MIXED" +:+ double_quote +:+ ", "
  +:+ double_quote +:+ "sentiment_score" +:+ double_quote +:+ ": 5}".

Definition mixed_object : string :=
  "{" +:+ double_quote +:+ "sentiment" +:+ double_quote
  +:+ ": " +:+ double_quote +:+ "MIXED" +:+ double_quote +:+ ", "
  +:+ double_quote +:+ "sentiment_score" +:+ double_quote +:+ ": 5}".

(** An environment with an API key, whose provider gives
    [mixed_answer]. *)
Definition env_mixed : env := {|
  GEMINI_API_KEY := Some "key";
  GEMINI_MODEL := "gemini-1.5-flash";
  vader_available := false;
  vader_compound := λ _, None;
  provider_text := λ _, Some mixed_answer;
  json_loads := λ s,
    if String.eqb s mixed_object
    then Some {[ "sentiment" := JStr "MIXED"; "sentiment_score" := JNum 5 ]}
    else None;
  list_of_set := elements
|}.

(** An environment without API key and without lexicon. *)
Definition env_offline : env := {|
  GEMINI_API_KEY := None;
  GEMINI_MODEL := "gemini-1.5-flash";
  vader_available := false;
  vader_compound := λ _, None;
  provider_text := λ _, None;
  json_loads := λ _, None;
  list_of_set := elements
|}.

(** An environment without API key whose lexicon gives every text the
    compound polarity 0.6. *)
Definition env_lexicon : env := {|
  GEMINI_API_KEY := None;
  GEMINI_MODEL := "gemini-1.5-flash";
  vader_available := true;
  vader_compound := λ _, Some 0.6;
  provider_text := λ _, None;
  json_loads := λ _, None;
  list_of_set := elements
|}.

(** C1, as stated, fails: when the generative tier answers with a label
    outside the three and a score outside the unit interval, that answer
    is the verdict. *)
Lemma analyze_sentiment_unvalidated :
  ∃ v log,
    analyze_sentiment env_mixed "The product is fine" [] = (Ok v, log)
    ∧ v !! "sentiment" = Some (JStr "mixed")
    ∧ v !! "score" = Some (JNum 5)
    ∧ ¬ valid_verdict v.
Proof.
  eexists _, _. split; [by vm_compute|].
  split; [reflexivity|]. split; [reflexivity|].
  intros (s & q & Hs & Hin & _). vm_compute in Hs.
  injection Hs as <-.
  unfold sentiments in Hin. rewrite !elem_of_cons in Hin.
  destruct Hin as [?|[?|[?|[]%elem_of_nil]]]; discriminate.
Qed.

(** C1, amended.  For every text, [analyze_sentiment] returns a verdict
    and never raises; whenever the generative tier does not answer (no
    API key, or its attempt fails), the verdict's sentiment is one of
    positive, neutral, negative and its score lies in the unit interval,
    the lexicon's compound polarity being in [-1, 1]; when the generative
    tier answers, its verdict is returned as it is. *)
Theorem analyze_sentiment_total (e : env) (text : string)
  (log : list request) :
  ∃ v log',
    analyze_sentiment e text log = (Ok v, log')
    ∧ (¬ generative_tier_answers e text log →
       compound_in_range e text → valid_verdict v)
    ∧ (generative_tier_answers e text log →
       analyze_sentiment_gemini e text log = (Ok v, log')).
Proof.
  destruct (analyze_sentiment_cases e text log)
    as [[Ha E]|[Hn [log' E]]].
  - pose proof Ha as [Hkey [g Hg]].
    destruct (analyze_sentiment_gemini e text log) as [r log'] eqn:Hgem.
    simpl in Hg. subst r. exists g, log'.
    split; [done|]. split; [|done].
    intros Hn. by destruct Hn.
  - exists (local_verdict e text), log'. split; [done|].
    split; [|done]. intros _. apply local_verdict_valid.
Qed.

Lemma analyze_sentiment_total_witness :
  ∃ v log',
    analyze_sentiment env_lexicon "Works well" [] = (Ok v, log')
    ∧ valid_verdict v.
Proof.
  destruct (analyze_sentiment_total env_lexicon "Works well" [])
    as (v & log' & E & Hvalid & _).
  exists v, log'. split; [exact E|].
  apply Hvalid.
  - intros [Hkey _]. vm_compute in Hkey. discriminate.
  - vm_compute. split; discriminate.
Defined.

End CascadeClaims.

Section Confidence.
Import SentimentService.

Lemma row_result_confidence (text : string) (v : dict) :
  is_Some (v !! "sentiment") → is_Some (v !! "score") →
  v !! "improvement_suggestions" = Some (JArr []) →
  v !! "confidence" = None →
  ∃ row, App.row_result text v = Ok row
         ∧ row !! "confidence" = Some (JNum 0.8).
Proof.
  intros [s Hs] [q Hq] Hi Hc.
  unfold App.row_result, dict_index, dict_get_default.
  rewrite Hs, Hq, Hi, Hc. simpl.
  eexists. split; reflexivity.
Qed.

(** C8, as stated, fails: the verdict the keyword tier returns through
    [analyze_sentiment] has no confidence field. *)
Lemma verdict_without_confidence :
  ∃ v log,
    analyze_sentiment env_offline "good" [] = (Ok v, log)
    ∧ v !! "confidence" = None.
Proof. eexists _, _. split; [by vm_compute | reflexivity]. Qed.

(** C8, amended.  For every text answered by the lexicon tier or the
    keyword tier, the verdict returned by [analyze_sentiment] has no
    confidence field, and the per-row result that [process_file] builds
    from that verdict contains a confidence field equal to 0.8. *)
Theorem confidence_default (e : env) (text : string)
  (log : list request) :
  ¬ generative_tier_answers e text log →
  ∃ v log',
    analyze_sentiment e text log = (Ok v, log')
    ∧ v !! "confidence" = None
    ∧ ∃ row, App.row_result text v = Ok row
             ∧ row !! "confidence" = Some (JNum 0.8).
Proof.
  intros Hn.
  destruct (analyze_sentiment_cases e text log)
    as [[Ha _]|[_ [log' E]]]; [done|].
  destruct (local_verdict_shape e text) as (Hc & Hi & Hs & Hq).
  exists (local_verdict e text), log'.
  split; [done|]. split; [done|].
  by apply row_result_confidence.
Qed.

Lemma confidence_default_witness :
  ∃ v log',
    analyze_sentiment env_lexicon "Works well" [] = (Ok v, log')
    ∧ v !! "confidence" = None
    ∧ ∃ row, App.row_result "Works well" v = Ok row
             ∧ row !! "confidence" = Some (JNum 0.8).
Proof.
  apply (confidence_default env_lexicon "Works well" []).
  intros [Hkey _]. vm_compute in Hkey. discriminate.
Defined.

(** The generative tier does not supply a confidence either: the
    normalised verdict has the seven fixed keys only. *)
Lemma gemini_without_confidence (e : env) (text : string)
  (log log' : list request) (v : dict) :
  analyze_sentiment_gemini e text log = (Ok v, log') →
  v !! "confidence" = None.
Proof.
  unfold analyze_sentiment_gemini, bind, post, lift, ret, raise, loads,
    dict_index, json_lower.
  destruct (provider_text e _) as [t|]; [|discriminate].
  destruct (_ && _); [|discriminate].
  destruct (json_loads e _) as [d|]; [|discriminate].
  destruct (d !! "sentiment") as [[]|]; try discriminate.
  destruct (d !! "sentiment_score"); [|discriminate].
  intros [= <- _]. reflexivity.
Qed.

End Confidence.

(** ** The insight synthesizer *)

Section InsightSynthesizer.
Import SentimentService.
#[local] Open Scope Q_scope.

(** One iteration of the counting loop. *)
Definition count_step (sentiment_counts : gmap string nat)
  (r : review) : gmap string nat :=
  let sentiment := default "neutral" (r_sentiment r) in
  <[sentiment := (default 0 (sentiment_counts !! sentiment) + 1)%nat]>
    sentiment_counts.

Lemma count_fold_positive (reviews : list review)
  (counts : gmap string nat) (k : nat) :
  Forall (λ r, r_sentiment r = Some "positive") reviews →
  counts !! "positive" = Some k →
  foldl count_step counts reviews !! "positive"
  = Some (k + length reviews)%nat.
Proof.
  intros Hall. revert counts k.
  induction Hall as [|r reviews Hr _ IH]; intros counts k Hk; simpl.
  - by rewrite Nat.add_0_r.
  - rewrite (IH _ (k + 1)%nat).
    + f_equal. lia.
    + unfold count_step. rewrite Hr. simpl.
      by rewrite lookup_insert_eq, Hk.
Qed.

Lemma count_sentiments_positive (reviews : list review) :
  Forall (λ r, r_sentiment r = Some "positive") reviews →
  count_sentiments reviews !! "positive" = Some (length reviews).
Proof.
  intros Hall.
  change (count_sentiments reviews) with
    (foldl count_step
       {[ "positive" := 0%nat; "neutral" := 0%nat; "negative" := 0%nat ]}
       reviews).
  by rewrite (count_fold_positive _ _ 0%nat).
Qed.

Lemma all_positive_percentage (reviews : list review) :
  reviews ≠ [] →
  Forall (λ r, r_sentiment r = Some "positive") reviews →
  positive_percentage_of reviews == 100.
Proof.
  intros Hne Hall. unfold positive_percentage_of.
  rewrite count_sentiments_positive by done. simpl.
  destruct reviews as [|r reviews]; [done|].
  change (0 <? length (r :: reviews))%nat with true. simpl.
  assert (0 < Qnat (S (length reviews))) as Hpos.
  { change 0 with (Qnat 0). apply Qnat_lt. lia. }
  field. lra.
Qed.

(** C4.  Given an empty batch, the synthesizer returns the fixed report
    (empty lists of strengths, weaknesses, suggestions and insights, the
    text Not enough data as advantage and as summary) and issues no
    request to the provider; on a non-empty batch whose reviews are all
    positive, the positive percentage is at least 70 and the heuristic
    tier's summary is the very-satisfied text. *)
Theorem insight_synthesis (e : env) (product_name : string)
  (log : list request) :
  (generate_actionable_insights e [] product_name log
   = (Ok not_enough_data, log)
   ∧ not_enough_data !! "key_strengths" = Some (JArr [])
   ∧ not_enough_data !! "key_weaknesses" = Some (JArr [])
   ∧ not_enough_data !! "improvement_suggestions" = Some (JArr [])
   ∧ not_enough_data !! "actionable_insights" = Some (JArr [])
   ∧ not_enough_data !! "competitive_advantage"
     = Some (JStr "Not enough data")
   ∧ not_enough_data !! "customer_satisfaction_summary"
     = Some (JStr "Not enough data"))
  ∧ ∀ reviews,
      reviews ≠ [] →
      Forall (λ r, r_sentiment r = Some "positive") reviews →
      70 <= positive_percentage_of reviews
      ∧ generate_insights_basic e reviews product_name
          !! "customer_satisfaction_summary"
        = Some (JStr "Customers are generally very satisfied with the product.").
Proof.
  split; [by repeat split|].
  intros reviews Hne Hall.
  pose proof (all_positive_percentage reviews Hne Hall) as E.
  assert (70 <= positive_percentage_of reviews) as H70 by (rewrite E; lra).
  split; [done|].
  unfold generate_insights_basic, satisfaction_of.
  apply Qle_bool_iff in H70. rewrite H70. reflexivity.
Qed.

Definition positive_review (text : string) : review := {|
  r_text := Some text;
  r_sentiment := Some "positive";
  r_score := Some 0.8;
  r_rating := None;
  r_strengths := Some [text];
  r_weaknesses := Some []
|}.

Lemma insight_synthesis_witness :
  generate_insights_basic env_offline
    [positive_review "Great battery"; positive_review "Love the screen"]
    "phone" !! "customer_satisfaction_summary"
  = Some (JStr "Customers are generally very satisfied with the product.").
Proof.
  apply (insight_synthesis env_offline "phone" []).
  - discriminate.
  - repeat constructor.
Defined.

(** Without API key the synthesizer answers a non-empty batch with the
    heuristic tier and issues no request. *)
Lemma generate_actionable_insights_offline (e : env)
  (reviews : list review) (product_name : string) (log : list request) :
  has_api_key e = false → reviews ≠ [] →
  generate_actionable_insights e reviews product_name log
  = (Ok (generate_insights_basic e reviews product_name), log).
Proof.
  intros Hkey Hne. unfold generate_actionable_insights.
  destruct reviews; [done|]. by rewrite Hkey.
Qed.

End InsightSynthesizer.

(** ** Schema inference *)

Section SchemaInference.
Import App.








Lemma has_column_false (df : list column) (name : string) :
  has_column df name = false → get_column df name = None.
Proof.
  unfold has_column, get_column. induction df as [|c df IH]; simpl.
  - done.
  - destruct (String.eqb (col_name c) name); simpl; [discriminate|done].
Qed.






End SchemaInference.

Section SchemaInferenceClaims.
Import App.


Definition alias_of (c : column) : column :=
  {| col_name := "text";
     col_is_object := col_is_object c;
     col_cells := col_cells c |}.







(** A table in the Amazon format, without a text column. *)
Definition amazon_table : list column :=
  [ {| col_name := "review_text"; col_is_object := true;
       col_cells := ["Great phone, love it"; "Battery died in a week"] |};
    {| col_name := "rating"; col_is_object := false;
       col_cells := ["5"; "1"] |};
    {| col_name := "product_name"; col_is_object := true;
       col_cells := ["Phone X"; "Phone X"] |} ].


(** A table without any text-like column ends with the error. *)
Example no_text_column :
  resolve_columns
    [ {| col_name := "id"; col_is_object := false; col_cells := ["1"; "2"] |};
      {| col_name := "code"; col_is_object := true; col_cells := ["ab"; "cd"] |} ]
  = inl no_text_column_error.
Proof. reflexivity. Qed.

End SchemaInferenceClaims.

(** ** String columns that are not of dtype object *)

Section StringColumns.
Import App.








End StringColumns.

(** ** The ingestion passes *)

Section Dedup.
Import ScraperService.

Definition ids (l : list review_record) : list string := review_id <$> l.

(** [all'] extends [all] by items whose ids are pairwise distinct and
    absent from [all]. *)
Definition extends_fresh (all all' : list review_record) : Prop :=
  ∃ added, all' = all ++ added
           ∧ NoDup (ids added)
           ∧ ∀ r, r ∈ added → review_id r ∉ ids all.

Lemma extends_fresh_refl (all : list review_record) :
  extends_fresh all all.
Proof.
  exists []. rewrite app_nil_r. split; [done|]. split; [constructor|].
  by intros r ?%elem_of_nil.
Qed.

Lemma extends_fresh_trans (a b c : list review_record) :
  extends_fresh a b → extends_fresh b c → extends_fresh a c.
Proof.
  intros (x & -> & Hx & Hax) (y & -> & Hy & Hby).
  exists (x ++ y). rewrite app_assoc. split; [done|]. split.
  - unfold ids. rewrite fmap_app. apply NoDup_app. split; [done|].
    split; [|done].
    intros i Hi (r & -> & Hr)%list_elem_of_fmap.
    apply (Hby r Hr). unfold ids. rewrite fmap_app.
    apply elem_of_app. by right.
  - intros r [Hr|Hr]%elem_of_app; [by apply Hax|].
    intros Hin. apply (Hby r Hr). unfold ids. rewrite fmap_app.
    apply elem_of_app. by left.
Qed.

Lemma already_present_iff (i : string) (all : list review_record) :
  already_present i all = true ↔ i ∈ ids all.
Proof.
  unfold already_present, ids. rewrite existsb_exists, list_elem_of_fmap.
  split.
  - intros (r & Hin%list_elem_of_In & E%String.eqb_eq). by exists r.
  - intros (r & -> & Hin). exists r.
    split; [by apply list_elem_of_In | apply String.eqb_refl].
Qed.

Lemma process_review_id (e : env) (review : raw_review)
  (p : review_record) :
  process_review e review = Ok p →
  review_id p = default "" (raw_id review).
Proof.
  unfold process_review, result_bind.
  destruct (float_of_rating _); [|discriminate].
  destruct (date_text_of _); [|discriminate].
  by intros [= <-].
Qed.

Lemma extends_fresh_snoc (all : list review_record) (p : review_record) :
  already_present (review_id p) all = false →
  extends_fresh all (all ++ [p]).
Proof.
  intros H. exists [p]. split; [done|]. split.
  - apply NoDup_singleton.
  - intros r ->%list_elem_of_singleton Hin.
    apply already_present_iff in Hin. congruence.
Qed.

Lemma add_new_items_fresh (e : env) (num_reviews : Z)
  (reviews : list raw_review) (all : list review_record) :
  extends_fresh all (add_new_items e num_reviews reviews all).1.
Proof.
  revert all. induction reviews as [|review rest IH]; intros all; simpl.
  - apply extends_fresh_refl.
  - destruct (already_present _ all) eqn:Hp; [apply IH|].
    destruct (process_review e review) as [p|x] eqn:Hproc; simpl;
      [|apply extends_fresh_refl].
    apply process_review_id in Hproc. rewrite <- Hproc in Hp.
    destruct (_ <=? _)%Z; simpl.
    + by apply extends_fresh_snoc.
    + eapply extends_fresh_trans; [by apply extends_fresh_snoc | apply IH].
Qed.

Lemma sort_pages_fresh (e : env) (asin sort_by : string) (num_reviews : Z)
  (pages : list nat) (all : list review_record) :
  extends_fresh all (sort_pages e asin sort_by num_reviews pages all).
Proof.
  revert all. induction pages as [|page rest IH]; intros all; simpl.
  - apply extends_fresh_refl.
  - destruct (_ <=? _)%Z; [apply extends_fresh_refl|].
    destruct (fetch_page e _) as [[|review reviews]|];
      try apply extends_fresh_refl.
    pose proof (add_new_items_fresh e num_reviews (review :: reviews) all)
      as H.
    destruct (add_new_items e num_reviews (review :: reviews) all)
      as [all' raised].
    simpl in H. destruct raised; [done|].
    eapply extends_fresh_trans; [exact H | apply IH].
Qed.

Lemma sort_orders_fresh (e : env) (asin : string) (num_reviews : Z)
  (options : list string) (all : list review_record) :
  extends_fresh all (sort_orders e asin num_reviews options all).
Proof.
  revert all. induction options as [|sort_by rest IH]; intros all;
    cbn [sort_orders].
  - apply extends_fresh_refl.
  - destruct (_ <=? _)%Z; [apply extends_fresh_refl|].
    eapply extends_fresh_trans; [apply sort_pages_fresh | apply IH].
Qed.

(** C6.  The second pass only appends to the list accumulated by the
    first pass, and no appended item has the id of an item of that list
    (nor of another appended item); at every item of a fetched page and
    for every state of the accumulated list, an id already present makes
    the loop skip the item. *)
Theorem second_pass_dedup (e : env) (asin : string) (num_reviews : Z)
  (all_reviews : list review_record) :
  (∃ added,
     second_pass e asin num_reviews all_reviews = all_reviews ++ added
     ∧ NoDup (review_id <$> added)
     ∧ ∀ r, r ∈ added → review_id r ∉ review_id <$> all_reviews)
  ∧ (∀ (review : raw_review) (rest : list raw_review) (r : review_record),
       r ∈ all_reviews →
       review_id r = default "" (raw_id review) →
       add_new_items e num_reviews (review :: rest) all_reviews
       = add_new_items e num_reviews rest all_reviews).
Proof.
  split.
  - unfold second_pass. destruct (_ <? _)%Z.
    + apply sort_orders_fresh.
    + apply extends_fresh_refl.
  - intros review rest r Hin Hid. simpl.
    assert (already_present (default "" (raw_id review)) all_reviews = true)
      as ->; [|done].
    apply already_present_iff. rewrite <- Hid.
    by apply list_elem_of_fmap_2.
Qed.

End Dedup.

Section DedupWitness.
Import ScraperService.

Definition item (i t : string) : raw_review := {|
  raw_id := Some i;
  raw_title := None;
  raw_text := Some t;
  raw_rating := RatingNumber 4;
  raw_username := None;
  raw_date := DateAbsent;
  raw_verified_purchase := None;
  raw_helpful_votes := None
|}.

Definition no_draws : nat → draws :=
  λ _, {| pick_rating := 0; pick_text := 0; pick_days_ago := 0;
          pick_verified := 0; pick_votes := 0 |}.

(** A source with one five-star review, which the most-recent listing
    repeats before a second review. *)
Definition env_two_reviews : env := {|
  RAPIDAPI_KEY := Some "key";
  product_details := λ _, None;
  fetch_page := λ q,
    match q_star_rating q, q_page q with
    | Star 5, 1 => Some [item "R1" "Great"]
    | AllStars, 1 =>
        if String.eqb (q_sort_by q) "MOST_RECENT"
        then Some [item "R1" "Great"; item "R2" "Poor"]
        else Some []
    | _, _ => Some []
    end;
  parse_review_date := λ _, None;
  now_iso := "2026-11-04T12:00:00";
  today := {| year := 2026; month := 11; day := 4 |};
  random := no_draws
|}.

Example second_pass_skips_known_id :
  review_id <$> second_pass env_two_reviews "B000000000" 2
                  (first_pass env_two_reviews "B000000000" 5)
  = ["R1"; "R2"].
Proof. reflexivity. Qed.

Lemma second_pass_dedup_witness :
  add_new_items env_two_reviews 2
    [item "R1" "Great"; item "R2" "Poor"]
    (first_pass env_two_reviews "B000000000" 5)
  = add_new_items env_two_reviews 2 [item "R2" "Poor"]
      (first_pass env_two_reviews "B000000000" 5).
Proof.
  eapply (second_pass_dedup env_two_reviews "B000000000" 2).
  - apply list_elem_of_here.
  - reflexivity.
Defined.

End DedupWitness.

(** ** The mock backfill *)

Section Backfill.
Import ScraperService.

(** Every page of the source has zero items. *)
Definition source_empty (e : env) : Prop :=
  ∀ q, fetch_page e q = Some [].

Definition templates : list string :=
  positive_texts ++ neutral_texts ++ negative_texts.

(** The marks of a mock record: the prefix of its id and of its
    reviewer name. *)
Definition is_mock (r : review_record) : Prop :=
  String.prefix "mock_" (review_id r) = true
  ∧ String.prefix "MockUser" (reviewer_name r) = true.

Lemma first_pass_empty (e : env) (asin : string) (num_reviews : Z) :
  source_empty e → first_pass e asin num_reviews = [].
Proof.
  intros He. unfold first_pass, star_ratings, pages_to_try. simpl.
  rewrite !He. by destruct (_ <=? _)%Z.
Qed.

Lemma second_pass_empty (e : env) (asin : string) (num_reviews : Z) :
  source_empty e → second_pass e asin num_reviews [] = [].
Proof.
  intros He. unfold second_pass, sort_by_options, pages_to_try. simpl.
  rewrite !He. by repeat destruct (_ <=? _)%Z; destruct (_ <? _)%Z.
Qed.

(** With an API key and an empty source the outcome is that of the mock
    generator asked for the whole target. *)
Lemma scrape_empty_source (e : env) (asin : string) (num_reviews : Z) :
  truthy (RAPIDAPI_KEY e) = true → source_empty e → (0 < num_reviews)%Z →
  scrape_amazon_reviews_api e asin num_reviews None
  = result_bind (mock_amazon_reviews e asin num_reviews)
      (λ mock_reviews, Ok (fetch_product_info e asin, mock_reviews)).
Proof.
  intros Hkey He Hn. unfold scrape_amazon_reviews_api. simpl.
  rewrite Hkey. simpl.
  rewrite first_pass_empty, second_pass_empty by done.
  unfold len. simpl. change (Z.of_nat 0) with 0%Z.
  destruct (Z.ltb_spec 0 num_reviews); [|lia].
  by rewrite Z.sub_0_r.
Qed.

Lemma randint_range (a b : Z) (k : nat) :
  (a ≤ b)%Z → (a ≤ randint a b k ≤ b)%Z.
Proof.
  intros H. unfold randint.
  pose proof (Z.mod_pos_bound (Z.of_nat k) (b - a + 1)). lia.
Qed.

(** The date computation of the mock loop raises as soon as the number
    of days drawn is not below the day of the month. *)
Lemma mock_review_raises (e : env) (asin : string) (i : nat) :
  (day (today e) ≤ randint 1 365 (pick_days_ago (random e i)))%Z →
  mock_review e asin i = Raise (ValueError "day is out of range for month").
Proof.
  intros H. unfold mock_review, replace_day. simpl.
  destruct (1 <=? _)%Z eqn:E; [lia|done].
Qed.

Lemma mock_amazon_reviews_raises (e : env) (asin : string)
  (num_reviews : Z) :
  (0 < num_reviews)%Z →
  (day (today e) ≤ randint 1 365 (pick_days_ago (random e 0)))%Z →
  mock_amazon_reviews e asin num_reviews
  = Raise (ValueError "day is out of range for month").
Proof.
  intros Hn H. unfold mock_amazon_reviews, range.
  destruct (Z.to_nat num_reviews) as [|n] eqn:E; [lia|].
  simpl. by rewrite mock_review_raises.
Qed.

(** A source that has an API key and returns zero items on every page,
    queried on the given day with the given random values. *)
Definition env_empty_source (d : date) (rnd : nat → draws) : env := {|
  RAPIDAPI_KEY := Some "key";
  product_details := λ _, None;
  fetch_page := λ _, Some [];
  parse_review_date := λ _, None;
  now_iso := isoformat d;
  today := d;
  random := rnd
|}.

(** C5 does not hold of the code.  Asked for 20 reviews on a first of
    the month, against a source that returns zero items on every page,
    [scrape_amazon_reviews_api] raises a [ValueError] whatever the random
    values are, where the claim calls for 20 mock records: the mock
    generator moves the date back by replacing the day of the month with
    [day - days_ago], which is not a day of the month. *)
Theorem backfill_raises (rnd : nat → draws) :
  scrape_amazon_reviews_api
    (env_empty_source {| year := 2026; month := 11; day := 1 |} rnd)
    "B000000000" 20 None
  = Raise (ValueError "day is out of range for month").
Proof.
  rewrite scrape_empty_source by done.
  rewrite mock_amazon_reviews_raises; [done|done|].
  simpl. pose proof (randint_range 1 365 (pick_days_ago (rnd 0%nat))). lia.
Qed.

(** On another day the run also raises, as soon as one value drawn for
    the number of days is not below the day of the month: here the
    fourth of November with the value 200 (raw value 199). *)
Example backfill_raises_on_fourth :
  scrape_amazon_reviews_api
    (env_empty_source {| year := 2026; month := 11; day := 4 |}
       (λ _, {| pick_rating := 4; pick_text := 0; pick_days_ago := 199;
                pick_verified := 0; pick_votes := 7 |}))
    "B000000000" 20 None
  = Raise (ValueError "day is out of range for month").
Proof. reflexivity. Qed.

End Backfill.

Section BackfillWhenDatesAreValid.
Import ScraperService.

Lemma choice_elem {A} (dflt : A) (l : list A) (k : nat) :
  l ≠ [] → choice dflt l k ∈ l.
Proof.
  intros Hne. unfold choice. apply list_elem_of_In, nth_In.
  apply Nat.mod_upper_bound. by destruct l.
Qed.

(** What the records of the mock generator have in common. *)
Definition mock_record (r : review_record) : Prop :=
  is_mock r ∧ text r ∈ templates.

Lemma mock_review_ok (e : env) (asin : string) (i : nat) :
  (day (today e) ≤ days_in_month (year (today e)) (month (today e)))%Z →
  (randint 1 365 (pick_days_ago (random e i)) < day (today e))%Z →
  ∃ r, mock_review e asin i = Ok r ∧ mock_record r.
Proof.
  intros Hday Hdraw. unfold mock_review, replace_day.
  pose proof (randint_range 1 365 (pick_days_ago (random e i))) as Hr.
  destruct (_ && _) eqn:E; [|lia].
  simpl. eexists. split; [reflexivity|]. split.
  - split; simpl; apply prefix_iff; eauto.
  - simpl. unfold templates.
    destruct (4 <=? _)%Z; [|destruct (_ =? 3)%Z];
      rewrite !elem_of_app;
      [left|right; left|right; right]; by apply choice_elem.
Qed.

Lemma mock_loop_ok (e : env) (asin : string) (indices : list nat)
  (reviews : list review_record) :
  (day (today e) ≤ days_in_month (year (today e)) (month (today e)))%Z →
  Forall (λ i, (randint 1 365 (pick_days_ago (random e i))
                < day (today e))%Z) indices →
  ∃ l, mock_loop e asin indices reviews = Ok (reviews ++ l)
       ∧ length l = length indices ∧ Forall mock_record l.
Proof.
  intros Hday Hall. revert reviews.
  induction Hall as [|i indices Hi _ IH]; intros reviews; simpl.
  - exists []. by rewrite app_nil_r.
  - destruct (mock_review_ok e asin i Hday Hi) as (r & -> & Hr).
    destruct (IH (reviews ++ [r])) as (l & -> & Hlen & Hl).
    exists (r :: l). rewrite <- app_assoc. simpl.
    split; [done|]. split; [by rewrite Hlen | by constructor].
Qed.

(** When every number of days drawn is below the day of the month, the
    run against an empty source returns exactly the target number of
    records, all of them mock records with a template text. *)
Lemma backfill_when_dates_valid (e : env) (asin : string)
  (num_reviews : Z) :
  truthy (RAPIDAPI_KEY e) = true → source_empty e → (0 < num_reviews)%Z →
  (day (today e) ≤ days_in_month (year (today e)) (month (today e)))%Z →
  (∀ i, (i < Z.to_nat num_reviews)%nat →
        (randint 1 365 (pick_days_ago (random e i)) < day (today e))%Z) →
  ∃ info l,
    scrape_amazon_reviews_api e asin num_reviews None = Ok (info, l)
    ∧ len l = num_reviews ∧ Forall mock_record l.
Proof.
  intros Hkey He Hn Hday Hdraws.
  rewrite scrape_empty_source by done.
  unfold mock_amazon_reviews, range.
  destruct (mock_loop_ok e asin (seq 0 (Z.to_nat num_reviews)) [] Hday)
    as (l & -> & Hlen & Hl).
  - apply Forall_forall. intros i Hi. apply Hdraws.
    apply list_elem_of_In, in_seq in Hi. lia.
  - simpl. eexists _, l. split; [done|]. split; [|done].
    unfold len. rewrite Hlen, length_seq. lia.
Qed.

Example backfill_on_the_thirtieth :
  match scrape_amazon_reviews_api
          (env_empty_source {| year := 2026; month := 11; day := 30 |}
             (λ i, {| pick_rating := i; pick_text := i; pick_days_ago := i;
                      pick_verified := i; pick_votes := i |}))
          "B000000000" 20 None with
  | Ok (_, l) => length l = 20%nat
  | Raise _ => False
  end.
Proof. reflexivity. Qed.

End BackfillWhenDatesAreValid.

(** * Further properties of the code *)

(** ** Sentences kept as strengths and weaknesses *)

Section StrengthsWeaknesses.
Import SentimentService.

Lemma str_app_assoc (a b c : string) : (a +:+ b) +:+ c = a +:+ b +:+ c.
Proof.
  induction a as [|x a IH]; [done|]. by rewrite !app_cons, IH.
Qed.

Lemma str_app_nil_r (a : string) : a +:+ "" = a.
Proof. induction a as [|x a IH]; [done|]. by rewrite app_cons, IH. Qed.

Lemma occurs_refl (s : string) : occurs s s.
Proof. exists "", "". by rewrite app_empty, str_app_nil_r. Qed.

Lemma occurs_trans (a b c : string) : occurs a b → occurs b c → occurs a c.
Proof.
  intros (p & q & ->) (p' & q' & ->).
  exists (p' +:+ p), (q +:+ q'). by rewrite !str_app_assoc.
Qed.

Lemma occurs_cons (a : ascii) (s t : string) :
  occurs s t → occurs s (String a t).
Proof.
  intros (p & q & ->). exists (String a p), q. by rewrite app_cons.
Qed.

Lemma split_cons (sep a : ascii) (t : string) :
  Py.split sep (String a t)
  = if Ascii.eqb a sep then "" :: Py.split sep t
    else match Py.split sep t with
         | h :: tl => String a h :: tl
         | [] => [String a ""]
         end.
Proof. reflexivity. Qed.

Lemma split_nonempty (sep : ascii) (t : string) : Py.split sep t ≠ [].
Proof.
  induction t as [|a t IH]; [done|]. rewrite split_cons.
  destruct (Ascii.eqb a sep); [done|]. by destruct (Py.split sep t).
Qed.

(** The first piece of a split is a prefix of the text. *)
Lemma split_head (sep : ascii) (t h : string) (tl : list string) :
  Py.split sep t = h :: tl → ∃ rest, t = h +:+ rest.
Proof.
  revert h tl. induction t as [|a t IH]; intros h tl.
  - intros [= <- <-]. by exists "".
  - rewrite split_cons. destruct (Ascii.eqb a sep).
    + intros [= <- <-]. by eexists.
    + destruct (Py.split sep t) as [|h' tl'] eqn:E; [by destruct (split_nonempty sep t)|].
      intros [= <- <-]. destruct (IH _ _ eq_refl) as [rest ->].
      exists rest. by rewrite app_cons.
Qed.

Lemma split_elem_occurs (sep : ascii) (t s : string) :
  s ∈ Py.split sep t → occurs s t.
Proof.
  revert s. induction t as [|a t IH]; intros s.
  - intros ->%list_elem_of_singleton. apply occurs_refl.
  - rewrite split_cons. destruct (Ascii.eqb a sep).
    + intros [->|Hin]%elem_of_cons.
      * by exists "", (String a t).
      * by apply occurs_cons, IH.
    + destruct (Py.split sep t) as [|h tl] eqn:E; [by destruct (split_nonempty sep t)|].
      intros [->|Hin]%elem_of_cons.
      * destruct (split_head _ _ _ _ E) as [rest ->].
        exists "", rest. by rewrite app_empty, app_cons.
      * apply occurs_cons, IH. by apply list_elem_of_further.
Qed.

(** The character [c] is one of the characters of [s]. *)
Fixpoint has_char (c : ascii) (s : string) : bool :=
  match s with
  | EmptyString => false
  | String a s' => Ascii.eqb a c || has_char c s'
  end.

Lemma split_elem_no_sep (sep : ascii) (t s : string) :
  s ∈ Py.split sep t → has_char sep s = false.
Proof.
  revert s. induction t as [|a t IH]; intros s.
  - by intros ->%list_elem_of_singleton.
  - rewrite split_cons. destruct (Ascii.eqb a sep) eqn:Ea.
    + intros [->|Hin]%elem_of_cons; [done|by apply IH].
    + destruct (Py.split sep t) as [|h tl] eqn:E; [by destruct (split_nonempty sep t)|].
      intros [->|Hin]%elem_of_cons.
      * simpl. rewrite Ea. apply IH. apply list_elem_of_here.
      * apply IH. by apply list_elem_of_further.
Qed.

Lemma has_char_app (c : ascii) (a b : string) :
  has_char c (a +:+ b) = has_char c a || has_char c b.
Proof.
  induction a as [|x a IH]; [done|].
  rewrite app_cons. simpl. by rewrite IH, orb_assoc.
Qed.

Lemma has_char_occurs (c : ascii) (s t : string) :
  occurs s t → has_char c t = false → has_char c s = false.
Proof.
  intros (p & q & ->). rewrite !has_char_app.
  by intros [_ [? _]%orb_false_iff]%orb_false_iff.
Qed.

Lemma rev_app_app (s acc : string) :
  String.rev_app s acc = String.rev s +:+ acc.
Proof.
  unfold String.rev. revert acc. induction s as [|a s IH]; intros acc; [done|].
  simpl. rewrite (IH (String a acc)), (IH (String a "")).
  by rewrite str_app_assoc.
Qed.

Lemma rev_cons (a : ascii) (s : string) :
  String.rev (String a s) = String.rev s +:+ String a "".
Proof. unfold String.rev at 1. simpl. apply rev_app_app. Qed.

Lemma rev_app_distr (a b : string) :
  String.rev (a +:+ b) = String.rev b +:+ String.rev a.
Proof.
  induction a as [|x a IH].
  - by rewrite app_empty, str_app_nil_r.
  - by rewrite app_cons, !rev_cons, IH, str_app_assoc.
Qed.

Lemma rev_involutive (s : string) : String.rev (String.rev s) = s.
Proof.
  induction s as [|a s IH]; [done|].
  by rewrite rev_cons, rev_app_distr, IH.
Qed.

Lemma lstrip_suffix (s : string) : ∃ pre, s = pre +:+ Py.lstrip s.
Proof.
  induction s as [|a s IH]; [by exists ""|]. simpl.
  destruct (Py.isspace a).
  - destruct IH as [pre IH]. exists (String a pre). by rewrite app_cons, <- IH.
  - by exists "".
Qed.

(** A string that does not begin with white space. *)
Definition starts_clean (s : string) : Prop :=
  match s with
  | EmptyString => True
  | String a _ => Py.isspace a = false
  end.

Lemma lstrip_starts_clean (s : string) : starts_clean (Py.lstrip s).
Proof.
  induction s as [|a s IH]; [done|]. simpl.
  destruct (Py.isspace a) eqn:E; [done|]. by simpl.
Qed.

Lemma lstrip_clean (s : string) : starts_clean s → Py.lstrip s = s.
Proof. destruct s as [|a s]; [done|]. simpl. by intros ->. Qed.

(** A string without white space at either end. *)
Definition trimmed (s : string) : Prop :=
  starts_clean s ∧ starts_clean (String.rev s).

Lemma strip_decompose (s : string) :
  ∃ pre post, s = pre +:+ Py.strip s +:+ post
              ∧ Py.lstrip s = Py.strip s +:+ post.
Proof.
  unfold Py.strip.
  destruct (lstrip_suffix s) as [p Hp].
  destruct (lstrip_suffix (String.rev (Py.lstrip s))) as [q Hq].
  set (y := Py.lstrip (String.rev (Py.lstrip s))) in *.
  assert (Py.lstrip s = String.rev y +:+ String.rev q) as Hx.
  { by rewrite <- (rev_involutive (Py.lstrip s)), Hq, rev_app_distr. }
  exists p, (String.rev q). split; [|done]. by rewrite <- Hx.
Qed.

Lemma strip_occurs (s : string) : occurs (Py.strip s) s.
Proof. destruct (strip_decompose s) as (pre & post & H & _). by exists pre, post. Qed.

Lemma strip_trimmed (s : string) : trimmed (Py.strip s).
Proof.
  destruct (strip_decompose s) as (pre & post & _ & Hx).
  split.
  - pose proof (lstrip_starts_clean s) as Hc. rewrite Hx in Hc.
    destruct (Py.strip s) as [|a r]; [done|]. by rewrite app_cons in Hc.
  - unfold Py.strip. rewrite rev_involutive. apply lstrip_starts_clean.
Qed.

End StrengthsWeaknesses.

Section StrengthsWeaknessesShape.
Import SentimentService.

Lemma foldl_Forall {A B} (P : B → Prop) (f : list B → A → list B)
  (l : list A) (acc : list B) :
  Forall P acc →
  (∀ acc x, x ∈ l → Forall P acc → Forall P (f acc x)) →
  Forall P (foldl f acc l).
Proof.
  revert acc. induction l as [|x l IH]; intros acc Hacc Hstep; [done|].
  simpl. apply IH.
  - apply Hstep; [apply list_elem_of_here | done].
  - intros acc' y Hy. apply Hstep. by apply list_elem_of_further.
Qed.

Lemma indicators_lower (strengths : bool) :
  Forall (λ kw, Py.lower kw = kw)
    (if strengths then strength_indicators else weakness_indicators).
Proof. destruct strengths; repeat (constructor; [reflexivity|]); constructor. Qed.

(** Every sentence that [extract_strengths_weaknesses] keeps: there are at
    most three; each is longer than five characters, has no white space at
    either end and no period, occurs verbatim in the text, and is the
    stripped form of a period-separated sentence in which an indicator
    occurs up to case. *)
Theorem strengths_weaknesses_sound (text : string) (strengths : bool) :
  let kept := extract_strengths_weaknesses text strengths in
  (length kept ≤ 3)%nat
  ∧ Forall
      (λ s, (5 < String.length s)%nat
            ∧ trimmed s
            ∧ has_char "." s = false
            ∧ occurs s text
            ∧ ∃ sentence indicator,
                sentence ∈ Py.split "." text
                ∧ s = Py.strip sentence
                ∧ indicator ∈ (if strengths then strength_indicators
                               else weakness_indicators)
                ∧ occurs_ignoring_case indicator sentence)
      kept.
Proof.
  intros kept. split; [apply firstn_le_length|].
  unfold kept, extract_strengths_weaknesses, Py.take_first.
  apply Forall_take, foldl_Forall; [constructor|].
  intros acc sentence Hin Hacc.
  destruct (Py.any_in _ (Py.lower sentence)) eqn:Hany; [|done].
  destruct (negb _ && _) eqn:Hlen; [|done].
  apply Forall_app. split; [done|]. constructor; [|constructor].
  apply andb_true_iff in Hlen as [_ Hlen%Nat.ltb_lt].
  apply any_in_iff in Hany as (ind & Hind & Hocc);
    [|apply indicators_lower].
  split; [done|]. split; [apply strip_trimmed|]. split.
  - eapply has_char_occurs; [apply strip_occurs|].
    by eapply split_elem_no_sep.
  - split.
    + eapply occurs_trans; [apply strip_occurs|].
      by eapply split_elem_occurs.
    + by exists sentence, ind.
Qed.

Example strengths_of_a_review :
  extract_strengths_weaknesses
    "Great phone.  I LOVE the camera . ok. The battery is bad." true
  = ["Great phone"; "I LOVE the camera"].
Proof. reflexivity. Qed.

End StrengthsWeaknessesShape.

(** ** The cascade: keys of the verdict and requests issued *)

Section CascadeShape.
Import SentimentService.

(** The keys of a verdict. *)
Definition verdict_keys : gset string :=
  {[ "sentiment" ]} ∪ ({[ "score" ]} ∪ ({[ "aspects" ]} ∪ ({[ "summary" ]}
  ∪ ({[ "strengths" ]} ∪ ({[ "weaknesses" ]}
  ∪ {[ "improvement_suggestions" ]}))))).

Lemma dom_seven (v1 v2 v3 v4 v5 v6 v7 : json) :
  dom ({[ "sentiment" := v1; "score" := v2; "aspects" := v3;
          "summary" := v4; "strengths" := v5; "weaknesses" := v6;
          "improvement_suggestions" := v7 ]} : gmap string json)
  = verdict_keys.
Proof. by rewrite !dom_insert_L, dom_singleton_L. Qed.

Lemma local_verdict_keys (e : env) (text : string) :
  dom (local_verdict e text) = verdict_keys.
Proof.
  unfold local_verdict, analyze_sentiment_vader, analyze_sentiment_basic.
  destruct (vader_available e); [destruct (vader_compound e text)|];
    repeat match goal with |- context [if ?b then _ else _] => destruct b end;
    apply dom_seven.
Qed.

Lemma gemini_verdict_keys (e : env) (text : string)
  (log log' : list request) (v : dict) :
  analyze_sentiment_gemini e text log = (Ok v, log') →
  dom v = verdict_keys.
Proof.
  unfold analyze_sentiment_gemini, bind, post, lift, ret, raise, loads,
    dict_index, json_lower.
  destruct (provider_text e _) as [t|]; [|discriminate].
  destruct (_ && _); [|discriminate].
  destruct (json_loads e _) as [d|]; [|discriminate].
  destruct (d !! "sentiment") as [[]|]; try discriminate.
  destruct (d !! "sentiment_score"); [|discriminate].
  intros [= <- _]. apply dom_seven.
Qed.

(** Whatever tier answers, [analyze_sentiment] returns a verdict with the
    same seven keys: sentiment, score, aspects, summary, strengths,
    weaknesses, improvement_suggestions. *)
Theorem verdict_schema (e : env) (text : string) (log : list request) :
  ∃ v log',
    analyze_sentiment e text log = (Ok v, log') ∧ dom v = verdict_keys.
Proof.
  destruct (analyze_sentiment_cases e text log) as [[Ha E]|[_ [log' E]]].
  - destruct Ha as [_ [g Hg]].
    destruct (analyze_sentiment_gemini e text log) as [r log'] eqn:Hgem.
    simpl in Hg. subst r. exists g, log'. split; [done|].
    by eapply gemini_verdict_keys.
  - exists (local_verdict e text), log'. split; [done|].
    apply local_verdict_keys.
Qed.

Lemma gemini_log (e : env) (text : string) (log : list request) :
  (analyze_sentiment_gemini e text log).2
  = log ++ [SentimentRequest (GEMINI_MODEL e) text].
Proof.
  unfold analyze_sentiment_gemini, bind, post, lift, ret, raise, loads,
    dict_index, json_lower.
  destruct (provider_text e _) as [t|]; [|done].
  destruct (_ && _); [|done].
  destruct (json_loads e _) as [d|]; [|done].
  destruct (d !! "sentiment") as [[]|]; try done.
  by destruct (d !! "sentiment_score").
Qed.

(** One call of [analyze_sentiment] sends exactly one request to the
    provider when an API key is configured, whether the provider answers
    or not, and none otherwise; the requests already in the log are kept. *)
Theorem analyze_sentiment_requests (e : env) (text : string)
  (log : list request) :
  (analyze_sentiment e text log).2
  = if has_api_key e
    then log ++ [SentimentRequest (GEMINI_MODEL e) text]
    else log.
Proof.
  unfold analyze_sentiment. destruct (has_api_key e).
  - unfold try_except. pose proof (gemini_log e text log) as H.
    destruct (analyze_sentiment_gemini e text log) as [[g|x] log'];
      simpl in H; subst log'; [done|].
    by destruct (vader_available e).
  - by destruct (vader_available e).
Qed.

End CascadeShape.

(** ** The lexicon tier and the coherence of a verdict *)

Section LexiconTier.
Import SentimentService.
#[local] Open Scope Q_scope.

(** When the lexicon yields the compound polarity [c], the lexicon tier's
    score is [(c + 1) / 2], and its sentiment is positive exactly when the
    score is at least 0.525, negative exactly when it is at most 0.475, and
    neutral exactly in between. *)
Theorem lexicon_tier_bands (e : env) (text : string) (c : Q) :
  vader_compound e text = Some c →
  let v := analyze_sentiment_vader e text in
  ∃ sentiment score,
    v !! "sentiment" = Some (JStr sentiment)
    ∧ v !! "score" = Some (JNum score)
    ∧ score == (c + 1) / 2
    ∧ (sentiment = "positive" ↔ 0.525 <= score)
    ∧ (sentiment = "negative" ↔ score <= 0.475)
    ∧ (sentiment = "neutral" ↔ 0.475 < score ∧ score < 0.525).
Proof.
  intros Hc v. unfold v, analyze_sentiment_vader. rewrite Hc.
  assert ((c + 1) / 2 == (c + 1) * (1 # 2)) as Hhalf by reflexivity.
  destruct (Qle_bool 0.05 c) eqn:E1; [|destruct (Qle_bool c (-0.05)) eqn:E2];
    eexists _, _; (split; [reflexivity|]); (split; [reflexivity|]);
    (split; [reflexivity|]); rewrite Hhalf.
  - apply Qle_bool_iff in E1.
    repeat split; intros; try done; try lra.
  - apply Qle_bool_iff in E2.
    assert (¬ 0.05 <= c) as E1' by (rewrite <- Qle_bool_iff; congruence).
    repeat split; intros; try done; try lra.
  - assert (¬ 0.05 <= c) as E1' by (rewrite <- Qle_bool_iff; congruence).
    assert (¬ c <= -0.05) as E2' by (rewrite <- Qle_bool_iff; congruence).
    repeat split; intros; try done; try lra.
Qed.

Lemma lexicon_tier_bands_witness :
  ∃ sentiment score,
    analyze_sentiment_vader env_lexicon "Works well" !! "sentiment"
    = Some (JStr sentiment)
    ∧ analyze_sentiment_vader env_lexicon "Works well" !! "score"
      = Some (JNum score)
    ∧ score == 0.8.
Proof.
  destruct (lexicon_tier_bands env_lexicon "Works well" 0.6 eq_refl)
    as (s & q & Hs & Hq & E & _).
  exists s, q. split; [exact Hs|]. split; [exact Hq|].
  rewrite E. reflexivity.
Defined.

Lemma aspects_all_entry (text sentiment : string) :
  map_Forall (λ _ entry, entry = aspect_entry sentiment)
    (extract_aspects_basic text sentiment).
Proof.
  intros a entry. rewrite extract_aspects_basic_fold, aspect_fold_lookup.
  rewrite lookup_empty. destruct (detected _ _ _); [|done]. by intros [= <-].
Qed.

(** A verdict of the lexicon tier or of the keyword tier is coherent: its
    summary names its sentiment, and every aspect it reports carries that
    same sentiment with the score of the fixed mapping. *)
Theorem local_verdict_coherent (e : env) (text : string) :
  let v := local_verdict e text in
  ∃ sentiment aspects,
    v !! "sentiment" = Some (JStr sentiment)
    ∧ v !! "summary"
      = Some (JStr ("The review expresses " +:+ sentiment
                    +:+ " sentiment overall."))
    ∧ v !! "aspects" = Some (JObj aspects)
    ∧ map_Forall
        (λ _ entry,
           entry = JObj {[ "sentiment" := JStr sentiment;
                           "score" := JNum (aspect_score sentiment) ]})
        aspects.
Proof.
  unfold local_verdict, analyze_sentiment_vader, analyze_sentiment_basic.
  destruct (vader_available e); [destruct (vader_compound e text)|];
    repeat match goal with |- context [if ?b then _ else _] => destruct b end;
    eexists _, _; (split; [reflexivity|]); (split; [reflexivity|]);
    (split; [reflexivity|]); apply aspects_all_entry.
Qed.

End LexiconTier.

Section CaseInsensitive.
Import SentimentService.

Lemma keyword_count_lower (words : list string) (text1 text2 : string) :
  Py.lower text1 = Py.lower text2 →
  keyword_count words text1 = keyword_count words text2.
Proof. unfold keyword_count. by intros ->. Qed.

(** The keyword tier does not see the case of the letters: two texts that
    are equal once lower-cased get the same sentiment, score, aspects and
    summary. *)
Theorem keyword_tier_ignores_case (text1 text2 : string) :
  Py.lower text1 = Py.lower text2 →
  ∀ key, key ∈ ["sentiment"; "score"; "aspects"; "summary"] →
         analyze_sentiment_basic text1 !! key
         = analyze_sentiment_basic text2 !! key.
Proof.
  intros Hlow key Hkey.
  unfold analyze_sentiment_basic, extract_aspects_basic.
  rewrite Hlow.
  repeat match goal with |- context [if ?b then _ else _] => destruct b end;
    repeat (apply elem_of_cons in Hkey as [->|Hkey]; [reflexivity|]);
    by apply elem_of_nil in Hkey.
Qed.

Lemma keyword_tier_ignores_case_witness :
  analyze_sentiment_basic "GREAT phone" !! "score"
  = analyze_sentiment_basic "great Phone" !! "score".
Proof.
  apply (keyword_tier_ignores_case "GREAT phone" "great Phone").
  - reflexivity.
  - apply list_elem_of_further, list_elem_of_here.
Defined.

End CaseInsensitive.

(** ** The heuristic report *)

Section HeuristicReport.
Import SentimentService.
#[local] Open Scope Q_scope.

(** The sentiment under which the counting loop files a review. *)
Definition filed_as (r : review) : string := default "neutral" (r_sentiment r).

(** The number of reviews filed under [label]. *)
Definition tally (label : string) (reviews : list review) : nat :=
  length (filter (λ r, filed_as r = label) reviews).

Lemma count_fold_tally (label : string) (reviews : list review)
  (counts : gmap string nat) :
  default 0%nat (foldl count_step counts reviews !! label)
  = (default 0 (counts !! label) + tally label reviews)%nat.
Proof.
  revert counts. induction reviews as [|r reviews IH]; intros counts.
  - simpl. unfold tally. simpl. lia.
  - simpl. rewrite IH. unfold tally. rewrite filter_cons.
    unfold count_step. fold (filed_as r).
    destruct (decide (filed_as r = label)) as [->|Hne].
    + rewrite lookup_insert_eq. simpl. lia.
    + by rewrite lookup_insert_ne.
Qed.

Lemma count_sentiments_tally (label : string) (reviews : list review) :
  default 0%nat (count_sentiments reviews !! label) = tally label reviews.
Proof.
  change (count_sentiments reviews) with
    (foldl count_step
       {[ "positive" := 0%nat; "neutral" := 0%nat; "negative" := 0%nat ]}
       reviews).
  rewrite count_fold_tally.
  destruct (decide (label = "positive")) as [->|?]; [done|].
  rewrite lookup_insert_ne by done.
  destruct (decide (label = "neutral")) as [->|?]; [done|].
  rewrite lookup_insert_ne by done.
  destruct (decide (label = "negative")) as [->|?]; [done|].
  by rewrite lookup_singleton_ne.
Qed.

(** The counting loop files every review under exactly one label, a review
    without sentiment under neutral: for each label the count is the
    number of reviews filed under it, and a batch whose labels are among
    the three has counts that add up to its size. *)
Theorem sentiment_counts_tally (reviews : list review) (label : string) :
  default 0%nat (count_sentiments reviews !! label)
  = length (filter (λ r, default "neutral" (r_sentiment r) = label) reviews)
  ∧ (Forall (λ r, default "neutral" (r_sentiment r)
                  ∈ ["positive"; "neutral"; "negative"]) reviews →
     (default 0 (count_sentiments reviews !! "positive")
      + default 0 (count_sentiments reviews !! "neutral")
      + default 0 (count_sentiments reviews !! "negative"))%nat
     = length reviews).
Proof.
  split; [apply count_sentiments_tally|].
  rewrite !count_sentiments_tally. unfold tally, filed_as.
  induction 1 as [|r reviews Hr _ IH]; [done|].
  rewrite !filter_cons. simpl.
  repeat (apply elem_of_cons in Hr as [Hr|Hr];
          [rewrite Hr; repeat case_decide; try done; simpl; lia|]).
  by apply elem_of_nil in Hr.
Qed.

Definition review_with (sentiment : option string) : review := {|
  r_text := Some "It works";
  r_sentiment := sentiment;
  r_score := None;
  r_rating := None;
  r_strengths := None;
  r_weaknesses := None
|}.

Lemma sentiment_counts_tally_witness :
  (default 0 (count_sentiments
                [review_with (Some "positive"); review_with None]
              !! "positive")
   + default 0 (count_sentiments
                  [review_with (Some "positive"); review_with None]
                !! "neutral")
   + default 0 (count_sentiments
                  [review_with (Some "positive"); review_with None]
                !! "negative"))%nat
  = 2%nat.
Proof.
  apply (sentiment_counts_tally
           [review_with (Some "positive"); review_with None] "positive").
  repeat constructor.
Defined.

Lemma positive_percentage_tally (reviews : list review) :
  reviews ≠ [] →
  positive_percentage_of reviews
  == Qnat (tally "positive" reviews) / Qnat (length reviews) * 100.
Proof.
  intros Hne. unfold positive_percentage_of.
  rewrite count_sentiments_tally.
  destruct reviews; [done|]. reflexivity.
Qed.

Lemma percentage_threshold (p n : nat) (k : Z) :
  (0 < n)%nat →
  inject_Z k <= Qnat p / Qnat n * 100 ↔ (k * Z.of_nat n ≤ 100 * Z.of_nat p)%Z.
Proof.
  intros Hn. unfold Qnat, Qdiv, Qle, Qmult, Qinv, inject_Z.
  destruct (Z.of_nat n) as [|pn|pn] eqn:En; [lia| |lia].
  cbn [Qnum Qden]. rewrite !Pos.mul_1_l, !Pos.mul_1_r. lia.
Qed.

(** In terms of the number [p] of positive reviews among the [n] of a
    non-empty batch: the summary is the very-satisfied text when
    [p/n >= 70%], the moderately-satisfied text when [50% <= p/n < 70%],
    and the low-satisfaction text below 50%. *)
Theorem satisfaction_by_counts (e : env) (reviews : list review)
  (product_name : string) :
  reviews ≠ [] →
  let p := Z.of_nat
             (length (filter (λ r, default "neutral" (r_sentiment r)
                                   = "positive") reviews)) in
  let n := Z.of_nat (length reviews) in
  generate_insights_basic e reviews product_name
    !! "customer_satisfaction_summary"
  = Some (JStr
      (if decide (70 * n ≤ 100 * p)%Z then
         "Customers are generally very satisfied with the product."
       else if decide (50 * n ≤ 100 * p)%Z then
         "Customers are moderately satisfied, but there are some areas for improvement."
       else
         "Customer satisfaction is low. Immediate attention to product issues is recommended.")).
Proof.
  intros Hne p n.
  assert (0 < length reviews)%nat as Hn by (destruct reviews; [done|simpl; lia]).
  pose proof (positive_percentage_tally reviews Hne) as E.
  unfold generate_insights_basic, satisfaction_of.
  change (_ !! "customer_satisfaction_summary") with
    (Some (JStr
       (if Qle_bool 70 (positive_percentage_of reviews) then
          "Customers are generally very satisfied with the product."
        else if Qle_bool 50 (positive_percentage_of reviews) then
          "Customers are moderately satisfied, but there are some areas for improvement."
        else
          "Customer satisfaction is low. Immediate attention to product issues is recommended."))).
  rewrite !E. do 2 f_equal.
  pose proof (percentage_threshold (tally "positive" reviews) _ 70 Hn) as H70.
  pose proof (percentage_threshold (tally "positive" reviews) _ 50 Hn) as H50.
  change (inject_Z 70) with 70 in H70. change (inject_Z 50) with 50 in H50.
  fold (tally "positive" reviews) in p. fold p n in H70, H50.
  destruct (Qle_bool 70 _) eqn:E70.
  - apply Qle_bool_iff, H70 in E70. by rewrite decide_True.
  - rewrite decide_False
      by (intros H%H70%Qle_bool_iff; congruence).
    destruct (Qle_bool 50 _) eqn:E50.
    + apply Qle_bool_iff, H50 in E50. by rewrite decide_True.
    + by rewrite decide_False
        by (intros H%H50%Qle_bool_iff; congruence).
Qed.

Lemma satisfaction_by_counts_witness :
  generate_insights_basic env_offline
    [review_with (Some "positive"); review_with None;
     review_with (Some "positive"); review_with (Some "negative")]
    "phone" !! "customer_satisfaction_summary"
  = Some (JStr "Customers are moderately satisfied, but there are some areas for improvement.").
Proof.
  apply (satisfaction_by_counts env_offline
           [review_with (Some "positive"); review_with None;
            review_with (Some "positive"); review_with (Some "negative")]
           "phone").
  discriminate.
Defined.

End HeuristicReport.

Section ReportShape.
Import SentimentService.

(** [list(set(l))] enumerates each element of the set once. *)
Definition enumerates (e : env) : Prop :=
  ∀ X : gset string,
    NoDup (list_of_set e X) ∧ ∀ x, x ∈ list_of_set e X ↔ x ∈ X.

Lemma pooled_elem (field : review → option (list string))
  (reviews : list review) (acc : list string) (x : string) :
  x ∈ foldl (λ acc r, acc ++ default [] (field r)) acc reviews
  ↔ x ∈ acc ∨ ∃ r, r ∈ reviews ∧ x ∈ default [] (field r).
Proof.
  revert acc. induction reviews as [|r reviews IH]; intros acc; simpl.
  - split; [by left|]. intros [?|(r & []%elem_of_nil & _)]. done.
  - rewrite IH, elem_of_app. split.
    + intros [[?|?]|(r' & ? & ?)]; [by left| |].
      * right. exists r. split; [apply list_elem_of_here|done].
      * right. exists r'. split; [by apply list_elem_of_further|done].
    + intros [?|(r' & [->|?]%elem_of_cons & ?)].
      * by left; left.
      * by left; right.
      * right. by exists r'.
Qed.

Lemma key_items (e : env) (field : review → option (list string))
  (reviews : list review) :
  enumerates e →
  let keys :=
    Py.take_first 5
      (list_of_set e
         (list_to_set
            (foldl (λ acc r, acc ++ default [] (field r)) [] reviews))) in
  (length keys ≤ 5)%nat ∧ NoDup keys
  ∧ ∀ x, x ∈ keys → ∃ r, r ∈ reviews ∧ x ∈ default [] (field r).
Proof.
  intros He keys. unfold keys, Py.take_first.
  split; [apply firstn_le_length|].
  destruct (He (list_to_set
                  (foldl (λ acc r, acc ++ default [] (field r)) [] reviews)))
    as [Hnd Hin].
  split; [by eapply sublist_NoDup, sublist_take|].
  intros x Hx. eapply elem_of_sublist in Hx; [|apply sublist_take].
  apply Hin in Hx.
  rewrite elem_of_list_to_set in Hx.
  apply pooled_elem in Hx as [[]%elem_of_nil|Hx]. done.
Qed.

(** The shape of the heuristic report, whatever the order in which the
    pooled sets are enumerated: at most five key strengths and five key
    weaknesses, without repetition, each taken from the strengths or
    weaknesses of some review of the batch; one suggestion, prefixed with
    Address issue, for each of the first three key weaknesses; the first
    key strength, or Not identified, as competitive advantage; and one
    actionable insight plus one more for a non-empty list of key strengths
    and one more for a non-empty list of key weaknesses. *)
Theorem heuristic_report_shape (e : env) (reviews : list review)
  (product_name : string) :
  enumerates e →
  let report := generate_insights_basic e reviews product_name in
  ∃ key_strengths key_weaknesses insights,
    report !! "key_strengths" = Some (JStrs key_strengths)
    ∧ report !! "key_weaknesses" = Some (JStrs key_weaknesses)
    ∧ (length key_strengths ≤ 5)%nat ∧ NoDup key_strengths
    ∧ (∀ x, x ∈ key_strengths →
            ∃ r, r ∈ reviews ∧ x ∈ default [] (r_strengths r))
    ∧ (length key_weaknesses ≤ 5)%nat ∧ NoDup key_weaknesses
    ∧ (∀ x, x ∈ key_weaknesses →
            ∃ r, r ∈ reviews ∧ x ∈ default [] (r_weaknesses r))
    ∧ report !! "improvement_suggestions"
      = Some (JStrs ((λ w, "Address issue: " +:+ w) <$> take 3 key_weaknesses))
    ∧ report !! "competitive_advantage"
      = Some (JStr (default "Not identified" (head key_strengths)))
    ∧ report !! "actionable_insights" = Some (JArr insights)
    ∧ length insights
      = (1 + (if key_strengths is [] then 0 else 1)
           + (if key_weaknesses is [] then 0 else 1))%nat.
Proof.
  intros He report.
  destruct (key_items e r_strengths reviews He) as (Hs1 & Hs2 & Hs3).
  destruct (key_items e r_weaknesses reviews He) as (Hw1 & Hw2 & Hw3).
  unfold report, generate_insights_basic.
  set (ks := Py.take_first 5 (list_of_set e (list_to_set
         (foldl (λ acc r, acc ++ default [] (r_strengths r)) [] reviews)))) in *.
  set (kw := Py.take_first 5 (list_of_set e (list_to_set
         (foldl (λ acc r, acc ++ default [] (r_weaknesses r)) [] reviews)))) in *.
  eexists ks, kw, _.
  split; [reflexivity|]. split; [reflexivity|].
  do 6 (split; [done|]).
  split; [reflexivity|].
  split; [by destruct ks|].
  split; [reflexivity|].
  by destruct ks, kw.
Qed.

Lemma enumerates_offline : enumerates env_offline.
Proof.
  intros X. split; [apply NoDup_elements|].
  intros x. apply elem_of_elements.
Defined.

Lemma heuristic_report_shape_witness :
  ∃ key_strengths,
    generate_insights_basic env_offline
      [positive_review "Great battery"; positive_review "Great battery"]
      "phone" !! "key_strengths" = Some (JStrs key_strengths)
    ∧ NoDup key_strengths.
Proof.
  destruct (heuristic_report_shape env_offline
              [positive_review "Great battery"; positive_review "Great battery"]
              "phone" enumerates_offline)
    as (ks & kw & ins & H1 & _ & _ & H2 & _).
  exists ks. split; [exact H1 | exact H2].
Defined.

Example duplicate_strengths_are_pooled_once :
  generate_insights_basic env_offline
    [positive_review "Great battery"; positive_review "Great battery"]
    "phone" !! "key_strengths"
  = Some (JStrs ["Great battery"]).
Proof. by vm_compute. Qed.

End ReportShape.

Section SynthesizerCascade.
Import SentimentService.

Lemma insights_gemini_total (e : env) (reviews : list review)
  (product_name : string) (log : list request) :
  ∃ report,
    generate_insights_gemini e reviews product_name log
    = (Ok report,
       log ++ [InsightsRequest product_name (Py.take_first 20 reviews)])
    ∧ (report = generate_insights_basic e reviews product_name
       ∨ ∃ s, json_loads e s = Some report).
Proof.
  unfold generate_insights_gemini, try_except, bind, post, lift, ret, loads.
  destruct (provider_text e _) as [t|]; [|by eauto].
  destruct (_ && _); [|by eauto].
  destruct (json_loads e _) as [d|] eqn:E; by eauto.
Qed.

(** On a batch of reviews whose fields have the types that the lexicon
    tier, the keyword tier and the scrapers give them (strengths and
    weaknesses absent or lists of strings), the synthesizer does not
    raise.  It sends one request, carrying the product name and the first
    twenty reviews, when the batch is not empty and an API key is
    configured, and none otherwise; its report is the fixed one for an
    empty batch, and else either the heuristic report or the object
    parsed from the provider's answer. *)
Theorem generate_actionable_insights_total (e : env)
  (reviews : list review) (product_name : string) (log : list request) :
  ∃ report,
    generate_actionable_insights e reviews product_name log
    = (Ok report,
       if bool_decide (reviews ≠ []) && has_api_key e
       then log ++ [InsightsRequest product_name (take 20 reviews)]
       else log)
    ∧ (report = (if bool_decide (reviews ≠ [])
                 then generate_insights_basic e reviews product_name
                 else not_enough_data)
       ∨ (reviews ≠ [] ∧ has_api_key e = true
          ∧ ∃ s, json_loads e s = Some report)).
Proof.
  unfold generate_actionable_insights.
  destruct reviews as [|r reviews]; [by eauto|].
  rewrite bool_decide_eq_true_2 by done. simpl andb.
  destruct (has_api_key e); [|by eauto].
  unfold try_except.
  destruct (insights_gemini_total e (r :: reviews) product_name log)
    as (report & -> & [->|Hs]).
  - eexists. split; [reflexivity|]. by left.
  - exists report. split; [reflexivity|]. right. by repeat split.
Qed.

End SynthesizerCascade.

(** ** Quotas of the two passes *)

Section Quotas.
Import ScraperService.

(** A record obtained by processing an item of a page of the source. *)
Definition from_source (e : env) (r : review_record) : Prop :=
  ∃ q items item,
    fetch_page e q = Some items ∧ item ∈ items
    ∧ process_review e item = Ok r.

Lemma len_app {A} (l k : list A) : len (l ++ k) = (len l + len k)%Z.
Proof. unfold len. rewrite length_app. lia. Qed.

Lemma add_bucket_items_spec (e : env) (per : Z) (reviews : list raw_review)
  (all : list review_record) (cnt : Z) :
  ∃ added,
    (add_bucket_items e per reviews all cnt).1.1 = all ++ added
    ∧ (add_bucket_items e per reviews all cnt).1.2 = (cnt + len added)%Z
    ∧ (cnt + len added ≤ Z.max cnt per)%Z
    ∧ Forall (λ r, ∃ item, item ∈ reviews ∧ process_review e item = Ok r)
        added.
Proof.
  revert all cnt. induction reviews as [|review rest IH]; intros all cnt.
  - exists []. simpl. rewrite app_nil_r. unfold len. simpl.
    repeat split; [lia|lia|constructor].
  - simpl. destruct (Z.leb_spec per cnt).
    + exists []. simpl. rewrite app_nil_r. unfold len. simpl.
      repeat split; [lia|lia|constructor].
    + destruct (process_review e review) as [p|x] eqn:Hp.
      * destruct (IH (all ++ [p]) (cnt + 1)%Z) as (added & E1 & E2 & Hb & Hs).
        exists (p :: added). rewrite E1, E2, <- app_assoc. simpl.
        change (len (p :: added)) with (Z.of_nat (S (length added))).
        unfold len in *. repeat split; [lia|lia|].
        constructor.
        -- exists review. split; [apply list_elem_of_here|done].
        -- eapply Forall_impl; [exact Hs|]. intros r (item & Hin & Hr).
           exists item. split; [by apply list_elem_of_further|done].
      * exists []. simpl. rewrite app_nil_r. unfold len. simpl.
        repeat split; [lia|lia|constructor].
Qed.

Lemma bucket_pages_spec (e : env) (asin : string) (star per : Z)
  (pages : list nat) (all : list review_record) (cnt : Z) :
  ∃ added,
    bucket_pages e asin star per pages all cnt = all ++ added
    ∧ (cnt + len added ≤ Z.max cnt per)%Z
    ∧ Forall (from_source e) added.
Proof.
  revert all cnt. induction pages as [|page rest IH]; intros all cnt.
  - exists []. simpl. rewrite app_nil_r. unfold len. simpl.
    repeat split; [lia|constructor].
  - simpl. destruct (Z.leb_spec per cnt).
    { exists []. rewrite app_nil_r. unfold len. simpl.
      repeat split; [lia|constructor]. }
    destruct (fetch_page e _) as [[|review reviews]|] eqn:Hf;
      try (exists []; rewrite app_nil_r; unfold len; simpl;
           repeat split; [lia|constructor]).
    destruct (add_bucket_items_spec e per (review :: reviews) all cnt)
      as (added & E1 & E2 & Hb & Hs).
    destruct (add_bucket_items e per (review :: reviews) all cnt)
      as [[all' cnt'] raised].
    simpl in E1, E2. subst all' cnt'.
    assert (Forall (from_source e) added) as Hsrc.
    { eapply Forall_impl; [exact Hs|]. intros r (item & Hin & Hr).
      by eexists _, _, item. }
    destruct raised.
    + exists added. by repeat split.
    + destruct (IH (all ++ added) (cnt + len added)%Z)
        as (added' & -> & Hb' & Hs').
      exists (added ++ added'). rewrite app_assoc, len_app.
      repeat split; [lia|by apply Forall_app].
Qed.

Lemma first_pass_spec (e : env) (asin : string) (per : Z)
  (stars : list Z) (all : list review_record) :
  ∃ added,
    foldl (λ all star, bucket_pages e asin star per pages_to_try all 0%Z)
      all stars = all ++ added
    ∧ (len added ≤ Z.of_nat (length stars) * Z.max 0 per)%Z
    ∧ Forall (from_source e) added.
Proof.
  revert all. induction stars as [|star stars IH]; intros all.
  - exists []. simpl. rewrite app_nil_r. unfold len. simpl.
    repeat split; [lia|constructor].
  - cbn [foldl].
    destruct (bucket_pages_spec e asin star per pages_to_try all 0)
      as (added & -> & Hb & Hs).
    destruct (IH (all ++ added)) as (added' & -> & Hb' & Hs').
    exists (added ++ added'). rewrite app_assoc, len_app.
    repeat split; [|by apply Forall_app].
    rewrite length_cons, Nat2Z.inj_succ. lia.
Qed.

Lemma quota_le (n : Z) : (5 * Z.max 0 (n / 5) ≤ Z.max 0 n)%Z.
Proof.
  pose proof (Z.mul_div_le n 5).
  destruct (Z.le_gt_cases 0 n).
  - pose proof (Z.div_pos n 5). lia.
  - pose proof (Z.div_lt_upper_bound n 5 0). lia.
Qed.

End Quotas.

(** ** The quota of each rating bucket *)

Section BucketQuota.
Import ScraperService.

(** A record obtained by processing an item of one of the pages of the
    bucket of the given star rating. *)
Definition from_bucket (e : env) (asin : string) (star : Z)
  (r : review_record) : Prop :=
  ∃ page items item,
    page ∈ pages_to_try
    ∧ fetch_page e {| q_asin := asin;
                      q_sort_by := "TOP_REVIEWS";
                      q_star_rating := Star star;
                      q_page := page |} = Some items
    ∧ item ∈ items
    ∧ process_review e item = Ok r.

Lemma bucket_pages_bucket (e : env) (asin : string) (star per : Z)
  (pages : list nat) (all : list review_record) (cnt : Z) :
  ∃ added,
    bucket_pages e asin star per pages all cnt = all ++ added
    ∧ (cnt + len added ≤ Z.max cnt per)%Z
    ∧ Forall
        (λ r, ∃ page items item,
           page ∈ pages
           ∧ fetch_page e {| q_asin := asin;
                             q_sort_by := "TOP_REVIEWS";
                             q_star_rating := Star star;
                             q_page := page |} = Some items
           ∧ item ∈ items
           ∧ process_review e item = Ok r)
        added.
Proof.
  revert all cnt. induction pages as [|page rest IH]; intros all cnt.
  - exists []. simpl. rewrite app_nil_r. unfold len. simpl.
    repeat split; [lia|constructor].
  - simpl. destruct (Z.leb_spec per cnt).
    { exists []. rewrite app_nil_r. unfold len. simpl.
      repeat split; [lia|constructor]. }
    destruct (fetch_page e _) as [[|review reviews]|] eqn:Hf;
      try (exists []; rewrite app_nil_r; unfold len; simpl;
           repeat split; [lia|constructor]).
    destruct (add_bucket_items_spec e per (review :: reviews) all cnt)
      as (added & E1 & E2 & Hb & Hs).
    destruct (add_bucket_items e per (review :: reviews) all cnt)
      as [[all' cnt'] raised].
    simpl in E1, E2. subst all' cnt'.
    assert (Forall
              (λ r, ∃ page' items item,
                 page' ∈ page :: rest
                 ∧ fetch_page e {| q_asin := asin;
                                   q_sort_by := "TOP_REVIEWS";
                                   q_star_rating := Star star;
                                   q_page := page' |} = Some items
                 ∧ item ∈ items
                 ∧ process_review e item = Ok r)
              added) as Hsrc.
    { eapply Forall_impl; [exact Hs|]. intros r (item & Hin & Hr).
      exists page, (review :: reviews), item.
      split; [apply list_elem_of_here|done]. }
    destruct raised.
    + exists added. by repeat split.
    + destruct (IH (all ++ added) (cnt + len added)%Z)
        as (added' & -> & Hb' & Hs').
      exists (added ++ added'). rewrite app_assoc, len_app.
      repeat split; [lia|]. apply Forall_app. split; [done|].
      eapply Forall_impl; [exact Hs'|].
      intros r (page' & items & item & Hin & ?).
      exists page', items, item. split; [by apply list_elem_of_further|done].
Qed.

Lemma first_pass_buckets (e : env) (asin : string) (per : Z)
  (stars : list Z) (all : list review_record) :
  ∃ buckets,
    foldl (λ all star, bucket_pages e asin star per pages_to_try all 0%Z)
      all stars = all ++ concat buckets
    ∧ Forall2
        (λ star bucket,
           (len bucket ≤ Z.max 0 per)%Z
           ∧ Forall (from_bucket e asin star) bucket)
        stars buckets.
Proof.
  revert all. induction stars as [|star stars IH]; intros all.
  - exists []. simpl. rewrite app_nil_r. split; [done|constructor].
  - cbn [foldl].
    destruct (bucket_pages_bucket e asin star per pages_to_try all 0)
      as (added & -> & Hb & Hs).
    destruct (IH (all ++ added)) as (buckets & -> & Hall).
    exists (added :: buckets). simpl. rewrite app_assoc.
    split; [done|]. constructor; [|done]. split; [lia|done].
Qed.

(** The first pass goes through the five rating buckets in the order 5,
    4, 3, 2, 1 and returns, one after the other, what it collected in
    each: at most [num_reviews // 5] reviews per bucket, each a processed
    item of a page requested for that rating.  So it never returns more
    than [num_reviews] reviews, and none when fewer than five are asked
    for. *)
Theorem first_pass_quota (e : env) (asin : string) (num_reviews : Z) :
  (∃ buckets,
     first_pass e asin num_reviews = concat buckets
     ∧ Forall2
         (λ star bucket,
            (len bucket ≤ Z.max 0 (num_reviews / 5))%Z
            ∧ Forall (from_bucket e asin star) bucket)
         [5; 4; 3; 2; 1]%Z buckets)
  ∧ (len (first_pass e asin num_reviews) ≤ Z.max 0 num_reviews)%Z
  ∧ ((num_reviews < 5)%Z → first_pass e asin num_reviews = []).
Proof.
  split.
  - unfold first_pass.
    destruct (first_pass_buckets e asin (num_reviews / len star_ratings)
                star_ratings []) as (buckets & E & Hall).
    exists buckets. by split.
  - unfold first_pass.
    destruct (first_pass_spec e asin (num_reviews / len star_ratings)
                star_ratings []) as (added & E & Hb & Hs).
    rewrite E. simpl app. change (len star_ratings) with 5%Z in *.
    change (Z.of_nat (length star_ratings)) with 5%Z in Hb.
    pose proof (quota_le num_reviews) as Hle.
    split; [lia|].
    intros Hlt.
    assert (num_reviews / 5 ≤ 0)%Z.
    { pose proof (Z.div_lt_upper_bound num_reviews 5 1). lia. }
    destruct added; [done|]. unfold len in Hb. simpl in Hb. lia.
Qed.

(** A source that offers three reviews on the first page of every rating
    bucket. *)
Definition env_three_per_bucket : env := {|
  RAPIDAPI_KEY := Some "key";
  product_details := λ _, None;
  fetch_page := λ q,
    match q_star_rating q, q_page q with
    | Star n, 1 =>
        Some [item (pretty n +:+ "a") "Fine";
              item (pretty n +:+ "b") "Fine";
              item (pretty n +:+ "c") "Fine"]
    | _, _ => Some []
    end;
  parse_review_date := λ _, None;
  now_iso := "2026-11-04T12:00:00";
  today := {| year := 2026; month := 11; day := 4 |};
  random := no_draws
|}.

(** Asked for ten reviews, the first pass takes two of the three that
    each bucket offers. *)
Example first_pass_takes_two_per_bucket :
  review_id <$> first_pass env_three_per_bucket "B000000000" 10
  = ["5a"; "5b"; "4a"; "4b"; "3a"; "3b"; "2a"; "2b"; "1a"; "1b"].
Proof. by vm_compute. Qed.

Lemma first_pass_quota_witness :
  ∃ buckets,
    first_pass env_three_per_bucket "B000000000" 10 = concat buckets
    ∧ Forall2
        (λ star bucket,
           (len bucket ≤ 2)%Z
           ∧ Forall (from_bucket env_three_per_bucket "B000000000" star)
               bucket)
        [5; 4; 3; 2; 1]%Z buckets
    ∧ length (first_pass env_three_per_bucket "B000000000" 10) = 10%nat.
Proof.
  destruct (first_pass_quota env_three_per_bucket "B000000000" 10)
    as [(buckets & E & Hall) _].
  exists buckets. split; [exact E|]. split; [exact Hall|].
  by vm_compute.
Defined.

End BucketQuota.

Section SecondPassQuota.
Import ScraperService.

Lemma add_new_items_spec (e : env) (num_reviews : Z)
  (reviews : list raw_review) (all : list review_record) :
  ∃ added,
    (add_new_items e num_reviews reviews all).1 = all ++ added
    ∧ ((len all < num_reviews)%Z → (len all + len added ≤ num_reviews)%Z)
    ∧ Forall (λ r, ∃ item, item ∈ reviews ∧ process_review e item = Ok r)
        added.
Proof.
  revert all. induction reviews as [|review rest IH]; intros all.
  - exists []. simpl. rewrite app_nil_r. unfold len. simpl.
    repeat split; [lia|constructor].
  - simpl. destruct (already_present _ all).
    + destruct (IH all) as (added & E & Hb & Hs).
      exists added. repeat split; [done|done|].
      eapply Forall_impl; [exact Hs|]. intros r (item & Hin & Hr).
      exists item. split; [by apply list_elem_of_further|done].
    + destruct (process_review e review) as [p|x] eqn:Hp.
      * assert (len (all ++ [p]) = len all + 1)%Z as Hlen
          by (rewrite len_app; reflexivity).
        destruct (Z.leb_spec num_reviews (len (all ++ [p]))).
        -- exists [p]. simpl. repeat split.
           ++ unfold len in *. simpl. lia.
           ++ constructor; [|constructor].
              exists review. split; [apply list_elem_of_here|done].
        -- destruct (IH (all ++ [p])) as (added & E & Hb & Hs).
           exists (p :: added). rewrite E, <- app_assoc. simpl.
           repeat split.
           ++ intros _. specialize (Hb ltac:(lia)).
              change (len (p :: added)) with (Z.of_nat (S (length added))).
              unfold len in *. lia.
           ++ constructor.
              ** exists review. split; [apply list_elem_of_here|done].
              ** eapply Forall_impl; [exact Hs|]. intros r (item & Hin & Hr).
                 exists item. split; [by apply list_elem_of_further|done].
      * exists []. simpl. rewrite app_nil_r. unfold len. simpl.
        repeat split; [lia|constructor].
Qed.

Lemma sort_pages_spec (e : env) (asin sort_by : string) (num_reviews : Z)
  (pages : list nat) (all : list review_record) :
  ∃ added,
    sort_pages e asin sort_by num_reviews pages all = all ++ added
    ∧ (len all + len added ≤ Z.max (len all) num_reviews)%Z
    ∧ Forall (from_source e) added.
Proof.
  revert all. induction pages as [|page rest IH]; intros all.
  - exists []. simpl. rewrite app_nil_r. unfold len. simpl.
    repeat split; [lia|constructor].
  - simpl. destruct (Z.leb_spec num_reviews (len all)).
    { exists []. rewrite app_nil_r. unfold len. simpl.
      repeat split; [lia|constructor]. }
    destruct (fetch_page e _) as [[|review reviews]|] eqn:Hf;
      try (exists []; rewrite app_nil_r; unfold len; simpl;
           repeat split; [lia|constructor]).
    destruct (add_new_items_spec e num_reviews (review :: reviews) all)
      as (added & E & Hb & Hs).
    destruct (add_new_items e num_reviews (review :: reviews) all)
      as [all' raised].
    simpl in E. subst all'. specialize (Hb ltac:(lia)).
    assert (Forall (from_source e) added) as Hsrc.
    { eapply Forall_impl; [exact Hs|]. intros r (item & Hin & Hr).
      by eexists _, _, item. }
    destruct raised.
    + exists added. repeat split; [lia|done].
    + destruct (IH (all ++ added)) as (added' & -> & Hb' & Hs').
      exists (added ++ added'). rewrite app_assoc.
      rewrite !len_app in *. repeat split; [lia|by apply Forall_app].
Qed.

Lemma sort_orders_spec (e : env) (asin : string) (num_reviews : Z)
  (options : list string) (all : list review_record) :
  ∃ added,
    sort_orders e asin num_reviews options all = all ++ added
    ∧ (len all + len added ≤ Z.max (len all) num_reviews)%Z
    ∧ Forall (from_source e) added.
Proof.
  revert all. induction options as [|sort_by rest IH]; intros all;
    cbn [sort_orders].
  - exists []. rewrite app_nil_r. unfold len. simpl.
    repeat split; [lia|constructor].
  - destruct (Z.leb_spec num_reviews (len all)).
    { exists []. rewrite app_nil_r. unfold len. simpl.
      repeat split; [lia|constructor]. }
    destruct (sort_pages_spec e asin sort_by num_reviews pages_to_try all)
      as (added & -> & Hb & Hs).
    destruct (IH (all ++ added)) as (added' & -> & Hb' & Hs').
    exists (added ++ added'). rewrite app_assoc.
    rewrite !len_app in *. repeat split; [lia|by apply Forall_app].
Qed.

Lemma second_pass_spec (e : env) (asin : string) (num_reviews : Z)
  (all : list review_record) :
  ∃ added,
    second_pass e asin num_reviews all = all ++ added
    ∧ (len all + len added ≤ Z.max (len all) num_reviews)%Z
    ∧ Forall (from_source e) added.
Proof.
  unfold second_pass. destruct (Z.ltb_spec (len all) num_reviews).
  - apply sort_orders_spec.
  - exists []. rewrite app_nil_r. unfold len. simpl.
    repeat split; [lia|constructor].
Qed.

(** The second pass keeps what the first pass accumulated and stops at
    the target: it never brings the list beyond [num_reviews], it leaves a
    list that has already reached the target as it is, and every review it
    adds is a processed item of a page of the source. *)
Theorem second_pass_quota (e : env) (asin : string) (num_reviews : Z)
  (all_reviews : list review_record) :
  (∃ added,
     second_pass e asin num_reviews all_reviews = all_reviews ++ added
     ∧ (len (all_reviews ++ added) ≤ Z.max (len all_reviews) num_reviews)%Z
     ∧ Forall (from_source e) added)
  ∧ ((num_reviews ≤ len all_reviews)%Z →
     second_pass e asin num_reviews all_reviews = all_reviews).
Proof.
  split.
  - destruct (second_pass_spec e asin num_reviews all_reviews)
      as (added & E & Hb & Hs).
    exists added. rewrite len_app. by repeat split.
  - intros H. unfold second_pass.
    destruct (Z.ltb_spec (len all_reviews) num_reviews); [lia|done].
Qed.

Lemma second_pass_quota_witness :
  second_pass env_two_reviews "B000000000" 1
    (first_pass env_two_reviews "B000000000" 5)
  = first_pass env_two_reviews "B000000000" 5.
Proof.
  apply (second_pass_quota env_two_reviews "B000000000" 1). by vm_compute.
Defined.

End SecondPassQuota.

(** ** The mock generator and the result of a run *)

Section MockRecords.
Import ScraperService.

(** What the [i]-th record of the mock generator looks like. *)
Definition mock_at (e : env) (asin : string) (i : nat) (r : review_record)
  : Prop :=
  review_id r = "mock_" +:+ asin +:+ "_" +:+ pretty i
  ∧ reviewer_name r = "MockUser" +:+ pretty i
  ∧ (∃ stars : Z,
       (1 ≤ stars ≤ 5)%Z ∧ rating r = inject_Z stars
       ∧ text r ∈ (if (4 <=? stars)%Z then positive_texts
                   else if (stars =? 3)%Z then neutral_texts
                   else negative_texts))
  ∧ (0 ≤ helpful_votes r ≤ 50)%Z
  ∧ ∃ d : Z,
      (1 ≤ d < day (today e))%Z
      ∧ review_date r
        = isoformat {| year := year (today e);
                       month := month (today e);
                       day := d |}.

Lemma mock_review_inv (e : env) (asin : string) (i : nat)
  (r : review_record) :
  mock_review e asin i = Ok r →
  mock_at e asin i r
  ∧ (randint 1 365 (pick_days_ago (random e i)) < day (today e))%Z.
Proof.
  unfold mock_review, replace_day, result_bind.
  pose proof (randint_range 1 365 (pick_days_ago (random e i))) as Hr.
  destruct (_ && _) eqn:E; [|discriminate].
  intros [= <-]. split; [|lia].
  split; [done|]. split; [done|]. simpl. split; [|split].
  - set (stars := choice 1%Z [1; 2; 3; 4; 5]%Z (pick_rating (random e i))).
    assert (stars ∈ [1; 2; 3; 4; 5]%Z) as Hin by (by apply choice_elem).
    exists stars. split.
    { repeat (apply elem_of_cons in Hin as [->|Hin]; [lia|]).
      by apply elem_of_nil in Hin. }
    split; [done|].
    destruct (4 <=? stars)%Z; [|destruct (stars =? 3)%Z];
      by apply choice_elem.
  - apply randint_range. lia.
  - eexists. split; [|reflexivity]. lia.
Qed.

Lemma mock_review_raise_inv (e : env) (asin : string) (i : nat) (x : exn) :
  mock_review e asin i = Raise x →
  x = ValueError "day is out of range for month".
Proof.
  unfold mock_review, replace_day, result_bind.
  destruct (_ && _); [discriminate|]. by intros [= <-].
Qed.

Lemma mock_loop_inv (e : env) (asin : string) (indices : list nat)
  (reviews l : list review_record) :
  mock_loop e asin indices reviews = Ok l →
  ∃ added, l = reviews ++ added
           ∧ Forall2 (mock_at e asin) indices added
           ∧ Forall (λ i, (randint 1 365 (pick_days_ago (random e i))
                           < day (today e))%Z) indices.
Proof.
  revert reviews. induction indices as [|i indices IH]; intros reviews; simpl.
  - intros [= <-]. exists []. by rewrite app_nil_r.
  - destruct (mock_review e asin i) as [r|x] eqn:Hr; [|discriminate].
    intros (added & -> & Hall & Hd)%IH.
    apply mock_review_inv in Hr as [Hr Hi].
    exists (r :: added). rewrite <- app_assoc.
    split; [done|]. split; by constructor.
Qed.

Lemma mock_loop_raise_inv (e : env) (asin : string) (indices : list nat)
  (reviews : list review_record) (x : exn) :
  mock_loop e asin indices reviews = Raise x →
  x = ValueError "day is out of range for month".
Proof.
  revert reviews. induction indices as [|i indices IH]; intros reviews; simpl.
  - discriminate.
  - destruct (mock_review e asin i) as [r|y] eqn:Hr.
    + apply IH.
    + intros [= <-]. by eapply mock_review_raise_inv.
Qed.

Lemma mock_id_inj (asin : string) :
  Inj (=) (=) (λ i : nat, "mock_" +:+ asin +:+ "_" +:+ pretty i).
Proof.
  intros i j H.
  apply (inj (String.app "mock_")), (inj (String.app asin)),
    (inj (String.app "_")) in H.
  by apply (inj pretty) in H.
Qed.

Lemma Forall2_mock_ids (e : env) (asin : string) (indices : list nat)
  (l : list review_record) :
  Forall2 (mock_at e asin) indices l →
  review_id <$> l
  = (λ i : nat, "mock_" +:+ asin +:+ "_" +:+ pretty i) <$> indices.
Proof.
  induction 1 as [|i r indices l Hr _ IH]; [done|].
  rewrite !fmap_cons, IH. by destruct Hr as [-> _].
Qed.

(** When the mock generator returns, it returns as many records as asked
    for, with pairwise distinct ids of the form mock, asin, index; each
    record has a whole rating from 1 to 5, a text of the template group of
    its rating (positive from 4, neutral at 3, negative below), between 0
    and 50 helpful votes, and a date in the current month, before today. *)
Theorem mock_reviews_shape (e : env) (asin : string) (num_reviews : Z)
  (l : list review_record) :
  mock_amazon_reviews e asin num_reviews = Ok l →
  length l = Z.to_nat num_reviews
  ∧ NoDup (review_id <$> l)
  ∧ Forall2 (mock_at e asin) (seq 0 (Z.to_nat num_reviews)) l.
Proof.
  unfold mock_amazon_reviews, range.
  intros (added & -> & Hall & _)%mock_loop_inv.
  change ([] ++ added) with added.
  split; [|split; [|done]].
  - apply Forall2_length in Hall. by rewrite <- Hall, length_seq.
  - rewrite (Forall2_mock_ids _ _ _ _ Hall).
    pose proof (mock_id_inj asin) as Hinj.
    apply (NoDup_fmap_2 _). apply NoDup_seq.
Qed.

Definition env_thirtieth : env :=
  env_empty_source {| year := 2026; month := 11; day := 30 |}
    (λ i, {| pick_rating := i; pick_text := i; pick_days_ago := i;
             pick_verified := i; pick_votes := i |}).

Lemma mock_reviews_shape_witness :
  ∃ l, mock_amazon_reviews env_thirtieth "B000000000" 3 = Ok l
       ∧ NoDup (review_id <$> l).
Proof.
  eexists. split; [reflexivity|].
  eapply (mock_reviews_shape env_thirtieth "B000000000" 3). reflexivity.
Defined.

(** With today a valid date, the mock generator returns exactly when every
    number of days it draws is below the day of the month; otherwise it
    raises the [ValueError] of the date replacement. *)
Theorem mock_reviews_return_iff (e : env) (asin : string)
  (num_reviews : Z) :
  (day (today e) ≤ days_in_month (year (today e)) (month (today e)))%Z →
  ((∃ l, mock_amazon_reviews e asin num_reviews = Ok l)
   ↔ ∀ i, (i < Z.to_nat num_reviews)%nat →
          (randint 1 365 (pick_days_ago (random e i)) < day (today e))%Z)
  ∧ ((¬ ∃ l, mock_amazon_reviews e asin num_reviews = Ok l) →
     mock_amazon_reviews e asin num_reviews
     = Raise (ValueError "day is out of range for month")).
Proof.
  intros Hday. split; [split|].
  - intros [l Hl]. unfold mock_amazon_reviews, range in Hl.
    apply mock_loop_inv in Hl as (_ & _ & _ & Hd).
    intros i Hi. eapply (proj1 (Forall_forall _ _) Hd).
    apply list_elem_of_In, in_seq. lia.
  - intros Hd. unfold mock_amazon_reviews, range.
    destruct (mock_loop_ok e asin (seq 0 (Z.to_nat num_reviews)) [] Hday)
      as (l & E & _); [|by eauto].
    apply Forall_forall. intros i Hi%list_elem_of_In%in_seq.
    apply Hd. lia.
  - intros Hn.
    destruct (mock_amazon_reviews e asin num_reviews) as [l|x] eqn:E.
    + destruct Hn. by exists l.
    + f_equal. by eapply mock_loop_raise_inv.
Qed.

Lemma mock_reviews_return_iff_witness :
  ∃ l, mock_amazon_reviews env_thirtieth "B000000000" 3 = Ok l.
Proof.
  apply (mock_reviews_return_iff env_thirtieth "B000000000" 3).
  - by vm_compute.
  - intros i Hi. destruct i as [|[|[|i]]]; [by vm_compute..|].
    simpl in Hi. lia.
Defined.

End MockRecords.

Section RunResult.
Import ScraperService.

(** What a run of [scrape_amazon_reviews_api] ends with, with or without
    API key: if it returns, the list has exactly [num_reviews] reviews
    (none for a negative target), made of processed items of the source
    followed by mock records; and the only exception that escapes is the
    [ValueError] of the mock generator's date replacement. *)
Theorem scrape_result (e : env) (asin : string) (num_reviews : Z)
  (rapidapi_key : option string) :
  match scrape_amazon_reviews_api e asin num_reviews rapidapi_key with
  | Ok (_, reviews) =>
      len reviews = Z.max 0 num_reviews
      ∧ ∃ real mocks indices,
          reviews = real ++ mocks
          ∧ Forall (from_source e) real
          ∧ Forall2 (mock_at e asin) indices mocks
  | Raise x => x = ValueError "day is out of range for month"
  end.
Proof.
  unfold scrape_amazon_reviews_api.
  destruct (negb (truthy _)).
  - unfold mock_amazon_reviews, range.
    destruct (mock_loop e asin _ []) as [l|x] eqn:E; simpl.
    + apply mock_loop_inv in E as (added & -> & Hall & _). simpl.
      split.
      * apply Forall2_length in Hall. unfold len.
        rewrite <- Hall, length_seq. lia.
      * exists [], added, (seq 0 (Z.to_nat num_reviews)). by repeat split.
    + by eapply mock_loop_raise_inv.
  - assert (len (first_pass e asin num_reviews) ≤ Z.max 0 num_reviews
            ∧ Forall (from_source e) (first_pass e asin num_reviews))%Z
      as [H1 Hs1].
    { unfold first_pass.
      destruct (first_pass_spec e asin (num_reviews / len star_ratings)
                  star_ratings []) as (added & -> & Hb & Hs).
      split; [|done]. pose proof (quota_le num_reviews).
      change (len star_ratings) with 5%Z in *.
      change (Z.of_nat (length star_ratings)) with 5%Z in Hb.
      change ([] ++ added) with added. lia. }
    set (all1 := first_pass e asin num_reviews) in *.
    destruct (second_pass_spec e asin num_reviews all1)
      as (added & E2 & H2 & Hs2).
    rewrite E2. rewrite <- len_app in H2.
    set (all2 := all1 ++ added) in *.
    assert (Forall (from_source e) all2) as Hs by (by apply Forall_app).
    destruct (Z.ltb_spec (len all2) num_reviews).
    + unfold mock_amazon_reviews, range.
      destruct (mock_loop e asin _ []) as [l|x] eqn:E; simpl.
      * apply mock_loop_inv in E as (mocks & -> & Hall & _). simpl.
        split; [|by eexists all2, mocks, _].
        apply Forall2_length in Hall. rewrite len_app. unfold len in *.
        rewrite <- Hall, length_seq. lia.
      * by eapply mock_loop_raise_inv.
    + split; [unfold len in *; lia|]. exists all2, [], [].
      rewrite app_nil_r. by repeat split.
Qed.

End RunResult.

(** ** Invariants of the schema resolution *)

Section SchemaInvariants.
Import App.

Lemma has_column_get (df : list column) (name : string) (c : column) :
  get_column df name = Some c → has_column df name = true.
Proof.
  intros H. destruct (has_column df name) eqn:E; [done|].
  apply has_column_false in E. congruence.
Qed.

Lemma has_column_elem (df : list column) (c : column) :
  c ∈ df → has_column df (col_name c) = true.
Proof.
  intros Hin. unfold has_column. apply existsb_exists.
  exists c. split; [by apply list_elem_of_In | apply String.eqb_refl].
Qed.

Lemma find_text_column_exists (df : list column) (name : string) :
  find_text_column df = Some name → has_column df name = true.
Proof.
  unfold find_text_column.
  destruct (has_column df "text") eqn:?; [by intros [= <-]|].
  destruct (has_column df "review_text") eqn:?; [by intros [= <-]|].
  destruct (has_column df "comment") eqn:?; [by intros [= <-]|].
  destruct (has_column df "feedback") eqn:?; [by intros [= <-]|].
  destruct (List.find _ df) as [c|] eqn:Hf; simpl; [|discriminate].
  intros [= <-]. apply find_some in Hf as [Hin%list_elem_of_In _].
  by apply has_column_elem.
Qed.

Lemma find_rating_column_exists (df : list column) (name : string) :
  find_rating_column df = Some name →
  has_column df name = true ∧ name ∈ ["rating"; "stars"; "score"].
Proof.
  unfold find_rating_column.
  destruct (has_column df "rating") eqn:?;
    [intros [= <-]; split; [done|]; by repeat constructor|].
  destruct (has_column df "stars") eqn:?;
    [intros [= <-]; split; [done|]; by repeat constructor|].
  destruct (has_column df "score") eqn:?;
    [intros [= <-]; split; [done|]; by repeat constructor|].
  discriminate.
Qed.

(** Whenever the resolution succeeds: the frame it works on keeps every
    column of the table in order, adding at the end at most the alias text
    of review_text, and only in the Amazon format; the text column it names
    is a column of that frame with a non-empty name; and the rating column,
    when there is one, is a column of the frame named rating, stars or
    score. *)
Theorem resolved_schema_invariants (df : list column) (s : schema) :
  resolve_columns df = inr s →
  (frame s = df
   ∨ ∃ c, get_column df "review_text" = Some c
          ∧ has_column df "text" = false
          ∧ file_format s = "amazon"
          ∧ frame s = df ++ [{| col_name := "text";
                                col_is_object := col_is_object c;
                                col_cells := col_cells c |}])
  ∧ has_column (frame s) (text_column s) = true
  ∧ text_column s ≠ ""
  ∧ (file_format s = "amazon"
     ↔ has_column df "product_name" = true
       ∧ has_column df "review_text" = true
       ∧ has_column df "rating" = true)
  ∧ match rating_column s with
    | Some name => has_column (frame s) name = true
                   ∧ name ∈ ["rating"; "stars"; "score"]
    | None => True
    end.
Proof.
  unfold resolve_columns.
  destruct (detect_format df) as [fmt df'] eqn:Hd.
  destruct (find_text_column df') as [name|] eqn:Hf; [|discriminate].
  destruct (String.eqb_spec name "") as [|Hne]; [discriminate|].
  intros [= <-]. simpl.
  assert (has_column df' name = true) as Hname
    by (by apply find_text_column_exists).
  assert (match find_rating_column df' with
          | Some r => has_column df' r = true
                      ∧ r ∈ ["rating"; "stars"; "score"]
          | None => True
          end) as Hr.
  { destruct (find_rating_column df') eqn:E; [|done].
    by apply find_rating_column_exists. }
  unfold detect_format in Hd. simpl in Hd.
  destruct (has_column df "product_name") eqn:Hp; simpl in Hd;
    [|injection Hd as <- <-; repeat split; try done;
      [by left | by intros [? _]]].
  destruct (has_column df "review_text") eqn:Hrt; simpl in Hd;
    [|injection Hd as <- <-; repeat split; try done;
      [by left | by intros [_ [? _]]]].
  destruct (has_column df "rating") eqn:Hra; simpl in Hd;
    [|injection Hd as <- <-; repeat split; try done;
      [by left | by intros [_ [_ ?]]]].
  destruct (has_column df "text") eqn:Ht; simpl in Hd.
  - injection Hd as <- <-. repeat split; try done. by left.
  - destruct (get_column df "review_text") as [c|] eqn:Hc.
    + injection Hd as <- <-. repeat split; try done.
      right. by exists c.
    + injection Hd as <- <-. repeat split; try done. by left.
Qed.

Lemma resolved_schema_invariants_witness :
  ∃ s, resolve_columns amazon_table = inr s
       ∧ has_column (frame s) (text_column s) = true.
Proof.
  eexists. split; [reflexivity|].
  exact (proj1 (proj2 (resolved_schema_invariants amazon_table _ eq_refl))).
Defined.

End SchemaInvariants.

(** ** Product information *)

Section ProductInfo.
Import ScraperService.

(** The details answer can be used: its status is success, and its data,
    the pricing of the data and the reviews of the data are objects, each
    of them where it is present. *)
Definition details_usable (product_data data pricing reviews : dict)
  : Prop :=
  product_data !! "status" = Some (JStr "success")
  ∧ dict_get_default product_data "data" (JObj ∅) = JObj data
  ∧ dict_get_default data "pricing" (JObj ∅) = JObj pricing
  ∧ dict_get_default data "reviews" (JObj ∅) = JObj reviews.

(** The record read from a usable answer. *)
Definition details_record (asin : string) (data pricing reviews : dict)
  : dict :=
  {[ "asin" := JStr asin;
     "name" := dict_get_default data "title" (JStr "Unknown Product");
     "brand" := dict_get_default data "brand" (JStr "Unknown Brand");
     "price" := dict_get_default pricing "current_price" (JNum 0);
     "rating" := dict_get_default reviews "rating" (JNum 0);
     "review_count" := dict_get_default reviews "count" (JNum 0);
     "url" := JStr ("https://www.amazon.com/dp/" +:+ asin) ]}.

Lemma product_info_of_cases (asin : string) (product_data : dict) :
  (∃ data pricing reviews,
     dict_get_default product_data "data" (JObj ∅) = JObj data
     ∧ dict_get_default data "pricing" (JObj ∅) = JObj pricing
     ∧ dict_get_default data "reviews" (JObj ∅) = JObj reviews
     ∧ product_info_of asin product_data
       = Ok (details_record asin data pricing reviews))
  ∨ ((∀ data pricing reviews,
        ¬ (dict_get_default product_data "data" (JObj ∅) = JObj data
           ∧ dict_get_default data "pricing" (JObj ∅) = JObj pricing
           ∧ dict_get_default data "reviews" (JObj ∅) = JObj reviews))
     ∧ product_info_of asin product_data = Raise AttributeError).
Proof.
  unfold product_info_of, result_bind, json_get.
  destruct (dict_get_default product_data "data" (JObj ∅))
    as [| | | | |data] eqn:Hd;
    try (right; split; [by intros ? ? ? [? _]|done]).
  destruct (dict_get_default data "pricing" (JObj ∅))
    as [| | | | |pricing] eqn:Hp;
    try (right; split; [|done]; intros ? ? ? (E & Hp' & _);
         injection E as <-; congruence).
  destruct (dict_get_default data "reviews" (JObj ∅))
    as [| | | | |reviews] eqn:Hr;
    try (right; split; [|done]; intros ? ? ? (E & _ & Hr');
         injection E as <-; congruence).
  left. by exists data, pricing, reviews.
Qed.

Lemma fetch_product_info_spec (e : env) (asin : string) :
  (∃ product_data data pricing reviews,
     product_details e asin = Some product_data
     ∧ details_usable product_data data pricing reviews
     ∧ fetch_product_info e asin = details_record asin data pricing reviews)
  ∨ ((∀ product_data data pricing reviews,
        product_details e asin = Some product_data →
        ¬ details_usable product_data data pricing reviews)
     ∧ fetch_product_info e asin = default_product_info asin).
Proof.
  unfold fetch_product_info, details_usable.
  destruct (product_details e asin) as [pd|] eqn:Hpd;
    [|right; split; [by intros ? ? ? ? ?|done]].
  destruct (pd !! "status") as [[| | |st| |]|] eqn:Hst;
    try (right; split; [|done]; intros ? ? ? ? [= <-] [? _]; congruence).
  destruct (String.eqb_spec st "success") as [->|Hne].
  - destruct (product_info_of_cases asin pd)
      as [(data & pricing & reviews & Hd & Hp & Hr & ->)|[Hno ->]].
    + left. by exists pd, data, pricing, reviews.
    + right. split; [|done]. intros ? data pricing reviews [= <-] (_ & H).
      by apply (Hno data pricing reviews).
  - right. split.
    + intros ? ? ? ? [= <-] [? _]. congruence.
    + repeat (destruct st as [|[[] [] [] [] [] [] [] []] st]; try done).
Qed.

(** When a run returns, its product information is one of three records.
    Without an API key it is the mock record.  With an API key it is the
    record read from the details answer exactly when that answer can be
    used; in every other case (the request fails, the status is not
    success, or the data, its pricing or its reviews are present without
    being objects) it is the default record, which holds the asin and the
    name Unknown Product and has no url.  The other two records have the
    address of the product page as their url; all three hold the asin and
    a name. *)
Theorem scrape_product_info (e : env) (asin : string) (num_reviews : Z)
  (rapidapi_key : option string) (product_info : dict)
  (reviews : list review_record) :
  scrape_amazon_reviews_api e asin num_reviews rapidapi_key
  = Ok (product_info, reviews) →
  let api_key := if truthy rapidapi_key then rapidapi_key
                 else RAPIDAPI_KEY e in
  product_info !! "asin" = Some (JStr asin)
  ∧ is_Some (product_info !! "name")
  ∧ ((truthy api_key = false
      ∧ product_info = mock_amazon_product_info asin
      ∧ product_info !! "url"
        = Some (JStr ("https://www.amazon.com/dp/" +:+ asin)))
     ∨ (truthy api_key = true
        ∧ ∃ product_data data pricing details_reviews,
            product_details e asin = Some product_data
            ∧ details_usable product_data data pricing details_reviews
            ∧ product_info
              = details_record asin data pricing details_reviews
            ∧ product_info !! "url"
              = Some (JStr ("https://www.amazon.com/dp/" +:+ asin)))
     ∨ (truthy api_key = true
        ∧ (∀ product_data data pricing details_reviews,
             product_details e asin = Some product_data →
             ¬ details_usable product_data data pricing details_reviews)
        ∧ product_info = default_product_info asin
        ∧ product_info !! "name" = Some (JStr "Unknown Product")
        ∧ product_info !! "url" = None)).
Proof.
  intros H. cbv zeta. unfold scrape_amazon_reviews_api in H.
  destruct (truthy (if truthy rapidapi_key then rapidapi_key
                    else RAPIDAPI_KEY e)) eqn:Hkey; simpl in H.
  - assert (product_info = fetch_product_info e asin) as ->.
    { destruct (_ <? _)%Z.
      - unfold result_bind in H.
        destruct (mock_amazon_reviews e asin _); [|discriminate].
        by injection H as <- _.
      - by injection H as <- _. }
    destruct (fetch_product_info_spec e asin)
      as [(pd & data & pricing & rv & Hpd & Hus & ->)|[Hno ->]].
    + split; [done|]. split; [by eauto|]. right. left.
      split; [done|]. by exists pd, data, pricing, rv.
    + split; [done|]. split; [by eauto|]. right. right. by repeat split.
  - unfold result_bind in H.
    destruct (mock_amazon_reviews e asin _); [|discriminate].
    injection H as <- _.
    split; [done|]. split; [by eauto|]. left. by repeat split.
Qed.

(** A source whose details answer has the status success and a null
    data. *)
Definition env_null_data : env := {|
  RAPIDAPI_KEY := Some "key";
  product_details := λ _,
    Some {[ "status" := JStr "success"; "data" := JNull ]};
  fetch_page := λ _, Some [];
  parse_review_date := λ _, None;
  now_iso := "2026-11-04T10:00:00";
  today := {| year := 2026; month := 11; day := 4 |};
  random := λ _, {| pick_rating := 0; pick_text := 0; pick_days_ago := 0;
                    pick_verified := 0; pick_votes := 0 |}
|}.

Lemma scrape_product_info_witness :
  ∃ product_info reviews,
    scrape_amazon_reviews_api env_null_data "B08N5WRWNW" 2 None
    = Ok (product_info, reviews)
    ∧ product_info = default_product_info "B08N5WRWNW"
    ∧ product_info !! "url" = None.
Proof.
  eexists _, _. split; [reflexivity|].
  destruct (scrape_product_info env_null_data "B08N5WRWNW" 2 None
              _ _ eq_refl) as (_ & _ & [H|[H|H]]).
  - destruct H as [H _]. discriminate H.
  - destruct H as (_ & pd & data & pricing & rv & Hpd & (_ & Hd & _) & _).
    injection Hpd as <-. discriminate Hd.
  - destruct H as (_ & _ & H1 & _ & H2). split; [exact H1|exact H2].
Defined.

End ProductInfo.

(** ** The upload filter *)

Section UploadFilter.
Import App.

Lemma contains_char (c : ascii) (s : string) :
  Py.contains (String c "") s = has_char c s.
Proof.
  induction s as [|a s IH]; [done|].
  rewrite contains_cons, IH. simpl.
  destruct (ascii_dec c a) as [->|Hne].
  - rewrite Ascii.eqb_refl. by destruct s.
  - destruct (Ascii.eqb_spec a c) as [->|_]; [done|]. done.
Qed.

Lemma rsplit1_cons (sep c : ascii) (s : string) :
  Py.rsplit1 sep (String c s)
  = match Py.rsplit1 sep s with
    | [h; t] => [String c h; t]
    | _ => if Ascii.eqb c sep then [""; s] else [String c s]
    end.
Proof. reflexivity. Qed.

Lemma rsplit1_no_sep (sep : ascii) (s : string) :
  has_char sep s = false → Py.rsplit1 sep s = [s].
Proof.
  induction s as [|c s IH]; [done|].
  simpl has_char. intros [Hc Hs]%orb_false_elim.
  by rewrite rsplit1_cons, IH, Hc.
Qed.

Lemma rsplit1_last (sep : ascii) (stem ext : string) :
  has_char sep ext = false →
  Py.rsplit1 sep (stem +:+ String sep ext) = [stem; ext].
Proof.
  intros Hext. induction stem as [|c stem IH].
  - rewrite app_empty, rsplit1_cons, rsplit1_no_sep by done.
    by rewrite Ascii.eqb_refl.
  - by rewrite app_cons, rsplit1_cons, IH.
Qed.

Lemma last_sep (sep : ascii) (s : string) :
  has_char sep s = true →
  ∃ stem ext, s = stem +:+ String sep ext ∧ has_char sep ext = false.
Proof.
  induction s as [|c s IH]; [done|].
  simpl has_char. destruct (has_char sep s) eqn:Hs.
  - intros _. destruct IH as (stem & ext & -> & Hext); [done|].
    by exists (String c stem), ext.
  - rewrite orb_false_r. intros ->%Ascii.eqb_eq. by exists "", s.
Qed.

Lemma allowed_extension (ext : string) :
  ext ∈ ALLOWED_EXTENSIONS ↔ ext ∈ ["csv"; "xlsx"; "xls"].
Proof.
  unfold ALLOWED_EXTENSIONS.
  rewrite !elem_of_union, !elem_of_singleton, !elem_of_cons, elem_of_nil.
  tauto.
Qed.

(** A file name is accepted exactly when it ends with a dot followed by
    an extension without a dot which, in lower case, is csv, xlsx or xls:
    only what follows the last dot counts, and its case does not. *)
Theorem allowed_file_spec (filename : string) :
  allowed_file filename = true
  ↔ ∃ stem ext,
      filename = stem +:+ "." +:+ ext
      ∧ has_char "." ext = false
      ∧ Py.lower ext ∈ ["csv"; "xlsx"; "xls"].
Proof.
  unfold allowed_file. rewrite contains_char, andb_true_iff. split.
  - intros [Hdot Hext].
    destruct (last_sep _ _ Hdot) as (stem & ext & -> & Hno).
    rewrite rsplit1_last in Hext by done. simpl in Hext.
    apply bool_decide_eq_true in Hext.
    exists stem, ext. repeat split; [done|]. by apply allowed_extension.
  - intros (stem & ext & -> & Hno & Hext).
    change ("." +:+ ext) with (String "." ext).
    split.
    + rewrite has_char_app. simpl. by rewrite orb_true_r.
    + rewrite rsplit1_last by done. simpl.
      apply bool_decide_eq_true. by apply allowed_extension.
Qed.

(** A name without a dot is refused, and so is a name whose last
    extension is not a table format although an earlier one is. *)
Example allowed_file_examples :
  allowed_file "reviews.CSV" = true
  ∧ allowed_file "reviews" = false
  ∧ allowed_file "reviews.csv.exe" = false
  ∧ allowed_file ".xls" = true.
Proof. by vm_compute. Qed.

End UploadFilter.

(** ** The ASIN of a product address *)

Section Asin.
Import ScraperService.

(** Ten characters, each a capital letter or a digit. *)
Definition asin_shaped (g : string) : Prop :=
  String.length g = 10%nat
  ∧ Forall (λ c, is_asin_char c = true) (list_ascii_of_string g).

Lemma match_class_spec (n : nat) (s g : string) :
  match_class n s = Some g
  ↔ String.length g = n
    ∧ Forall (λ c, is_asin_char c = true) (list_ascii_of_string g)
    ∧ ∃ post, s = g +:+ post.
Proof.
  revert s g. induction n as [|n IH]; intros s g; simpl.
  - split.
    + intros [= <-]. repeat split; [constructor|by exists s].
    + intros (Hl & _ & _). by destruct g.
  - destruct s as [|c s].
    + split; [done|]. intros (Hl & _ & post & H). by destruct g.
    + destruct (is_asin_char c) eqn:Hc.
      * destruct (match_class n s) as [g'|] eqn:Hm; simpl.
        -- apply IH in Hm as (Hl & Hall & post & ->). split.
           ++ intros [= <-]. simpl. repeat split; [by rewrite Hl|by constructor|].
              by exists post.
           ++ intros (Hl' & Hall' & post' & H).
              destruct g as [|c' g]; [done|]. rewrite app_cons in H.
              injection H as <- H. simpl in Hl', Hall'.
              apply Forall_cons in Hall' as [_ Hall'].
              assert (match_class n (g' +:+ post) = Some g) as Hg.
              { apply IH. repeat split; [lia|done|]. by exists post'. }
              assert (match_class n (g' +:+ post) = Some g') as Hg'.
              { apply IH. repeat split; [done|done|]. by exists post. }
              congruence.
        -- split; [done|]. intros (Hl' & Hall' & post' & H).
           destruct g as [|c' g]; [done|]. rewrite app_cons in H.
           injection H as <- H. simpl in Hl', Hall'.
           apply Forall_cons in Hall' as [_ Hall'].
           assert (match_class n s = Some g) as Hg; [|congruence].
           apply IH. repeat split; [lia|done|]. by exists post'.
      * split; [done|]. intros (Hl' & Hall' & post' & H).
        destruct g as [|c' g]; [done|]. rewrite app_cons in H.
        injection H as <- H. simpl in Hall'.
        apply Forall_cons in Hall' as [Hc' _]. congruence.
Qed.

Lemma match_at_spec (marker s g : string) :
  match_at marker s = Some g
  ↔ asin_shaped g ∧ ∃ post, s = marker +:+ g +:+ post.
Proof.
  unfold asin_shaped. revert s. induction marker as [|a marker IH]; intros s.
  - change (match_at "" s) with (match_class 10 s).
    rewrite match_class_spec. setoid_rewrite app_empty. tauto.
  - destruct s as [|b s]; simpl match_at.
    + split; [done|]. intros (_ & post & H). by rewrite app_cons in H.
    + setoid_rewrite app_cons.
      destruct (Ascii.eqb_spec a b) as [->|Hne].
      * rewrite IH. split; intros (Hg & post & H); (split; [done|]);
          exists post; congruence.
      * split; [done|]. intros (_ & post & H). congruence.
Qed.

Lemma re_search_cons (marker : string) (c : ascii) (s : string) :
  re_search marker (String c s)
  = match match_at marker (String c s) with
    | Some g => Some g
    | None => re_search marker s
    end.
Proof. reflexivity. Qed.

Lemma re_search_sound (marker s g : string) :
  re_search marker s = Some g → asin_shaped g ∧ occurs (marker +:+ g) s.
Proof.
  induction s as [|c s IH].
  - simpl. destruct (match_at marker "") as [g'|] eqn:Hm; [|done].
    intros [= ->]. apply match_at_spec in Hm as (Hg & post & H).
    split; [done|]. exists "", post. by rewrite app_empty, str_app_assoc.
  - rewrite re_search_cons.
    destruct (match_at marker (String c s)) as [g'|] eqn:Hm.
    + intros [= ->]. apply match_at_spec in Hm as (Hg & post & H).
      split; [done|]. exists "", post. by rewrite app_empty, str_app_assoc.
    + intros H. destruct (IH H) as [Hg Ho]. split; [done|].
      by apply occurs_cons.
Qed.

Lemma re_search_complete (marker s g : string) :
  asin_shaped g → occurs (marker +:+ g) s → is_Some (re_search marker s).
Proof.
  intros Hg (pre & post & ->). rewrite str_app_assoc.
  induction pre as [|c pre IH].
  - rewrite app_empty.
    assert (match_at marker (marker +:+ g +:+ post) = Some g) as Hm.
    { apply match_at_spec. split; [done|]. by exists post. }
    destruct (marker +:+ g +:+ post) as [|c s] eqn:E.
    + simpl. by rewrite Hm.
    + rewrite re_search_cons, Hm. done.
  - rewrite app_cons, re_search_cons.
    by destruct (match_at marker _).
Qed.

(** Whatever the address, an ASIN that is extracted has ten characters,
    each a capital letter or a digit, and stands in the address right
    after one of the five markers; and an ASIN is extracted exactly when
    the address holds such a group after one of the markers. *)
Theorem extracted_asin (url : string) :
  (∀ asin, extract_asin_from_url url = Some asin →
     asin_shaped asin
     ∧ ∃ marker, marker ∈ ["/dp/"; "/product/"; "/gp/product/"; "asin="; "asin/"]
                 ∧ occurs (marker +:+ asin) url)
  ∧ (is_Some (extract_asin_from_url url)
     ↔ ∃ marker g,
         marker ∈ ["/dp/"; "/product/"; "/gp/product/"; "asin="; "asin/"]
         ∧ asin_shaped g ∧ occurs (marker +:+ g) url).
Proof.
  unfold extract_asin_from_url.
  change ["/dp/"; "/product/"; "/gp/product/"; "asin="; "asin/"]
    with patterns.
  induction patterns as [|p ps [IH1 IH2]]; simpl.
  - split; [done|]. split; [by intros [? ?]|].
    by intros (marker & g & ?%elem_of_nil & _).
  - destruct (re_search p url) as [g|] eqn:Hp.
    + split.
      * intros asin [= <-]. apply re_search_sound in Hp as [Hg Ho].
        split; [done|]. exists p. split; [by left|done].
      * split; [|done]. intros _.
        apply re_search_sound in Hp as [Hg Ho].
        exists p, g. split; [by left|done].
    + split.
      * intros asin H. destruct (IH1 _ H) as (Hg & marker & Hin & Ho).
        split; [done|]. exists marker. split; [by right|done].
      * rewrite IH2. split.
        -- intros (marker & g & Hin & Hg & Ho). exists marker, g.
           split; [by right|done].
        -- intros (marker & g & Hin & Hg & Ho).
           apply elem_of_cons in Hin as [->|Hin].
           ++ destruct (re_search_complete _ _ _ Hg Ho) as [x Hx]. congruence.
           ++ by exists marker, g.
Qed.

Lemma match_class_exact (g : string) :
  asin_shaped g → match_class 10 g = Some g.
Proof.
  intros [Hl Hall]. apply match_class_spec. repeat split; [done|done|].
  exists "". by rewrite str_app_nil_r.
Qed.

(** The address of a product page built from a well-formed ASIN gives
    that ASIN back. *)
Theorem asin_round_trip (asin : string) :
  asin_shaped asin → extract_asin_from_url (amazon_url asin) = Some asin.
Proof.
  intros Hg.
  assert (re_search "/dp/" (amazon_url asin) = Some asin) as Hdp.
  { unfold amazon_url. rewrite !app_cons, app_empty, !re_search_cons.
    cbn [match_at Ascii.eqb Bool.eqb andb].
    by rewrite (match_class_exact asin Hg). }
  unfold extract_asin_from_url, patterns. cbn [foldr]. by rewrite Hdp.
Qed.

Lemma asin_round_trip_witness :
  extract_asin_from_url (amazon_url "B08N5WRWNW") = Some "B08N5WRWNW".
Proof.
  apply (asin_round_trip "B08N5WRWNW").
  split; [reflexivity|]. repeat constructor.
Defined.

End Asin.

(** ** Reading the provider's answer *)

Section ProviderAnswer.
Import SentimentService.

Lemma find_cons (c a : ascii) (s : string) :
  Py.find c (String a s)
  = if Ascii.eqb a c then 0%Z
    else if (Py.find c s <? 0)%Z then (-1)%Z else (Py.find c s + 1)%Z.
Proof. reflexivity. Qed.

Lemma rfind_cons (c a : ascii) (s : string) :
  Py.rfind c (String a s)
  = if (0 <=? Py.rfind c s)%Z then (Py.rfind c s + 1)%Z
    else if Ascii.eqb a c then 0%Z else (-1)%Z.
Proof. reflexivity. Qed.

Lemma find_absent (c : ascii) (s : string) :
  has_char c s = false → Py.find c s = (-1)%Z.
Proof.
  induction s as [|a s IH]; [done|].
  simpl has_char. intros [Ha Hs]%orb_false_elim.
  by rewrite find_cons, Ha, (IH Hs).
Qed.

Lemma rfind_absent (c : ascii) (s : string) :
  has_char c s = false → Py.rfind c s = (-1)%Z.
Proof.
  induction s as [|a s IH]; [done|].
  simpl has_char. intros [Ha Hs]%orb_false_elim.
  by rewrite rfind_cons, Ha, (IH Hs).
Qed.

Lemma find_first (c : ascii) (a rest : string) :
  has_char c a = false →
  Py.find c (a +:+ String c rest) = Z.of_nat (String.length a).
Proof.
  intros Ha. induction a as [|x a IH].
  - by rewrite app_empty, find_cons, Ascii.eqb_refl.
  - simpl in Ha. apply orb_false_elim in Ha as [Hx Ha].
    rewrite app_cons, find_cons, Hx, (IH Ha).
    change (String.length (String x a)) with (S (String.length a)).
    destruct (Z.ltb_spec (Z.of_nat (String.length a)) 0); lia.
Qed.

Lemma rfind_last (c : ascii) (a rest : string) :
  has_char c rest = false →
  Py.rfind c (a +:+ String c rest) = Z.of_nat (String.length a).
Proof.
  intros Hr. induction a as [|x a IH].
  - by rewrite app_empty, rfind_cons, (rfind_absent _ _ Hr), Ascii.eqb_refl.
  - rewrite app_cons, rfind_cons, IH.
    change (String.length (String x a)) with (S (String.length a)).
    destruct (Z.leb_spec 0 (Z.of_nat (String.length a))); lia.
Qed.

Lemma first_char (c : ascii) (s : string) :
  has_char c s = true →
  ∃ a rest, s = a +:+ String c rest ∧ has_char c a = false.
Proof.
  induction s as [|x s IH]; [done|]. simpl has_char.
  destruct (Ascii.eqb_spec x c) as [->|Hne].
  - intros _. by exists "", s.
  - simpl. intros Hs. destruct (IH Hs) as (a & rest & -> & Ha).
    exists (String x a), rest. split; [done|]. simpl.
    by destruct (Ascii.eqb_spec x c).
Qed.

Lemma str_length_app (a b : string) :
  String.length (a +:+ b) = (String.length a + String.length b)%nat.
Proof. induction a as [|x a IH]; [done|]. rewrite app_cons. simpl. by rewrite IH. Qed.

Lemma substring_middle (a w b : string) :
  String.substring (String.length a) (String.length w) (a +:+ w +:+ b) = w.
Proof.
  induction a as [|x a IH].
  - rewrite app_empty. simpl String.length.
    revert b. induction w as [|y w IHw]; intros b.
    + by destruct b.
    + rewrite app_cons. simpl. by rewrite IHw.
  - rewrite app_cons. simpl. apply IH.
Qed.

Lemma app_split (a x a' y : string) :
  a +:+ x = a' +:+ y → (String.length a <= String.length a')%nat →
  ∃ m, a' = a +:+ m ∧ x = m +:+ y.
Proof.
  revert a'. induction a as [|c a IH]; intros a' H Hl.
  - exists a'. by rewrite !app_empty in *.
  - destruct a' as [|c' a']; [simpl in Hl; lia|].
    rewrite !app_cons in H. injection H as <- H. simpl in Hl.
    destruct (IH a' H) as (m & -> & ->); [lia|]. by exists m.
Qed.

(** [obj] is the part of [t] from its first opening brace to its last
    closing brace. *)
Definition spans (t obj : string) : Prop :=
  ∃ a m b,
    t = a +:+ "{" +:+ m +:+ "}" +:+ b
    ∧ has_char "{" a = false ∧ has_char "}" b = false
    ∧ obj = "{" +:+ m +:+ "}".

(** The test [json_start >= 0 and json_end > json_start]. *)
Definition braces_found (t : string) : bool :=
  ((0 <=? Py.find "{" t) && (Py.find "{" t <? Py.rfind "}" t + 1))%Z.

(** [response_text[json_start:json_end]] *)
Definition braced (t : string) : string :=
  Py.slice t (Py.find "{" t) (Py.rfind "}" t + 1).

Lemma spans_found (t obj : string) :
  spans t obj → braces_found t = true ∧ braced t = obj.
Proof.
  intros (a & m & b & -> & Ha & Hb & ->).
  unfold braces_found, braced, Py.slice.
  assert (Py.find "{" (a +:+ "{" +:+ m +:+ "}" +:+ b)
          = Z.of_nat (String.length a)) as ->.
  { by apply (find_first "{" a (m +:+ "}" +:+ b)). }
  assert (Py.rfind "}" (a +:+ "{" +:+ m +:+ "}" +:+ b)
          = Z.of_nat (String.length (a +:+ "{" +:+ m))) as ->.
  { rewrite <- (rfind_last "}" (a +:+ "{" +:+ m) b Hb).
    f_equal. by rewrite !str_app_assoc. }
  rewrite !str_length_app.
  change (String.length "{") with 1%nat. split.
  - apply andb_true_iff. split; [apply Z.leb_le|apply Z.ltb_lt]; lia.
  - rewrite Nat2Z.id.
    replace (Z.to_nat (Z.of_nat (String.length a + (1 + String.length m)) + 1
                       - Z.of_nat (String.length a)))
      with (String.length ("{" +:+ m +:+ "}")).
    + etrans; [|apply (substring_middle a ("{" +:+ m +:+ "}") b)].
      f_equal. by rewrite !str_app_assoc.
    + rewrite !str_length_app. change (String.length "{") with 1%nat.
      change (String.length "}") with 1%nat. lia.
Qed.

Lemma found_spans (t : string) :
  braces_found t = true → spans t (braced t).
Proof.
  intros Hf.
  assert (∃ obj, spans t obj) as [obj Hs].
  2:{ destruct (spans_found t obj Hs) as [_ <-]. done. }
  unfold braces_found in Hf. apply andb_true_iff in Hf as [H0 Hlt].
  apply Z.leb_le in H0. apply Z.ltb_lt in Hlt.
  destruct (has_char "{" t) eqn:Ho;
    [|rewrite (find_absent _ _ Ho) in H0; lia].
  destruct (first_char _ _ Ho) as (a & rest & -> & Ha).
  rewrite (find_first _ _ _ Ha) in Hlt.
  destruct (has_char "}" (a +:+ String "{" rest)) eqn:Hc;
    [|rewrite (rfind_absent _ _ Hc) in Hlt; lia].
  destruct (last_sep _ _ Hc) as (a' & b & E & Hb).
  rewrite E, (rfind_last _ _ _ Hb) in Hlt.
  destruct (app_split a (String "{" rest) a' (String "}" b) E)
    as (m & -> & Hm); [lia|].
  destruct m as [|x m]; [by rewrite app_empty in Hm|].
  rewrite app_cons in Hm. injection Hm as <- ->.
  exists ("{" +:+ m +:+ "}"), a, m, b. by repeat split.
Qed.

(** The answer of the provider to the request can be used: it holds a
    braced part that decodes to an object with a text under sentiment and
    a value under sentiment_score. *)
Definition usable_answer (e : env) (req : request)
  (d : dict) (label : string) (score : json) : Prop :=
  ∃ t obj,
    provider_text e req = Some t
    ∧ spans t obj
    ∧ json_loads e obj = Some d
    ∧ d !! "sentiment" = Some (JStr label)
    ∧ d !! "sentiment_score" = Some score.

(** With an API key and a usable answer, the verdict is read from the
    object between the first opening and the last closing brace of the
    answer, whatever text surrounds it: the label in lower case, the score
    as it is, and the five other fields copied, or defaulted when the
    object lacks them.  One request is logged. *)
Theorem generative_verdict_read (e : env) (text : string)
  (log : list request) (d : dict) (label : string) (score : json) :
  has_api_key e = true →
  usable_answer e (SentimentRequest (GEMINI_MODEL e) text) d label score →
  analyze_sentiment e text log
  = (Ok {[ "sentiment" := JStr (Py.lower label);
           "score" := score;
           "aspects" := default (JObj ∅) (d !! "aspects");
           "summary" := default (JStr "") (d !! "summary");
           "strengths" := default (JArr []) (d !! "strengths");
           "weaknesses" := default (JArr []) (d !! "weaknesses");
           "improvement_suggestions" :=
             default (JArr []) (d !! "improvement_suggestions") ]},
     log ++ [SentimentRequest (GEMINI_MODEL e) text]).
Proof.
  intros Hkey (t & obj & Ht & Hs & Hd & Hl & Hsc).
  destruct (spans_found t obj Hs) as [Hf Hb].
  unfold braces_found in Hf. unfold braced in Hb.
  unfold analyze_sentiment. rewrite Hkey.
  unfold try_except, analyze_sentiment_gemini, bind, post, lift, ret, loads,
    dict_index, json_lower.
  rewrite Ht, Hf, Hb, Hd, Hl, Hsc. reflexivity.
Qed.

Lemma generative_verdict_read_witness :
  ∃ v log,
    analyze_sentiment env_mixed "fine" [] = (Ok v, log)
    ∧ v !! "sentiment" = Some (JStr "mixed").
Proof.
  eexists _, _. split.
  - apply (generative_verdict_read env_mixed "fine" []
             {[ "sentiment" := JStr "MIXED"; "sentiment_score" := JNum 5 ]}
             "MIXED" (JNum 5)); [reflexivity|].
    exists mixed_answer, mixed_object. repeat split.
    apply found_spans. reflexivity.
  - reflexivity.
Defined.

(** With an API key but no usable answer (the request fails, the answer
    has no opening brace followed later by a closing one, the braced part
    does not decode, or the object lacks a text label or a score), the
    verdict is the one of the local tiers, and one request is logged. *)
Theorem generative_fallback (e : env) (text : string) (log : list request) :
  has_api_key e = true →
  (∀ d label score,
     ¬ usable_answer e (SentimentRequest (GEMINI_MODEL e) text)
         d label score) →
  analyze_sentiment e text log
  = (Ok (local_verdict e text),
     log ++ [SentimentRequest (GEMINI_MODEL e) text]).
Proof.
  intros Hkey Hno.
  assert (∀ l, (if vader_available e
                then ret (analyze_sentiment_vader e text)
                else ret (analyze_sentiment_basic text)) l
               = (Ok (local_verdict e text), l)) as Hlocal.
  { intros l. unfold local_verdict. by destruct (vader_available e). }
  unfold analyze_sentiment. rewrite Hkey.
  unfold try_except, analyze_sentiment_gemini, bind, post, lift, ret, raise,
    loads, dict_index, json_lower.
  destruct (provider_text e _) as [t|] eqn:Ht; [|apply Hlocal].
  fold (braces_found t). fold (braced t).
  destruct (braces_found t) eqn:Hf; [|apply Hlocal].
  apply found_spans in Hf.
  destruct (json_loads e (braced t)) as [d|] eqn:Hd; [|apply Hlocal].
  destruct (d !! "sentiment") as [[| | |label| |]|] eqn:Hl;
    try apply Hlocal.
  destruct (d !! "sentiment_score") as [score|] eqn:Hsc; [|apply Hlocal].
  destruct (Hno d label score). by exists t, (braced t).
Qed.

Definition env_unreachable : env := {|
  GEMINI_API_KEY := Some "key";
  GEMINI_MODEL := "gemini-1.5-flash";
  vader_available := false;
  vader_compound := λ _, None;
  provider_text := λ _, None;
  json_loads := λ _, None;
  list_of_set := elements
|}.

Lemma generative_fallback_witness :
  analyze_sentiment env_unreachable "good" []
  = (Ok (local_verdict env_unreachable "good"),
     [SentimentRequest "gemini-1.5-flash" "good"]).
Proof.
  apply (generative_fallback env_unreachable "good" []); [reflexivity|].
  intros d label score (t & obj & Ht & _). discriminate.
Defined.

End ProviderAnswer.

(** ** The row loop of [process_file] *)

Section RowLoop.
Import SentimentService App.
#[local] Open Scope Q_scope.

(** The row has a text whose stripped form has five characters or more. *)
Definition long_enough (text_column : string) (r : row) : bool :=
  match r !! text_column with
  | Some c => (5 <=? String.length (Py.strip (cell_str c)))%nat
  | None => false
  end.

(** The first of the two columns that the row has. *)
Definition first_of (first second : string) (r : row) : option cell :=
  match r !! first with
  | Some c => Some c
  | None => r !! second
  end.

(** What a result holds of its row: the unstripped text; as rating the
    float of the cell of the rating column, when there is such a column
    and the conversion does not raise (the float of an empty cell is
    [NaN]); the product and the date from the first of their two
    columns that the row has. *)
Definition result_of_row (text_column : string)
  (rating_column : option string) (r : row) (res : row_output) : Prop :=
  (∃ c, r !! text_column = Some c
        ∧ out_fields res !! "text" = Some (JStr (cell_str c)))
  ∧ out_rating res
    = match rating_column with
      | Some name =>
          if String.eqb name "" then None else r !! name ≫= cell_float
      | None => None
      end
  ∧ out_product res = cell_value <$> first_of "product" "product_name" r
  ∧ out_date res = cell_value <$> first_of "date" "review_date" r.

(** What a mention holds of its result. *)
Definition mirrors (res : row_output) (mention : row_mention) : Prop :=
  mention_fields mention !! "source" = Some (JStr "uploaded_file")
  ∧ mention_fields mention !! "type" = Some (JStr "review")
  ∧ mention_fields mention !! "text" = out_fields res !! "text"
  ∧ mention_fields mention !! "sentiment" = out_fields res !! "sentiment"
  ∧ mention_fields mention !! "sentiment_score"
    = out_fields res !! "score"
  ∧ mention_product mention = out_product res
  ∧ mention_rating mention = out_rating res
  ∧ mention_date mention = out_date res.

Lemma add_rating_spec (rating_column : option string) (r : row)
  (res : row_output) :
  out_rating res = None →
  out_fields (add_rating rating_column r res) = out_fields res
  ∧ out_product (add_rating rating_column r res) = out_product res
  ∧ out_date (add_rating rating_column r res) = out_date res
  ∧ out_rating (add_rating rating_column r res)
    = match rating_column with
      | Some name =>
          if String.eqb name "" then None else r !! name ≫= cell_float
      | None => None
      end.
Proof.
  intros Hres. unfold add_rating.
  destruct rating_column as [name|]; [|done].
  destruct (String.eqb name ""); simpl; [done|].
  destruct (r !! name) as [c|]; simpl; [|done].
  by destruct (cell_float c).
Qed.

Lemma add_product_spec (r : row) (res : row_output) :
  out_product res = None →
  out_fields (add_product r res) = out_fields res
  ∧ out_rating (add_product r res) = out_rating res
  ∧ out_date (add_product r res) = out_date res
  ∧ out_product (add_product r res)
    = cell_value <$> first_of "product" "product_name" r.
Proof.
  intros Hres. unfold add_product, first_cell, first_of.
  destruct (r !! "product"); [done|]. by destruct (r !! "product_name").
Qed.

Lemma add_date_spec (r : row) (res : row_output) :
  out_date res = None →
  out_fields (add_date r res) = out_fields res
  ∧ out_rating (add_date r res) = out_rating res
  ∧ out_product (add_date r res) = out_product res
  ∧ out_date (add_date r res)
    = cell_value <$> first_of "date" "review_date" r.
Proof.
  intros Hres. unfold add_date, first_cell, first_of.
  destruct (r !! "date"); [done|]. by destruct (r !! "review_date").
Qed.

Lemma row_result_fields (text : string) (v res : dict) :
  row_result text v = Ok res →
  res !! "text" = Some (JStr text)
  ∧ res !! "sentiment" = v !! "sentiment"
  ∧ res !! "score" = v !! "score".
Proof.
  unfold row_result, result_bind, dict_index.
  destruct (v !! "sentiment") as [s|]; [|discriminate].
  destruct (v !! "score") as [q|]; [|discriminate].
  destruct (json_join _ _); [|discriminate].
  intros [= <-]. by repeat split.
Qed.

Lemma mention_of_fields (text : string) (v : dict) (res : row_output)
  (mention : row_mention) :
  mention_of text v res = Ok mention →
  mention_fields mention !! "source" = Some (JStr "uploaded_file")
  ∧ mention_fields mention !! "type" = Some (JStr "review")
  ∧ mention_fields mention !! "text" = Some (JStr text)
  ∧ mention_fields mention !! "sentiment" = v !! "sentiment"
  ∧ mention_fields mention !! "sentiment_score" = v !! "score"
  ∧ mention_product mention = out_product res
  ∧ mention_rating mention = out_rating res
  ∧ mention_date mention = out_date res.
Proof.
  unfold mention_of, result_bind, dict_index.
  destruct (v !! "sentiment") as [s|]; [|discriminate].
  destruct (v !! "score") as [q|]; [|discriminate].
  intros [= <-]. by repeat split.
Qed.

(** One pass through the body of the loop. *)
Lemma process_row_spec (e : env) (text_column : string)
  (rating_column : option string) (r : row) (log log' : list request)
  (out : option (row_output * row_mention)) :
  process_row e text_column rating_column r log = (Ok out, log') →
  match out with
  | None => long_enough text_column r = false ∧ log' = log
  | Some (res, mention) =>
      long_enough text_column r = true
      ∧ result_of_row text_column rating_column r res
      ∧ mirrors res mention
      ∧ ∃ c v, r !! text_column = Some c
               ∧ analyze_sentiment e (cell_str c) log = (Ok v, log')
               ∧ out_fields res !! "sentiment" = v !! "sentiment"
               ∧ out_fields res !! "score" = v !! "score"
  end.
Proof.
  unfold process_row, long_enough, bind, lift, ret, row_index.
  destruct (r !! text_column) as [c|] eqn:Hc; [|discriminate].
  destruct (Nat.ltb_spec (String.length (Py.strip (cell_str c))) 5)
    as [Hshort|Hlong].
  - intros [= <- <-]. split; [|done]. apply Nat.leb_gt. lia.
  - destruct (analyze_sentiment e (cell_str c) log) as [[v|x] l] eqn:Hv;
      [|discriminate].
    destruct (row_result (cell_str c) v) as [fields|x] eqn:Hres;
      [|discriminate].
    set (res0 := {| out_fields := fields; out_rating := None;
                    out_product := None; out_date := None |}).
    destruct (add_rating_spec rating_column r res0 eq_refl)
      as (R1 & R2 & R3 & R4).
    destruct (add_product_spec r (add_rating rating_column r res0))
      as (P1 & P2 & P3 & P4); [by rewrite R2|].
    destruct (add_date_spec r
                (add_product r (add_rating rating_column r res0)))
      as (D1 & D2 & D3 & D4); [by rewrite P3, R3|].
    set (res := add_date r (add_product r (add_rating rating_column r res0)))
      in *.
    assert (out_fields res = fields) as Hf by (by rewrite D1, P1, R1).
    destruct (mention_of _ _ _) as [mention|x] eqn:Hm; [|discriminate].
    intros [= <- <-].
    apply row_result_fields in Hres as (Ht & Hs & Hq).
    apply mention_of_fields in Hm as (M1 & M2 & M3 & M4 & M5 & M6 & M7 & M8).
    split; [apply Nat.leb_le; lia|].
    split; [|split].
    + split; [exists c; by rewrite Hf|].
      split; [by rewrite D2, P2, R4|].
      split; [by rewrite D3, P4|done].
    + unfold mirrors. rewrite Hf, M1, M2, M3, M4, M5, M6, M7, M8, Ht, Hs, Hq.
      done.
    + exists c, v. by rewrite Hf.
Qed.

Lemma process_rows_cons (e : env) (text_column : string)
  (rating_column : option string) (r : row) (rest : list row)
  (results : list row_output) (mentions : list row_mention)
  (log : list request) :
  process_rows e text_column rating_column (r :: rest) results mentions log
  = match process_row e text_column rating_column r log with
    | (Ok None, log') =>
        process_rows e text_column rating_column rest results mentions log'
    | (Ok (Some (res, mention)), log') =>
        process_rows e text_column rating_column rest
          (results ++ [res]) (mentions ++ [mention]) log'
    | (Raise x, log') => (Raise x, log')
    end.
Proof.
  simpl. unfold bind.
  destruct (process_row e text_column rating_column r log)
    as [[[[res mention]|]|x] log']; done.
Qed.

Lemma process_rows_spec (e : env) (text_column : string)
  (rating_column : option string) (rows : list row)
  (results results' : list row_output)
  (mentions mentions' : list row_mention)
  (log log' : list request) :
  process_rows e text_column rating_column rows results mentions log
  = (Ok (results', mentions'), log') →
  ∃ new_results new_mentions,
    results' = (results ++ new_results)%list
    ∧ mentions' = (mentions ++ new_mentions)%list
    ∧ Forall2 (result_of_row text_column rating_column)
        (List.filter (long_enough text_column) rows) new_results
    ∧ Forall2 mirrors new_results new_mentions.
Proof.
  revert results mentions log.
  induction rows as [|r rest IH]; intros results mentions log.
  - intros [= <- <- <-]. exists [], []. rewrite !app_nil_r.
    repeat split; constructor.
  - rewrite process_rows_cons.
    destruct (process_row e text_column rating_column r log)
      as [[out|x] l] eqn:Hrow; [|discriminate].
    apply process_row_spec in Hrow.
    destruct out as [[res mention]|].
    + destruct Hrow as (Hlong & Hres & Hm & _).
      intros H. destruct (IH _ _ _ H) as (nr & nm & -> & -> & Hf & Hmm).
      exists (res :: nr), (mention :: nm).
      rewrite <- !app_assoc. simpl. rewrite Hlong.
      repeat split; by constructor.
    + destruct Hrow as [Hshort ->].
      intros H. destruct (IH _ _ _ H) as (nr & nm & -> & -> & Hf & Hmm).
      exists nr, nm. simpl. by rewrite Hshort.
Qed.

(** When the loop returns, its results are, in order, those of the rows
    whose stripped text has five characters or more, the other rows being
    skipped.  Each result holds the unstripped text of its row; the float
    of the cell of the rating column as rating, when there is a rating
    column and the conversion does not raise, so that an empty cell gives
    the rating [NaN]; the product and the date from the first of their
    two columns that the table has.  Each mention repeats the text,
    sentiment, score, product, rating and date of the result at the same
    position. *)
Theorem row_loop_filter (e : env) (text_column : string)
  (rating_column : option string) (rows : list row)
  (results : list row_output) (mentions : list row_mention)
  (log log' : list request) :
  process_rows e text_column rating_column rows [] [] log
  = (Ok (results, mentions), log') →
  Forall2 (result_of_row text_column rating_column)
    (List.filter (long_enough text_column) rows) results
  ∧ Forall2 mirrors results mentions.
Proof.
  intros H. by destruct (process_rows_spec _ _ _ _ _ _ _ _ _ _ H)
    as (nr & nm & -> & -> & Hf & Hm).
Qed.

Lemma process_row_local (e : env) (text_column : string)
  (rating_column : option string) (r : row) (c : cell)
  (log : list request) :
  has_api_key e = false →
  r !! text_column = Some c →
  compound_in_range e (cell_str c) →
  ∃ out,
    process_row e text_column rating_column r log = (Ok out, log)
    ∧ match out with
      | Some (res, _) => valid_verdict (out_fields res)
      | None => True
      end.
Proof.
  intros Hkey Hc Hrange.
  assert (analyze_sentiment e (cell_str c) log
          = (Ok (local_verdict e (cell_str c)), log)) as Hv.
  { unfold analyze_sentiment, local_verdict. rewrite Hkey.
    by destruct (vader_available e). }
  assert (∃ out, process_row e text_column rating_column r log
                 = (Ok out, log)) as [out Hout].
  { unfold process_row, bind, lift, ret, row_index. rewrite Hc.
    destruct (_ <? 5)%nat; [by eexists|]. rewrite Hv.
    destruct (local_verdict_shape e (cell_str c))
      as (Hconf & Himp & [s Hs] & [q Hq]).
    unfold row_result, mention_of, result_bind, dict_index,
      dict_get_default.
    rewrite Hs, Hq, Himp. simpl. by eexists. }
  exists out. split; [done|].
  apply process_row_spec in Hout.
  destruct out as [[res mention]|]; [|done].
  destruct Hout as (_ & _ & _ & c' & v & Hc' & Hv' & Hs & Hq).
  assert (c' = c) as -> by congruence.
  assert (v = local_verdict e (cell_str c)) as -> by congruence.
  destruct (local_verdict_valid e (cell_str c) Hrange)
    as (s & q & Hs' & Hin & Hq' & Hb).
  exists s, q. by rewrite Hs, Hq.
Qed.

(** Every row has the text column, and the lexicon's polarity of its
    text, when there is one, lies between -1 and 1. *)
Definition readable (e : env) (text_column : string) (r : row) : Prop :=
  ∃ c, r !! text_column = Some c ∧ compound_in_range e (cell_str c).

Lemma process_rows_local (e : env) (text_column : string)
  (rating_column : option string) (rows : list row)
  (results : list row_output) (mentions : list row_mention)
  (log : list request) :
  has_api_key e = false →
  Forall (readable e text_column) rows →
  ∃ new_results new_mentions,
    process_rows e text_column rating_column rows results mentions log
    = (Ok (results ++ new_results, mentions ++ new_mentions)%list, log)
    ∧ Forall (λ res, valid_verdict (out_fields res)) new_results.
Proof.
  intros Hkey Hrows. revert results mentions.
  induction Hrows as [|r rest (c & Hc & Hrange) _ IH];
    intros results mentions.
  - exists [], []. by rewrite !app_nil_r.
  - rewrite process_rows_cons.
    destruct (process_row_local e text_column rating_column r c log
                Hkey Hc Hrange) as (out & -> & Hout).
    destruct out as [[res mention]|].
    + destruct (IH (results ++ [res]) (mentions ++ [mention]))%list
        as (nr & nm & -> & Hvalid).
      exists (res :: nr), (mention :: nm).
      rewrite <- !app_assoc. split; [done|]. by constructor.
    + apply IH.
Qed.

(** A cell that holds a text. *)
Definition cell_of (s : string) : cell :=
  {| cell_str := s; cell_value := Json (JStr s); cell_float := None |}.

(** The empty cell of a numeric column: it prints as nan, and its float
    is [NaN]. *)
Definition empty_cell : cell :=
  {| cell_str := "nan"; cell_value := Float NaN; cell_float := Some NaN |}.

(** A table with the columns review, rating and product: its first row
    has no rating, and the text of its second row is too short. *)
Definition rated_rows : list row :=
  [ {[ "review" := cell_of "Great value, works well";
       "rating" := empty_cell;
       "product" := cell_of "Phone X" ]};
    {[ "review" := cell_of " ok ";
       "rating" := {| cell_str := "4"; cell_value := Json (JNum 4);
                      cell_float := Some (Finite 4) |};
       "product" := cell_of "Phone X" ]} ].

Lemma rated_rows_readable : Forall (readable env_offline "review") rated_rows.
Proof. repeat constructor; eexists; (split; [reflexivity|done]). Qed.

Lemma row_loop_filter_witness :
  ∃ res mention,
    process_rows env_offline "review" (Some "rating") rated_rows [] [] []
    = (Ok ([res], [mention]), [])
    ∧ out_fields res !! "text" = Some (JStr "Great value, works well")
    ∧ out_rating res = Some NaN
    ∧ out_product res = Some (Json (JStr "Phone X"))
    ∧ out_date res = None
    ∧ mirrors res mention.
Proof.
  destruct (process_rows_local env_offline "review" (Some "rating")
              rated_rows [] [] [] eq_refl rated_rows_readable)
    as (results & mentions & Hloop & _).
  simpl in Hloop.
  destruct (row_loop_filter env_offline "review" (Some "rating") rated_rows
              results mentions [] [] Hloop) as [Hres Hmen].
  change (List.filter (long_enough "review") rated_rows)
    with [ ({[ "review" := cell_of "Great value, works well";
               "rating" := empty_cell;
               "product" := cell_of "Phone X" ]} : row) ] in Hres.
  destruct results as [|res [|? ?]];
    [exfalso; inversion Hres | | exfalso; inversion Hres as [|? ? ? ? _ H];
                                 inversion H].
  destruct mentions as [|mention [|? ?]];
    [exfalso; inversion Hmen | | exfalso; inversion Hmen as [|? ? ? ? _ H];
                                 inversion H].
  exists res, mention. split; [exact Hloop|].
  apply Forall2_cons_1 in Hres as [((c & Hc & Ht) & Hr & Hp & Hd) _].
  apply Forall2_cons_1 in Hmen as [Hm _].
  injection Hc as <-.
  repeat split; [exact Ht|exact Hr|exact Hp|exact Hd|..]; apply Hm.
Defined.

Lemma count_sentiment_cons (label : string) (r : row_output)
  (rest : list row_output) (s : string) (n : nat) :
  out_fields r !! "sentiment" = Some (JStr s) →
  count_sentiment label rest = Ok n →
  count_sentiment label (r :: rest)
  = Ok (if String.eqb s label then S n else n).
Proof.
  intros Hs Hn. simpl. unfold result_bind, dict_index. by rewrite Hs, Hn.
Qed.

Lemma counts_of_valid (results : list row_output) :
  Forall (λ res, valid_verdict (out_fields res)) results →
  ∃ p u n,
    count_sentiment "positive" results = Ok p
    ∧ count_sentiment "neutral" results = Ok u
    ∧ count_sentiment "negative" results = Ok n
    ∧ (p + u + n = length results)%nat.
Proof.
  induction 1 as [|r rest (s & q & Hs & Hin & _) _ (p & u & n & Hp & Hu & Hn & Hsum)].
  - by exists 0%nat, 0%nat, 0%nat.
  - rewrite (count_sentiment_cons "positive" r rest s p Hs Hp).
    rewrite (count_sentiment_cons "neutral" r rest s u Hs Hu).
    rewrite (count_sentiment_cons "negative" r rest s n Hs Hn).
    unfold sentiments in Hin.
    apply elem_of_cons in Hin as [->|Hin];
      [|apply elem_of_cons in Hin as [->|Hin];
        [|apply elem_of_cons in Hin as [->|Hin%elem_of_nil]; [|done]]];
      eexists _, _, _; (repeat split; [reflexivity..|]); simpl; lia.
Qed.

Lemma sum_scores_of_valid (results : list row_output) (acc : Q) :
  Forall (λ res, valid_verdict (out_fields res)) results →
  ∃ total,
    sum_scores results acc = Ok total
    ∧ acc <= total <= acc + Qnat (length results).
Proof.
  intros Hvalid. revert acc.
  induction Hvalid as [|r rest (s & q & _ & _ & Hq & Hb) _ IH]; intros acc.
  - exists acc. split; [done|].
    change (Qnat (length (@nil row_output))) with 0. lra.
  - simpl sum_scores. unfold result_bind, dict_index. rewrite Hq. simpl.
    destruct (IH (acc + q)) as (total & -> & Ht).
    exists total. split; [done|].
    change (length (r :: rest)) with (S (length rest)).
    rewrite Qnat_S. lra.
Qed.

(** Without an API key, on rows that all have the text column, the loop
    and the statistics never fail and send no request: the total is the
    number of rows whose stripped text has five characters or more, the
    positive, neutral and negative counts add up to it, the average
    score lies between 0 and 1, and there are mentions exactly when the
    total is not zero. *)
Theorem file_statistics_local (e : env) (text_column : string)
  (rating_column : option string) (rows : list row)
  (log : list request) :
  has_api_key e = false →
  Forall (readable e text_column) rows →
  ∃ st,
    analyze_rows e text_column rating_column rows log = (Ok st, log)
    ∧ total_reviews st
      = length (List.filter (long_enough text_column) rows)
    ∧ (positive_count st + neutral_count st + negative_count st
       = total_reviews st)%nat
    ∧ 0 <= average_score st <= 1
    ∧ has_mentions st = (0 <? total_reviews st)%nat.
Proof.
  intros Hkey Hrows.
  destruct (process_rows_local e text_column rating_column rows [] [] log
              Hkey Hrows) as (results & mentions & Hloop & Hvalid).
  simpl in Hloop.
  destruct (process_rows_spec _ _ _ _ _ _ _ _ _ _ Hloop)
    as (nr & nm & Er & Em & Hres & Hmen).
  simpl in Er, Em. subst nr nm.
  apply Forall2_length in Hres, Hmen.
  destruct (counts_of_valid results Hvalid)
    as (p & u & n & Hp & Hu & Hn & Hsum).
  destruct (sum_scores_of_valid results 0 Hvalid) as (total & Ht & Hb).
  unfold analyze_rows, bind, lift. rewrite Hloop.
  unfold summary_statistics, result_bind. rewrite Hp, Hu, Hn.
  destruct (Nat.ltb_spec 0 (length results)) as [Hpos|Hzero].
  - rewrite Ht. eexists. split; [reflexivity|]. simpl.
    repeat split; try done.
    + apply Qle_shift_div_l; [|lra].
      unfold Qnat. change 0 with (inject_Z 0). rewrite <- Zlt_Qlt. lia.
    + apply Qle_shift_div_r; [|lra].
      unfold Qnat. change 0 with (inject_Z 0). rewrite <- Zlt_Qlt. lia.
    + by rewrite <- Hmen.
  - eexists. split; [reflexivity|]. simpl.
    repeat split; try done.
    by rewrite <- Hmen.
Qed.

Definition two_rows : list row :=
  [ {[ "review" := cell_of "Great value, works well" ]};
    {[ "review" := cell_of " ok " ]} ].

Lemma file_statistics_local_witness :
  ∃ st,
    analyze_rows env_offline "review" None two_rows [] = (Ok st, [])
    ∧ total_reviews st = 1%nat.
Proof.
  destruct (file_statistics_local env_offline "review" None two_rows [])
    as (st & Hst & Htotal & _); [reflexivity| |by exists st].
  repeat constructor; eexists; (split; [reflexivity|done]).
Defined.

End RowLoop.

(** ** The Flipkart scraper *)

Section Flipkart.
Import ScraperService.

Lemma set_if_lookup {A} (key : string) (v : option A) (f : A → json)
  (review : dict) (k : string) :
  k ≠ key → set_if key v f review !! k = review !! k.
Proof.
  intros Hk. unfold set_if. destruct v; [by rewrite lookup_insert_ne|done].
Qed.

Lemma set_if_key {A} (key : string) (v : option A) (f : A → json)
  (review : dict) :
  review !! key = None → set_if key v f review !! key = f <$> v.
Proof.
  intros Hk. unfold set_if. destruct v; [by rewrite lookup_insert_eq|done].
Qed.

Lemma extract_flipkart_fold (els : list flipkart_element)
  (reviews : list dict) :
  foldl
    (fun reviews review_elem =>
       (reviews ++ [flipkart_review (length reviews) review_elem])%list)
    reviews els
  = reviews ++ imap (λ i, flipkart_review (length reviews + i)) els.
Proof.
  revert reviews. induction els as [|el els IH]; intros reviews; simpl.
  - by rewrite app_nil_r.
  - rewrite IH, <- app_assoc. simpl. rewrite Nat.add_0_r.
    f_equal. f_equal.
    apply imap_ext. intros i x _. simpl. rewrite length_app. simpl.
    f_equal. lia.
Qed.

(** The reviews of a page are as many as its review elements, in order.
    The review at position [i] has the identifier flipkart_[i], counted
    from 0 within the page whatever page it is, always a verified flag
    and a helpful count, and a text exactly when the element has one. *)
Theorem flipkart_page_reviews (els : list flipkart_element) :
  length (extract_flipkart_reviews_from_page els) = length els
  ∧ ∀ i el,
      els !! i = Some el →
      ∃ review,
        extract_flipkart_reviews_from_page els !! i = Some review
        ∧ review !! "review_id" = Some (JStr ("flipkart_" +:+ pretty i))
        ∧ review !! "verified_purchase" = Some (JBool (el_verified el))
        ∧ is_Some (review !! "helpful_votes")
        ∧ (is_Some (review !! "text") ↔ is_Some (el_text el)).
Proof.
  unfold extract_flipkart_reviews_from_page.
  rewrite extract_flipkart_fold. simpl. split; [by rewrite length_imap|].
  intros i el Hel. exists (flipkart_review i el).
  split; [by rewrite list_lookup_imap, Hel|].
  unfold flipkart_review.
  split; [by rewrite lookup_insert_eq|].
  split; [by rewrite lookup_insert_ne, lookup_insert_ne, lookup_insert_eq|].
  split; [by rewrite lookup_insert_ne, lookup_insert_eq|].
  rewrite !lookup_insert_ne by done.
  rewrite !set_if_lookup by done.
  rewrite set_if_key by (by rewrite !set_if_lookup by done).
  by rewrite fmap_is_Some.
Qed.

Lemma mock_flipkart_review_raise (e : flipkart_env) (k i : nat) (x : exn) :
  mock_flipkart_review e k i = Raise x →
  x = ValueError "day is out of range for month".
Proof.
  unfold mock_flipkart_review, replace_day, result_bind.
  destruct (_ && _); [discriminate|]. by intros [= <-].
Qed.

Lemma mock_flipkart_loop_spec (e : flipkart_env) (k : nat)
  (indices : list nat) (reviews : list dict) :
  match mock_flipkart_loop e k indices reviews with
  | Ok l => length l = (length reviews + length indices)%nat
  | Raise x => x = ValueError "day is out of range for month"
  end.
Proof.
  revert reviews. induction indices as [|i rest IH]; intros reviews; simpl.
  - lia.
  - destruct (mock_flipkart_review e k i) as [review|x] eqn:Hr.
    + specialize (IH (reviews ++ [review])).
      destruct (mock_flipkart_loop e k rest _); [|done].
      rewrite length_app in IH. simpl in IH. lia.
    + by eapply mock_flipkart_review_raise.
Qed.

Lemma mock_flipkart_reviews_spec (e : flipkart_env) (k : nat) (n : Z) :
  match mock_flipkart_reviews e k n with
  | Ok l => len l = Z.max 0 n
  | Raise x => x = ValueError "day is out of range for month"
  end.
Proof.
  unfold mock_flipkart_reviews.
  pose proof (mock_flipkart_loop_spec e k (range n) []) as H.
  destruct (mock_flipkart_loop e k (range n) []); [|done].
  unfold len, range in *. rewrite length_seq in H. simpl in H. lia.
Qed.

Lemma flipkart_fallback_spec (e : flipkart_env) (k : nat) (info : dict)
  (n : Z) :
  match flipkart_fallback e k info n with
  | Ok (info', reviews) => info' = info ∧ len reviews = Z.max 0 n
  | Raise x => x = ValueError "day is out of range for month"
  end.
Proof.
  unfold flipkart_fallback, result_bind.
  pose proof (mock_flipkart_reviews_spec e k n) as H.
  by destruct (mock_flipkart_reviews e k n).
Qed.

(** The loop over the pages ends within the passes it is given. *)
Lemma review_pages_ends (e : flipkart_env) (num_reviews : Z) (fuel : nat)
  (requests : nat) (current_url : option string) (all_reviews : list dict) :
  (Z.to_nat (num_reviews - len all_reviews) ≤ fuel)%nat →
  ∃ r, review_pages e num_reviews fuel requests current_url all_reviews
       = Some r
       ∧ ((num_reviews ≤ len all_reviews)%Z → r = Ok all_reviews).
Proof.
  revert requests current_url all_reviews.
  induction fuel as [|fuel IH]; intros requests current_url all_reviews Hf;
    simpl.
  - destruct (Z.ltb_spec (len all_reviews) num_reviews) as [Hlt|Hge];
      [lia|]. simpl. by eexists.
  - destruct (Z.ltb_spec (len all_reviews) num_reviews) as [Hlt|Hge];
      simpl; [|by eexists].
    destruct (truthy current_url); [|eexists; split; [done|lia]].
    destruct (flipkart_get e requests _) as [page|];
      [|eexists; split; [done|lia]].
    destruct (negb _); [eexists; split; [done|lia]|].
    destruct (extract_flipkart_reviews_from_page (page_elements page))
      as [|review page_reviews]; [eexists; split; [done|lia]|].
    destruct (IH (S requests) (next_url page)
                (all_reviews ++ review :: page_reviews)) as (r & -> & _).
    + unfold len in *. rewrite length_app. simpl. lia.
    + exists r. split; [done|lia].
Qed.

Lemma slice_to_len {A} (n : Z) (l : list A) :
  (0 ≤ n)%Z → len (slice_to n l) = Z.min n (len l).
Proof.
  intros Hn. unfold slice_to, len.
  destruct (Z.leb_spec 0 n); [|lia]. rewrite length_take. lia.
Qed.

Lemma flipkart_product_info_fields (page : flipkart_page) (url : string) :
  let info :=
    flipkart_product_info page
      {[ "name" := JStr "Unknown Product"; "url" := JStr url ]} in
  info !! "url" = Some (JStr url)
  ∧ info !! "name"
    = Some (JStr (match page_product_name page with
                  | Some t => Py.strip t
                  | None => "Unknown Product"
                  end)).
Proof.
  unfold flipkart_product_info. split.
  - by rewrite !set_if_lookup.
  - rewrite !set_if_lookup by done. unfold set_if.
    destruct (page_product_name page); [by rewrite lookup_insert_eq|done].
Qed.

(** Whatever the pages and the random values, a run ends; when it
    returns, it returns exactly [max 0 num_reviews] reviews, and a product
    information that has a name and, as its address, the address given by
    the caller, not the reviews address that was requested; and the only
    exception that escapes is the date error of the mock generator. *)
Theorem flipkart_result (e : flipkart_env) (product_url : string)
  (num_reviews : Z) :
  ∃ r,
    scrape_flipkart_reviews e product_url num_reviews = Some r
    ∧ match r with
      | Ok (product_info, reviews) =>
          len reviews = Z.max 0 num_reviews
          ∧ product_info !! "url" = Some (JStr product_url)
          ∧ is_Some (product_info !! "name")
      | Raise x => x = ValueError "day is out of range for month"
      end.
Proof.
  unfold scrape_flipkart_reviews.
  set (info0 := ({[ "name" := JStr "Unknown Product";
                    "url" := JStr product_url ]} : dict)).
  assert (info0 !! "url" = Some (JStr product_url)
          ∧ is_Some (info0 !! "name")) as [Hu0 Hn0] by (by split; eauto).
  assert (∀ k info,
            info !! "url" = Some (JStr product_url) →
            is_Some (info !! "name") →
            match flipkart_fallback e k info num_reviews with
            | Ok (product_info, reviews) =>
                len reviews = Z.max 0 num_reviews
                ∧ product_info !! "url" = Some (JStr product_url)
                ∧ is_Some (product_info !! "name")
            | Raise x => x = ValueError "day is out of range for month"
            end) as Hfb.
  { intros k info Hu Hn.
    pose proof (flipkart_fallback_spec e k info num_reviews) as H.
    destruct (flipkart_fallback e k info num_reviews) as [[info' l]|x];
      [|done].
    by destruct H as [-> ?]. }
  destruct (flipkart_get e 0 _) as [page|]; [|eexists; split; [done|]; by apply Hfb].
  destruct (negb _).
  { pose proof (mock_flipkart_reviews_spec e 0 num_reviews) as Hm.
    destruct (mock_flipkart_reviews e 0 num_reviews) as [l|x].
    - eexists. split; [done|]. by simpl.
    - eexists. split; [done|]. by apply Hfb. }
  destruct (flipkart_product_info_fields page product_url) as [Hu Hn].
  fold info0 in Hu, Hn.
  set (info := flipkart_product_info page info0) in *.
  assert (is_Some (info !! "name")) as Hn' by (by rewrite Hn).
  destruct (review_pages_ends e num_reviews (Z.to_nat num_reviews) 1
              (Some (reviews_url product_url)) [])
    as (r & -> & Hr); [unfold len; simpl; lia|].
  destruct r as [all|x]; [|eexists; split; [done|]; by apply Hfb].
  destruct (Z.ltb_spec (len (slice_to num_reviews all)) num_reviews)
    as [Hlt|Hge].
  - pose proof (mock_flipkart_reviews_spec e 0
                  (num_reviews - len (slice_to num_reviews all))) as Hm.
    destruct (mock_flipkart_reviews e 0 _) as [l|x].
    + eexists. split; [done|]. split; [|done].
      unfold len in *. rewrite length_app. lia.
    + eexists. split; [done|]. by apply Hfb.
  - eexists. split; [done|]. split; [|done].
    destruct (Z.le_gt_cases 0 num_reviews) as [Hpos|Hneg].
    + rewrite slice_to_len in * by done. lia.
    + assert (all = []) as ->.
      { assert (Ok all = Ok []) as Hall
          by (apply Hr; unfold len; simpl; lia).
        by injection Hall. }
      unfold slice_to, len.
      destruct (0 <=? num_reviews)%Z; rewrite length_take; simpl; lia.
Qed.

Lemma mock_flipkart_first_of_month (e : flipkart_env) (k : nat) (n : Z) :
  day (flipkart_today e) = 1%Z → (0 < n)%Z →
  mock_flipkart_reviews e k n
  = Raise (ValueError "day is out of range for month").
Proof.
  intros Hday Hn. unfold mock_flipkart_reviews, range.
  destruct (Z.to_nat n) as [|m] eqn:E; [lia|]. simpl.
  unfold mock_flipkart_review, replace_day, result_bind.
  pose proof (randint_range 1 365
                (pick_days_ago (flipkart_random e k 0))) as Hr.
  rewrite Hday.
  destruct (Z.leb_spec 1
              (1 - randint 1 365 (pick_days_ago (flipkart_random e k 0))));
    [lia|]. done.
Qed.

(** On the first day of a month, a run that asks for at least one review
    and cannot reach the site raises the date error of the mock generator
    instead of returning mock reviews, whatever the random values: the
    first failure is caught, and the generator called again by the
    handler fails in the same way. *)
Theorem flipkart_first_of_month (e : flipkart_env) (product_url : string)
  (num_reviews : Z) :
  day (flipkart_today e) = 1%Z →
  (0 < num_reviews)%Z →
  (flipkart_get e 0 (reviews_url product_url) = None
   ∨ ∃ page, flipkart_get e 0 (reviews_url product_url) = Some page
             ∧ status_code page ≠ 200%Z) →
  scrape_flipkart_reviews e product_url num_reviews
  = Some (Raise (ValueError "day is out of range for month")).
Proof.
  intros Hday Hn Hget. unfold scrape_flipkart_reviews, flipkart_fallback.
  destruct Hget as [->|(page & -> & Hstatus)].
  - by rewrite mock_flipkart_first_of_month.
  - destruct (Z.eqb_spec (status_code page) 200); [done|]. simpl.
    by rewrite !mock_flipkart_first_of_month.
Qed.

Definition flipkart_down : flipkart_env := {|
  flipkart_get := λ _ _, None;
  flipkart_today := {| year := 2026; month := 12; day := 1 |};
  flipkart_random := λ _ i,
    {| pick_rating := i; pick_text := i; pick_days_ago := i;
       pick_verified := i; pick_votes := i |}
|}.

Lemma flipkart_first_of_month_witness :
  scrape_flipkart_reviews flipkart_down
    "https://www.flipkart.com/phone/p/itm1" 20
  = Some (Raise (ValueError "day is out of range for month")).
Proof.
  apply (flipkart_first_of_month flipkart_down); [reflexivity|lia|].
  by left.
Defined.

End Flipkart.
